(** * icdapp-extension: response parsing, file classification and build-session status

    A shallow embedding of the response-parsing core of the extension
    ([backendBuilder.ts], [frontendBuilder.ts]) and of the status writes of
    the build pipeline ([extension.ts]), followed by the properties the
    specification states about them.

    Conventions of the embedding.
    - A JavaScript string is a [string]; one [ascii] stands for one code
      unit below 256.  The regular expressions of the source carry no [i],
      [m] or [u] flag, so code units are compared as they are.
    - Rocq string literals have no escapes: a line feed is written [LF], the
      two-character sequence backslash-n is the literal ["\n"].
    - [null] and [undefined] are [None].
    - Regular expressions are kept as syntax trees and run by a backtracking
      matcher that tries alternatives in the order JavaScript does. *)

From Stdlib Require Import String Ascii List Bool Arith ZArith NArith Lia.
Import ListNotations.
Open Scope string_scope.
Set Warnings "-register-all".

(* ================================================================== *)
(** * Characters and JavaScript string methods *)

Definition chLF : ascii := "010".
Definition chCR : ascii := "013".
Definition chTAB : ascii := "009".
Definition chDQ : ascii := "034".
Definition chSQ : ascii := "039".
Definition chBS : ascii := "092".
Definition chTICK : ascii := "096".

Definition LF : string := String chLF "".
Definition CR : string := String chCR "".
Definition TAB : string := String chTAB "".
Definition DQ : string := String chDQ "".
Definition SQ : string := String chSQ "".
Definition BS : string := String chBS "".

(** [s.startsWith(p)] *)
Definition startsWith (s p : string) : bool := prefix p s.

(** [s.endsWith(p)]: some tail of [s] is [p]. *)
Fixpoint endsWith (s p : string) : bool :=
  (s =? p) ||
  match s with
  | "" => false
  | String _ s' => endsWith s' p
  end.

(** [s.includes(p)]: [p] starts at some position of [s]. *)
Fixpoint includes (s p : string) : bool :=
  prefix p s ||
  match s with
  | "" => false
  | String _ s' => includes s' p
  end.

(** [s.slice(b, e)], negative indices counted from the end. *)
Definition slice (s : string) (b e : Z) : string :=
  let len := Z.of_nat (String.length s) in
  let from := if (b <? 0)%Z then Z.max (len + b) 0 else Z.min b len in
  let to := if (e <? 0)%Z then Z.max (len + e) 0 else Z.min e len in
  substring (Z.to_nat from) (Z.to_nat (Z.max (to - from) 0)) s.

(** White space and line terminators removed by [trim], among the code
    units below 256: TAB, LF, VT, FF, CR, SP and NBSP. *)
Definition isWhiteSpace (c : ascii) : bool :=
  existsb (N.eqb (N_of_ascii c)) [9; 10; 11; 12; 13; 32; 160]%N.

Fixpoint trimStart (s : string) : string :=
  match s with
  | "" => ""
  | String c s' => if isWhiteSpace c then trimStart s' else s
  end.

Fixpoint trimEnd (s : string) : string :=
  match s with
  | "" => ""
  | String c s' =>
      match trimEnd s' with
      | "" => if isWhiteSpace c then "" else String c ""
      | t => String c t
      end
  end.

(** [s.trim()] *)
Definition trim (s : string) : string := trimEnd (trimStart s).

(* ================================================================== *)
(** * Regular expressions

    The fragment of the JavaScript syntax the source uses: literal
    characters, sequence, ordered alternation, the greedy option [r?], the
    lazy [[\s\S]*?] and the end anchor [$]. *)

Inductive regex : Type :=
| Chr (c : ascii)
| Eps
| Cat (r1 r2 : regex)
| Alt (r1 r2 : regex)
| Opt (r : regex)
| LazyAny
| EndAnchor.

Declare Scope regex_scope.
Delimit Scope regex_scope with re.
Bind Scope regex_scope with regex.
Notation "r1 +> r2" := (Cat r1 r2) (at level 61, right associativity) : regex_scope.
Notation "r1 <|> r2" := (Alt r1 r2) (at level 62, right associativity) : regex_scope.

(** A literal run of characters. *)
Fixpoint lit (p : string) : regex :=
  match p with
  | "" => Eps
  | String c p' => Cat (Chr c) (lit p')
  end.

(** The lazy loop of [[\s\S]*?]: hand the input to the continuation first,
    and only when that fails consume one more character. *)
Fixpoint lazy_any {A : Type} (k : string -> option A) (s : string) : option A :=
  match k s with
  | Some x => Some x
  | None =>
      match s with
      | "" => None
      | String _ s' => lazy_any k s'
      end
  end.

(** Backtracking matcher, anchored at the head of [s]: [k] receives what is
    left of the input after [r] and decides the rest of the match; a [None]
    from [k] makes [r] try its next way of matching. *)
Fixpoint rmatch {A : Type} (r : regex) (s : string) (k : string -> option A) : option A :=
  match r with
  | Chr c =>
      match s with
      | "" => None
      | String c' s' => if Ascii.eqb c c' then k s' else None
      end
  | Eps => k s
  | Cat r1 r2 => rmatch r1 s (fun s' => rmatch r2 s' k)
  | Alt r1 r2 =>
      match rmatch r1 s k with
      | Some x => Some x
      | None => rmatch r2 s k
      end
  | Opt r1 =>
      match rmatch r1 s k with
      | Some x => Some x
      | None => k s
      end
  | LazyAny => lazy_any k s
  | EndAnchor =>
      match s with
      | "" => k s
      | String _ _ => None
      end
  end.

(** One attempt at the head of [s]: the input left after the match. *)
Definition exec (r : regex) (s : string) : option string := rmatch r s Some.

(** The text a match at the head of [s] covered, given what it left. *)
Definition matched (s rest : string) : string :=
  substring 0 (String.length s - String.length rest) s.

(** [s.replace(r, rep)] for a regex without the [g] flag: the leftmost
    match is replaced, the rest of the string is kept. *)
Fixpoint replace_first (r : regex) (rep : string) (s : string) : string :=
  match exec r s with
  | Some rest => rep ++ rest
  | None =>
      match s with
      | "" => ""
      | String c s' => String c (replace_first r rep s')
      end
  end.

(** [s.replace(r, rep)] for a regex with the [g] flag.  [skip] counts the
    characters of the current match that are still to be passed over; an
    empty match advances by one character, as [lastIndex] does. *)
Fixpoint replace_all_from (r : regex) (rep : string) (skip : nat) (s : string) : string :=
  match skip with
  | S n =>
      match s with
      | "" => ""
      | String _ s' => replace_all_from r rep n s'
      end
  | O =>
      match exec r s with
      | Some rest =>
          match s with
          | "" => rep
          | String c s' =>
              match String.length s - String.length rest with
              | O => rep ++ String c (replace_all_from r rep 0 s')
              | S n => rep ++ replace_all_from r rep n s'
              end
          end
      | None =>
          match s with
          | "" => ""
          | String c s' => String c (replace_all_from r rep 0 s')
          end
      end
  end.

Definition replace_all (r : regex) (rep : string) (s : string) : string :=
  replace_all_from r rep 0 s.

(** The matches of a regex with the [g] flag, left to right. *)
Fixpoint match_all_from (r : regex) (skip : nat) (s : string) : list string :=
  match skip with
  | S n =>
      match s with
      | "" => []
      | String _ s' => match_all_from r n s'
      end
  | O =>
      match exec r s with
      | Some rest =>
          matched s rest ::
          match s with
          | "" => []
          | String _ s' => match_all_from r (Nat.pred (String.length s - String.length rest)) s'
          end
      | None =>
          match s with
          | "" => []
          | String _ s' => match_all_from r 0 s'
          end
      end
  end.

(** [s.match(r)] for a regex with the [g] flag: [null] when nothing matches. *)
Definition js_match (r : regex) (s : string) : option (list string) :=
  match match_all_from r 0 s with
  | [] => None
  | ms => Some ms
  end.

(* ================================================================== *)
(** * Shared data: files, the section map, API response values *)

(** [{ filename: string; content: string }] *)
Record file : Type := mkFile { filename : string; content : string }.

(** A JavaScript [Map<string, string>]: entries in insertion order, [set]
    on a key that is present overwrites its value where it stands. *)
Definition JsMap : Type := list (string * string).

Fixpoint map_set (k v : string) (m : JsMap) : JsMap :=
  match m with
  | [] => [(k, v)]
  | (k', v') :: m' => if (k' =? k)%string then (k', v) :: m' else (k', v') :: map_set k v m'
  end.

Definition map_size (m : JsMap) : nat := List.length m.

(** [IcdAppConfig.backend] and [IcdAppConfig.frontend] *)
Inductive backend_kind : Type := motoko | rust.
Inductive frontend_kind : Type := react | nextjs.

(** A value of [response.data]: what the HTTP client hands over, parsed
    JSON or the body as a string.  An object lists its own properties, each
    key once.  Of a number only its being zero is ever looked at. *)
Inductive json : Type :=
| JNull
| JBool (b : bool)
| JNumber (n : Z)
| JString (s : string)
| JArray (items : list json)
| JObject (fields : list (string * json)).

Inductive jstype : Type := TObject | TString | TNumber | TBoolean | TUndefined.

(** [typeof v], for a value that may be [undefined]. *)
Definition typeof (v : option json) : jstype :=
  match v with
  | None => TUndefined
  | Some JNull => TObject
  | Some (JBool _) => TBoolean
  | Some (JNumber _) => TNumber
  | Some (JString _) => TString
  | Some (JArray _) => TObject
  | Some (JObject _) => TObject
  end.

Definition jstype_eqb (a b : jstype) : bool :=
  match a, b with
  | TObject, TObject | TString, TString | TNumber, TNumber
  | TBoolean, TBoolean | TUndefined, TUndefined => true
  | _, _ => false
  end.

(** The truth value JavaScript gives [v] in a condition. *)
Definition truthy (v : option json) : bool :=
  match v with
  | None => false
  | Some JNull => false
  | Some (JBool b) => b
  | Some (JNumber n) => negb (n =? 0)%Z
  | Some (JString s) => negb (s =? "")%string
  | Some (JArray _) => true
  | Some (JObject _) => true
  end.

Fixpoint assoc (key : string) (fields : list (string * json)) : option json :=
  match fields with
  | [] => None
  | (k, v) :: rest => if (k =? key)%string then Some v else assoc key rest
  end.

(** [v[key]] for the field names the parsers probe; none of them is a
    property of arrays or of [Object.prototype], so only an object's own
    fields answer. *)
Definition prop (v : json) (key : string) : option json :=
  match v with
  | JObject fields => assoc key fields
  | _ => None
  end.

(** A value read where the source has narrowed it to a string. *)
Definition asString (v : option json) : option string :=
  match v with
  | Some (JString s) => Some s
  | _ => None
  end.

(** The loop [for (const key of alternativeKeys)] with its [break]: the
    first key whose value is truthy and a string. *)
Fixpoint probeKeys (responseData : json) (keys : list string) : option string :=
  match keys with
  | [] => None
  | key :: rest =>
      if truthy (prop responseData key) &&
         jstype_eqb (typeof (prop responseData key)) TString
      then asString (prop responseData key)
      else probeKeys responseData rest
  end.

(* ================================================================== *)
(** * The code cleaner, shared by both builders up to the language tags *)

Section CodeCleaner.

(** The alternation of language tags in the builder's [codeBlockRegex]. *)
Variable langs : regex.

(** [/```(?:langs)?\n?([\s\S]*?)```/g] *)
Definition codeBlockRegex : regex :=
  (lit "```" +> Opt langs +> Opt (Chr chLF) +> LazyAny +> lit "```")%re.

(** [/```(?:langs)?\n?/] *)
Definition fenceOpenRegex : regex :=
  (lit "```" +> Opt langs +> Opt (Chr chLF))%re.

(** [/```$/] *)
Definition fenceCloseRegex : regex := (lit "```" +> EndAnchor)%re.

Definition removeMarkdownCodeBlocks (code : string) : string :=
  match js_match codeBlockRegex code with
  | Some (m :: _) =>
      replace_first fenceCloseRegex "" (replace_first fenceOpenRegex "" m)
  | _ => code
  end.

(** The body of [cleanGeneratedCode].  Every step is total on strings, so
    the [catch] branch that returns [rawCode] is never taken. *)
Definition cleanGeneratedCode (rawCode : string) : string :=
  let formattedCode := rawCode in
  let formattedCode :=
    if includes formattedCode "\n" then
      replace_all (lit "\\") BS
        (replace_all (lit (BS ++ DQ)) DQ
          (replace_all (lit "\r") CR
            (replace_all (lit "\t") TAB
              (replace_all (lit "\n") LF formattedCode))))
    else formattedCode in
  let formattedCode :=
    replace_all (lit CR) LF (replace_all (lit (CR ++ LF)) LF formattedCode) in
  let formattedCode :=
    if (startsWith formattedCode DQ && endsWith formattedCode DQ) ||
       (startsWith formattedCode SQ && endsWith formattedCode SQ)
    then slice formattedCode 1 (-1)
    else formattedCode in
  let formattedCode := removeMarkdownCodeBlocks formattedCode in
  let formattedCode := trim formattedCode in
  let formattedCode :=
    if negb (endsWith formattedCode LF) then formattedCode ++ LF else formattedCode in
  formattedCode.

End CodeCleaner.

(* ================================================================== *)
(** * backendBuilder.ts *)

Module BackendBuilder.

(** [GeneratedFiles]; an optional field that was never assigned is [None]. *)
Record GeneratedFiles : Type := mkFiles {
  mainFile : file;
  candidFile : option file;
  additionalFiles : option (list file)
}.

(** [(?:motoko|rust|mo|rs)] *)
Definition langs : regex := (lit "motoko" <|> lit "rust" <|> lit "mo" <|> lit "rs")%re.

Definition removeMarkdownCodeBlocks : string -> string :=
  removeMarkdownCodeBlocks langs.

Definition cleanGeneratedCode : string -> string := cleanGeneratedCode langs.

(** [/```(?:motoko|rust|candid|toml)\n([\s\S]*?)```/g] *)
Definition sectionRegex : regex :=
  (lit "```" +> (lit "motoko" <|> lit "rust" <|> lit "candid" <|> lit "toml") +>
   Chr chLF +> LazyAny +> lit "```")%re.

(** [block.replace(/```tag\n?/, '').replace(/```$/, '').trim()] *)
Definition blockCode (tag : regex) (block : string) : string :=
  trim (replace_first (lit "```" +> EndAnchor) ""
         (replace_first (lit "```" +> tag +> Opt (Chr chLF)) "" block)).

(** One turn of the loop over [codeBlocks]. *)
Definition addBlock (files : JsMap) (block : string) : JsMap :=
  if includes block "```motoko" then
    map_set "main.mo" (blockCode (lit "motoko") block) files
  else if includes block "```rust" then
    map_set "lib.rs" (blockCode (lit "rust") block) files
  else if includes block "```candid" then
    map_set "backend.did" (blockCode (lit "candid") block) files
  else if includes block "```toml" then
    map_set "Cargo.toml" (blockCode (lit "toml") block) files
  else files.

Definition extractMarkdownSections (content : string) : JsMap :=
  let files : JsMap := [] in
  let files :=
    match js_match sectionRegex content with
    | Some codeBlocks => fold_left addBlock codeBlocks files
    | None => files
    end in
  if (map_size files =? 0)%nat then map_set "main" content files else files.

Definition isMainFile (filename : string) (backend : backend_kind) : bool :=
  match backend with
  | motoko =>
      endsWith filename ".mo" && ((filename =? "main.mo")%string || includes filename "main")
  | rust =>
      endsWith filename ".rs" && ((filename =? "lib.rs")%string || includes filename "lib")
  end.

(** One turn of the loop over the entries of [extractedFiles]. *)
Definition placeFile (backend : backend_kind) (files : GeneratedFiles)
    (entry : string * string) : GeneratedFiles :=
  let (filename, fileContent) := entry in
  if isMainFile filename backend then
    mkFiles (mkFile filename fileContent) (candidFile files) (additionalFiles files)
  else if endsWith filename ".did" then
    mkFiles (mainFile files) (Some (mkFile filename fileContent)) (additionalFiles files)
  else
    mkFiles (mainFile files) (candidFile files)
      (Some (match additionalFiles files with
             | None => []
             | Some l => l
             end ++ [mkFile filename fileContent])%list).

Definition extractFilesFromResponse (content : string) (backend : backend_kind)
    : GeneratedFiles :=
  let files :=
    mkFiles (mkFile (match backend with motoko => "main.mo" | rust => "lib.rs" end) "")
            None None in
  let cleanContent := cleanGeneratedCode content in
  let extractedFiles := extractMarkdownSections cleanContent in
  if (1 <? map_size extractedFiles)%nat then
    fold_left (placeFile backend) extractedFiles files
  else
    mkFiles (mkFile (filename (mainFile files)) cleanContent)
            (candidFile files) (additionalFiles files).

(** The value of the local [generatedCode] when the [if (!generatedCode)]
    test is reached. *)
Definition generatedCodeOf (responseData : json) : option string :=
  if truthy (Some responseData) && jstype_eqb (typeof (Some responseData)) TObject then
    if truthy (prop responseData "generatedCode") &&
       jstype_eqb (typeof (prop responseData "generatedCode")) TString
    then asString (prop responseData "generatedCode")
    else probeKeys responseData ["code"; "message"; "data"; "content"; "result"]
  else if jstype_eqb (typeof (Some responseData)) TString then
    asString (Some responseData)
  else None.

Definition parseAIResponse (responseData : json) (backend : backend_kind)
    : option GeneratedFiles :=
  match generatedCodeOf responseData with
  | None => None
  | Some generatedCode =>
      if negb (truthy (Some (JString generatedCode))) then None
      else Some (extractFilesFromResponse generatedCode backend)
  end.

End BackendBuilder.

(* ================================================================== *)
(** * frontendBuilder.ts *)

Module FrontendBuilder.

(** [GeneratedFrontendFiles] *)
Record GeneratedFrontendFiles : Type := mkFiles {
  appFile : file;
  stylesFile : option file;
  additionalFiles : option (list file)
}.

(** [(?:jsx|tsx|javascript|typescript|react|nextjs)] *)
Definition langs : regex :=
  (lit "jsx" <|> lit "tsx" <|> lit "javascript" <|> lit "typescript" <|>
   lit "react" <|> lit "nextjs")%re.

Definition removeMarkdownCodeBlocks : string -> string :=
  removeMarkdownCodeBlocks langs.

Definition cleanGeneratedCode : string -> string := cleanGeneratedCode langs.

(** [/```(?:jsx|tsx|javascript|typescript|css|scss|json)\n([\s\S]*?)```/g] *)
Definition sectionRegex : regex :=
  (lit "```" +>
   (lit "jsx" <|> lit "tsx" <|> lit "javascript" <|> lit "typescript" <|>
    lit "css" <|> lit "scss" <|> lit "json") +>
   Chr chLF +> LazyAny +> lit "```")%re.

(** [block.replace(/```tag\n?/, '').replace(/```$/, '').trim()] *)
Definition blockCode (tag : regex) (block : string) : string :=
  trim (replace_first (lit "```" +> EndAnchor) ""
         (replace_first (lit "```" +> tag +> Opt (Chr chLF)) "" block)).

(** One turn of the loop over [codeBlocks]. *)
Definition addBlock (files : JsMap) (block : string) : JsMap :=
  if includes block "```jsx" || includes block "```tsx" then
    let code := blockCode (lit "jsx" <|> lit "tsx") block in
    let filename := if includes block "```tsx" then "App.tsx" else "App.jsx" in
    map_set filename code files
  else if includes block "```css" || includes block "```scss" then
    let code := blockCode (lit "css" <|> lit "scss") block in
    let filename := if includes block "```scss" then "index.scss" else "globals.css" in
    map_set filename code files
  else if includes block "```json" then
    map_set "package.json" (blockCode (lit "json") block) files
  else files.

Definition extractMarkdownSections (content : string) : JsMap :=
  let files : JsMap := [] in
  let files :=
    match js_match sectionRegex content with
    | Some codeBlocks => fold_left addBlock codeBlocks files
    | None => files
    end in
  if (map_size files =? 0)%nat then map_set "main" content files else files.

Definition isMainAppFile (filename : string) (frontend : frontend_kind) : bool :=
  match frontend with
  | nextjs =>
      includes filename "page." || includes filename "App." ||
      endsWith filename ".tsx" || endsWith filename ".jsx"
  | react =>
      includes filename "App." || includes filename "app." ||
      (endsWith filename ".jsx" || endsWith filename ".tsx")
  end.

Definition isStylesFile (filename : string) : bool :=
  endsWith filename ".css" || endsWith filename ".scss" ||
  endsWith filename ".sass" || includes filename "style".

(** One turn of the loop over the entries of [extractedFiles]. *)
Definition placeFile (frontend : frontend_kind) (files : GeneratedFrontendFiles)
    (entry : string * string) : GeneratedFrontendFiles :=
  let (filename, fileContent) := entry in
  if isMainAppFile filename frontend then
    mkFiles (mkFile filename fileContent) (stylesFile files) (additionalFiles files)
  else if isStylesFile filename then
    mkFiles (appFile files) (Some (mkFile filename fileContent)) (additionalFiles files)
  else
    mkFiles (appFile files) (stylesFile files)
      (Some (match additionalFiles files with
             | None => []
             | Some l => l
             end ++ [mkFile filename fileContent])%list).

Definition extractFrontendFilesFromResponse (content : string) (frontend : frontend_kind)
    : GeneratedFrontendFiles :=
  let files :=
    mkFiles (mkFile (match frontend with nextjs => "page.tsx" | react => "App.jsx" end) "")
            None None in
  let cleanContent := cleanGeneratedCode content in
  let extractedFiles := extractMarkdownSections cleanContent in
  if (1 <? map_size extractedFiles)%nat then
    fold_left (placeFile frontend) extractedFiles files
  else
    mkFiles (mkFile (filename (appFile files)) cleanContent)
            (stylesFile files) (additionalFiles files).

(** The value of the local [generatedCode] when the [if (!generatedCode)]
    test is reached. *)
Definition generatedCodeOf (responseData : json) : option string :=
  if truthy (Some responseData) && jstype_eqb (typeof (Some responseData)) TObject then
    if truthy (prop responseData "code") &&
       jstype_eqb (typeof (prop responseData "code")) TString
    then asString (prop responseData "code")
    else if truthy (prop responseData "generatedCode") &&
            jstype_eqb (typeof (prop responseData "generatedCode")) TString
    then asString (prop responseData "generatedCode")
    else probeKeys responseData ["content"; "data"; "result"; "message"]
  else if jstype_eqb (typeof (Some responseData)) TString then
    asString (Some responseData)
  else None.

Definition parseAIFrontendResponse (responseData : json) (frontend : frontend_kind)
    : option GeneratedFrontendFiles :=
  match generatedCodeOf responseData with
  | None => None
  | Some generatedCode =>
      if negb (truthy (Some (JString generatedCode))) then None
      else Some (extractFrontendFilesFromResponse generatedCode frontend)
  end.

End FrontendBuilder.

(* ================================================================== *)
(** * The build session and the status writes of the pipeline

    [BackendBuilder.createFullBackend], [FrontendBuilder.createFullFrontend]
    and [IcdAppExtension.executeBuildPipeline] mutate one shared session
    object.  They are embedded in a state monad over that session; the state
    also keeps the list of the values assigned to [session.status], oldest
    first, and a thrown exception leaves the state as it was when thrown. *)

Module Pipeline.

(** The [status] union of [BuildSession], in the order it is declared. *)
Inductive Status : Type :=
| StPending
| StCreatingProject
| StBuildingBackend
| StBuildingFrontend
| StCompleted
| StError.

Record IcdAppConfig : Type := mkConfig {
  frontend : frontend_kind;
  backend : backend_kind;
  description : string;
  projectName : string
}.

Record BuildSession : Type := mkSession {
  id : string;
  config : IcdAppConfig;
  backendCode : option string;
  frontendCode : option string;
  status : Status;
  error : option string;
  projectPath : option string
}.

Record world : Type := mkWorld {
  session : BuildSession;
  statusWrites : list Status
}.

Inductive outcome (A : Type) : Type :=
| Returned (a : A)
| Thrown (message : string).
Arguments Returned {A} a.
Arguments Thrown {A} message.

Definition M (A : Type) : Type := world -> outcome A * world.

Definition ret {A : Type} (a : A) : M A := fun w => (Returned a, w).

Definition bind {A B : Type} (m : M A) (f : A -> M B) : M B :=
  fun w =>
    match m w with
    | (Returned a, w') => f a w'
    | (Thrown e, w') => (Thrown e, w')
    end.

Definition throw {A : Type} (e : string) : M A := fun w => (Thrown e, w).

(** [try { body } catch (error) { handler }] *)
Definition tryCatch {A : Type} (body : M A) (handler : string -> M A) : M A :=
  fun w =>
    match body w with
    | (Returned a, w') => (Returned a, w')
    | (Thrown e, w') => handler e w'
    end.

Notation "x <- m ;; k" := (bind m (fun x => k))
  (at level 100, m at next level, right associativity).
Notation "m ;;; k" := (bind m (fun _ => k))
  (at level 100, right associativity).

Definition getSession : M BuildSession := fun w => (Returned (session w), w).

(** [session.status = st] *)
Definition setStatus (st : Status) : M unit :=
  fun w =>
    let s := session w in
    (Returned tt,
     mkWorld (mkSession (id s) (config s) (backendCode s) (frontendCode s) st
                        (error s) (projectPath s))
             (statusWrites w ++ [st])%list).

(** [session.error = msg] *)
Definition setError (msg : string) : M unit :=
  fun w =>
    let s := session w in
    (Returned tt,
     mkWorld (mkSession (id s) (config s) (backendCode s) (frontendCode s) (status s)
                        (Some msg) (projectPath s))
             (statusWrites w)).

(** [session.projectPath = p] *)
Definition setProjectPath (p : string) : M unit :=
  fun w =>
    let s := session w in
    (Returned tt,
     mkWorld (mkSession (id s) (config s) (backendCode s) (frontendCode s) (status s)
                        (error s) (Some p))
             (statusWrites w)).

(** [session.backendCode = code] *)
Definition setBackendCode (code : string) : M unit :=
  fun w =>
    let s := session w in
    (Returned tt,
     mkWorld (mkSession (id s) (config s) (Some code) (frontendCode s) (status s)
                        (error s) (projectPath s))
             (statusWrites w)).

(** The truth value of an optional string in a condition: [undefined],
    [null] and the empty string are false. *)
Definition truthyStr (v : option string) : bool :=
  match v with
  | None => false
  | Some s => negb (s =? "")%string
  end.

(** What the world outside the process answers during one build: the file
    system and the [dfx] command, the generation API, and the editor. *)
Record Env : Type := mkEnv {
  (** [createDfxProject]: the project path, or [null]; the method catches
      its own exceptions. *)
  dfxProject : option string;
  (** [axios.post('/generate-backend')]: the response data, or [None] when
      the request throws. *)
  backendResponse : option json;
  (** [replaceBackendCode] and [updateDfxConfig]: both return a boolean and
      catch their own exceptions. *)
  backendWritten : bool;
  dfxConfigValid : bool;
  (** [axios.post('/generate-frontend')] *)
  frontendResponse : option json;
  (** [replaceFrontendCode] and [updatePackageJson] *)
  frontendWritten : bool;
  packageJsonUpdated : bool;
  (** The editor calls that present the finished build; [Some msg] when one
      of them throws. *)
  presentationFault : option string
}.

Section Run.

Variable env : Env.

(** The calls that leave the process answer from [env].  Calls to the
    logger and to [progress.report] touch no session and are left out. *)
Definition createDfxProject : M (option string) := ret (dfxProject env).
Definition replaceBackendCode : M bool := ret (backendWritten env).
Definition updateDfxConfig : M bool := ret (dfxConfigValid env).
Definition replaceFrontendCode : M bool := ret (frontendWritten env).
Definition updatePackageJson : M bool := ret (packageJsonUpdated env).

(** [BackendBuilder.buildBackendCode] *)
Definition buildBackendCode : M (option BackendBuilder.GeneratedFiles) :=
  s <- getSession ;;
  match backendResponse env with
  | None => ret None
  | Some data =>
      match BackendBuilder.parseAIResponse data (backend (config s)) with
      | Some generatedFiles =>
          setBackendCode (content (BackendBuilder.mainFile generatedFiles)) ;;;
          ret (Some generatedFiles)
      | None => ret None
      end
  end.

(** [BackendBuilder.createFullBackend] *)
Definition createFullBackend : M bool :=
  tryCatch
    (setStatus StCreatingProject ;;;
     projectPath <- createDfxProject ;;
     if negb (truthyStr projectPath) then
       setStatus StError ;;;
       setError "Failed to create project" ;;;
       ret false
     else
       setProjectPath (match projectPath with Some p => p | None => "" end) ;;;
       setStatus StBuildingBackend ;;;
       generatedFiles <- buildBackendCode ;;
       match generatedFiles with
       | None =>
           setStatus StError ;;;
           setError "Failed to generate backend code" ;;;
           ret false
       | Some _ =>
           replaceSuccess <- replaceBackendCode ;;
           if negb replaceSuccess then
             setStatus StError ;;;
             setError "Failed to replace backend code" ;;;
             ret false
           else
             configSuccess <- updateDfxConfig ;;
             setStatus StCompleted ;;;
             ret true
       end)
    (fun e =>
       setStatus StError ;;;
       setError ("Backend creation failed: " ++ e) ;;;
       ret false).

(** [FrontendBuilder.buildFrontendCode] *)
Definition buildFrontendCode : M (option FrontendBuilder.GeneratedFrontendFiles) :=
  s <- getSession ;;
  match frontendResponse env with
  | None => ret None
  | Some data => ret (FrontendBuilder.parseAIFrontendResponse data (frontend (config s)))
  end.

(** [FrontendBuilder.createFullFrontend] *)
Definition createFullFrontend : M bool :=
  tryCatch
    (s <- getSession ;;
     if negb (truthyStr (projectPath s)) then
       setError "Project path not available for frontend creation" ;;;
       ret false
     else
       setStatus StBuildingFrontend ;;;
       generatedFiles <- buildFrontendCode ;;
       match generatedFiles with
       | None =>
           setError "Failed to generate frontend code" ;;;
           ret false
       | Some _ =>
           replaceSuccess <- replaceFrontendCode ;;
           if negb replaceSuccess then
             setError "Failed to replace frontend code" ;;;
             ret false
           else
             packageSuccess <- updatePackageJson ;;
             ret true
       end)
    (fun e =>
       setError ("Frontend creation failed: " ++ e) ;;;
       ret false).

(** The editor calls after [session.status = 'completed']. *)
Definition presentResult : M unit :=
  s <- getSession ;;
  if truthyStr (projectPath s) then
    match presentationFault env with
    | Some e => throw e
    | None => ret tt
    end
  else ret tt.

(** [IcdAppExtension.executeBuildPipeline]; it rethrows what it caught. *)
Definition executeBuildPipeline : M unit :=
  tryCatch
    (success <- createFullBackend ;;
     (if negb success then
        s <- getSession ;;
        throw (if truthyStr (error s)
               then match error s with Some e => e | None => "" end
               else "Backend creation failed")
      else ret tt) ;;;
     setStatus StBuildingFrontend ;;;
     tryCatch (createFullFrontend ;;; ret tt) (fun _ => ret tt) ;;;
     setStatus StCompleted ;;;
     presentResult)
    (fun e =>
       setStatus StError ;;;
       setError e ;;;
       throw e).

End Run.

(** [createBuildSession]: a fresh session is [pending], nothing written yet. *)
Definition createBuildSession (sessionId : string) (cfg : IcdAppConfig) : world :=
  mkWorld (mkSession sessionId cfg None None StPending None None) [].

(** The values assigned to [session.status] during one build, in order. *)
Definition statusTrace (env : Env) (sessionId : string) (cfg : IcdAppConfig)
    : list Status :=
  statusWrites (snd (executeBuildPipeline env (createBuildSession sessionId cfg))).

(** The final status of one build. *)
Definition finalStatus (env : Env) (sessionId : string) (cfg : IcdAppConfig) : Status :=
  status (session (snd (executeBuildPipeline env (createBuildSession sessionId cfg)))).

End Pipeline.

(* ================================================================== *)
(** * projectManager.ts

    [ProjectManager.createFullstackProject] drives the same backend stage
    as the extension's pipeline and then its own frontend step,
    [enhanceFrontend], on the same session object. *)

Module ProjectManager.

Import Pipeline.

(** [session.frontendCode = code] *)
Definition setFrontendCode (code : string) : M unit :=
  fun w =>
    let s := session w in
    (Returned tt,
     mkWorld (mkSession (id s) (config s) (backendCode s) (Some code) (status s)
                        (error s) (projectPath s))
             (statusWrites w)).

Section Run.

Variable env : Env.

(** [replaceFrontendFiles] wraps what the file system throws in a new
    error; [Some msg] when it does. *)
Variable replaceFault : option string.

(** [FrontendBuilder.buildFrontendCode] from its first line: the test of
    the request's fields comes before the request.  The [frontend] field of
    the request is one of two non-empty literals. *)
Definition buildFrontendCode : M (option FrontendBuilder.GeneratedFrontendFiles) :=
  s <- getSession ;;
  if negb (truthyStr (Some (description (config s)))) || negb (truthyStr (Some (id s)))
  then ret None
  else Pipeline.buildFrontendCode env.

Definition replaceFrontendFiles : M unit :=
  match replaceFault with
  | Some e => throw ("Failed to replace frontend files: " ++ e)
  | None => ret tt
  end.

(** [ProjectManager.enhanceFrontend] *)
Definition enhanceFrontend : M bool :=
  tryCatch
    (s <- getSession ;;
     if negb (truthyStr (projectPath s)) then ret false
     else
       frontendFiles <- buildFrontendCode ;;
       match frontendFiles with
       | Some files =>
           replaceFrontendFiles ;;;
           setFrontendCode (content (FrontendBuilder.appFile files)) ;;;
           ret true
       | None => ret false
       end)
    (fun _ => ret false).

(** [ProjectManager.createFullstackProject].  [validateFullstackProject]
    reads the disk and reports to the logger only. *)
Definition createFullstackProject : M bool :=
  tryCatch
    (setStatus StCreatingProject ;;;
     backendSuccess <- createFullBackend env ;;
     s <- getSession ;;
     if negb backendSuccess || negb (truthyStr (projectPath s)) then ret false
     else
       setStatus StBuildingFrontend ;;;
       frontendSuccess <- enhanceFrontend ;;
       setStatus StCompleted ;;;
       ret true)
    (fun e =>
       setStatus StError ;;;
       setError ("Fullstack project creation failed: " ++ e) ;;;
       ret false).

End Run.

End ProjectManager.

(* ================================================================== *)
(** * Validation of the project on disk

    [BackendBuilder.validateProjectStructure],
    [ProjectManager.validateFullstackProject] and
    [FrontendBuilder.validateFrontendStructure] ask the file system which
    paths exist.  The file system and the [path] module are parameters:
    [existsSync] answers for a path, [join] is [path.join] on its arguments
    and [basename] is [path.basename].  None of the three throws on
    strings, so the [catch] branches of the validators are not entered. *)

Module ProjectStructure.

Import Pipeline.

(** [{ valid: boolean; errors: string[] }] *)
Record Validation : Type := mkValidation { valid : bool; errors : list string }.

(** [if (!cond) errors.push(message)] *)
Definition pushUnless (cond : bool) (message : string) (errors : list string)
    : list string :=
  if negb cond then (errors ++ [message])%list else errors.

Section FileSystem.

Variable existsSync : string -> bool.
Variable join : list string -> string.
Variable basename : string -> string.

(** [BackendBuilder.getBackendSourcePath] *)
Definition getBackendSourcePath (projectPath : string) (backend : backend_kind) : string :=
  let projectName := basename projectPath in
  join [projectPath; "src"; projectName ++ "_backend"].

(** [BackendBuilder.getMainBackendFilePath] *)
Definition getMainBackendFilePath (projectPath : string) (backend : backend_kind) : string :=
  let backendSrcPath := getBackendSourcePath projectPath backend in
  let filename := match backend with motoko => "main.mo" | rust => "lib.rs" end in
  join [backendSrcPath; filename].

(** [BackendBuilder.validateProjectStructure] *)
Definition validateProjectStructure (projectPath : string) (config : IcdAppConfig)
    : Validation :=
  let errors : list string := [] in
  let errors := pushUnless (existsSync (join [projectPath; "dfx.json"]))
                  "dfx.json not found" errors in
  let backendSrcPath := getBackendSourcePath projectPath (backend config) in
  let errors := pushUnless (existsSync backendSrcPath)
                  ("Backend source directory not found: " ++ backendSrcPath) errors in
  let mainFilePath := getMainBackendFilePath projectPath (backend config) in
  let errors := pushUnless (existsSync mainFilePath)
                  ("Main backend file not found: " ++ mainFilePath) errors in
  let projectName := basename projectPath in
  let frontendPath := join [projectPath; "src"; projectName ++ "_frontend"] in
  let errors := pushUnless (existsSync frontendPath)
                  ("Frontend directory not found: " ++ frontendPath) errors in
  mkValidation (List.length errors =? 0)%nat errors.

(** [ProjectManager.validateFullstackProject] *)
Definition validateFullstackProject (projectPath : string) (config : IcdAppConfig)
    : Validation :=
  let errors : list string := [] in
  let backendValidation := validateProjectStructure projectPath config in
  let errors := (errors ++ ProjectStructure.errors backendValidation)%list in
  let projectName := basename projectPath in
  let frontendPath := join [projectPath; "src"; projectName ++ "_frontend"] in
  let errors :=
    if negb (existsSync frontendPath) then
      (errors ++ [("Frontend directory not found: " ++ frontendPath)%string])%list
    else
      let srcPath := join [frontendPath; "src"] in
      let packageJsonPath := join [frontendPath; "package.json"] in
      let errors := pushUnless (existsSync srcPath)
                      ("Frontend src directory not found: " ++ srcPath) errors in
      pushUnless (existsSync packageJsonPath)
        ("Frontend package.json not found: " ++ packageJsonPath) errors in
  mkValidation (List.length errors =? 0)%nat errors.

(** [FrontendBuilder.getFrontendSourcePath] *)
Definition getFrontendSourcePath (projectPath : string) : string :=
  let projectName := basename projectPath in
  join [projectPath; "src"; projectName ++ "_frontend"; "src"].

(** [FrontendBuilder.getFrontendFilePaths]: [appFile] and [stylesFile]. *)
Definition getFrontendFilePaths (projectPath : string) (frontend : frontend_kind)
    : string * string :=
  let frontendSrcPath := getFrontendSourcePath projectPath in
  match frontend with
  | nextjs => (join [frontendSrcPath; "app"; "page.tsx"],
               join [frontendSrcPath; "app"; "globals.css"])
  | react => (join [frontendSrcPath; "App.jsx"],
              join [frontendSrcPath; "index.scss"])
  end.

(** [FrontendBuilder.validateFrontendStructure] *)
Definition validateFrontendStructure (projectPath : string) (config : IcdAppConfig)
    : Validation :=
  let errors : list string := [] in
  let projectName := basename projectPath in
  let frontendPath := join [projectPath; "src"; projectName ++ "_frontend"] in
  if negb (existsSync frontendPath) then
    mkValidation false (errors ++ [("Frontend directory not found: " ++ frontendPath)%string])%list
  else
    let packageJsonPath := join [frontendPath; "package.json"] in
    let errors := pushUnless (existsSync packageJsonPath)
                    "package.json not found in frontend directory" errors in
    let frontendPaths := getFrontendFilePaths projectPath (frontend config) in
    let errors := pushUnless (existsSync (fst frontendPaths))
                    ("Main app file not found: " ++ fst frontendPaths) errors in
    let errors := pushUnless (existsSync (snd frontendPaths))
                    ("Styles file not found: " ++ snd frontendPaths) errors in
    mkValidation (List.length errors =? 0)%nat errors.

End FileSystem.

End ProjectStructure.

(* ================================================================== *)
(** * The specification's wording, as definitions to compare against *)

Module Spec.

(** §4.1 as worded: an object gives its primary field when that field holds
    a string, otherwise the first fallback field that holds a string; a
    string gives itself; every other shape fails. *)
Fixpoint firstStringField (v : json) (keys : list string) : option string :=
  match keys with
  | [] => None
  | key :: rest =>
      match prop v key with
      | Some (JString s) => Some s
      | _ => firstStringField v rest
      end
  end.

Definition normalize (primary : string) (fallbacks : list string) (v : json)
    : option string :=
  match v with
  | JObject _ => firstStringField v (primary :: fallbacks)
  | JString s => Some s
  | _ => None
  end.

(** The same reading with "string" narrowed to "non-empty string". *)
Fixpoint firstNonEmptyStringField (v : json) (keys : list string) : option string :=
  match keys with
  | [] => None
  | key :: rest =>
      match prop v key with
      | Some (JString (String c s)) => Some (String c s)
      | _ => firstNonEmptyStringField v rest
      end
  end.

Definition normalizeNonEmpty (primary : string) (fallbacks : list string) (v : json)
    : option string :=
  match v with
  | JObject _ => firstNonEmptyStringField v (primary :: fallbacks)
  | JString (String c s) => Some (String c s)
  | _ => None
  end.

(** §4.4 and the layout table of §6: what a stack expects of its primary
    file. *)
Record StackDescriptor : Type := mkStack {
  sourceExt : string;
  mainFilename : string;
  mainStem : string
}.

Definition backendStack (b : backend_kind) : StackDescriptor :=
  match b with
  | motoko => mkStack ".mo" "main.mo" "main"
  | rust => mkStack ".rs" "lib.rs" "lib"
  end.

Definition frontendStack (f : frontend_kind) : StackDescriptor :=
  match f with
  | nextjs => mkStack ".tsx" "page.tsx" "page"
  | react => mkStack ".jsx" "App.jsx" "App"
  end.

(** The stem of a filename: the name up to its last dot, the whole name
    when it has none. *)
Fixpoint stem (f : string) : string :=
  match f with
  | "" => ""
  | String c f' =>
      if includes f' "." then String c (stem f')
      else if Ascii.eqb c "." then "" else String c (stem f')
  end.

Definition primary (d : StackDescriptor) (f : string) : bool :=
  endsWith f (sourceExt d) &&
  ((f =? mainFilename d)%string || includes (stem f) (mainStem d)).

(** §4.6 as worded: a status write goes one step forward along the chain
    or diverts to [error], and a terminal status is written over by
    nothing. *)
Definition nextStatus (s : Pipeline.Status) : option Pipeline.Status :=
  match s with
  | Pipeline.StPending => Some Pipeline.StCreatingProject
  | Pipeline.StCreatingProject => Some Pipeline.StBuildingBackend
  | Pipeline.StBuildingBackend => Some Pipeline.StBuildingFrontend
  | Pipeline.StBuildingFrontend => Some Pipeline.StCompleted
  | Pipeline.StCompleted => None
  | Pipeline.StError => None
  end.

Definition terminal (s : Pipeline.Status) : bool :=
  match s with
  | Pipeline.StCompleted | Pipeline.StError => true
  | _ => false
  end.

Definition status_eqb (a b : Pipeline.Status) : bool :=
  match a, b with
  | Pipeline.StPending, Pipeline.StPending
  | Pipeline.StCreatingProject, Pipeline.StCreatingProject
  | Pipeline.StBuildingBackend, Pipeline.StBuildingBackend
  | Pipeline.StBuildingFrontend, Pipeline.StBuildingFrontend
  | Pipeline.StCompleted, Pipeline.StCompleted
  | Pipeline.StError, Pipeline.StError => true
  | _, _ => false
  end.

Definition validWrite (current written : Pipeline.Status) : bool :=
  negb (terminal current) &&
  (status_eqb written Pipeline.StError ||
   match nextStatus current with
   | Some n => status_eqb written n
   | None => false
   end).

Fixpoint disciplined (current : Pipeline.Status) (writes : list Pipeline.Status) : bool :=
  match writes with
  | [] => true
  | w :: ws => validWrite current w && disciplined w ws
  end.

End Spec.

(** The target filenames of a generated file set, primary first. *)
Definition optionalName (f : option file) : list string :=
  match f with
  | Some x => [filename x]
  | None => []
  end.

Definition additionalNames (l : option (list file)) : list string :=
  match l with
  | Some fs => map filename fs
  | None => []
  end.

Definition backendNames (g : BackendBuilder.GeneratedFiles) : list string :=
  (filename (BackendBuilder.mainFile g) ::
   optionalName (BackendBuilder.candidFile g) ++
   additionalNames (BackendBuilder.additionalFiles g))%list.

Definition frontendNames (g : FrontendBuilder.GeneratedFrontendFiles) : list string :=
  (filename (FrontendBuilder.appFile g) ::
   optionalName (FrontendBuilder.stylesFile g) ++
   additionalNames (FrontendBuilder.additionalFiles g))%list.

(* ================================================================== *)
(** * Concrete inputs used below *)

(** The double-escaped response of the second scenario of §8: the [code]
    field holds backslash, n, the comment, backslash, n. *)
Definition escapedHello : json := JObject [("code", JString "\n// hello\n")].

(** A response text that is one candid fence and nothing else. *)
Definition candidOnly : string := "```candid" ++ LF ++ "service : {}" ++ LF ++ "```".

(** A response object whose primary field holds the empty string. *)
Definition emptyPrimary : json :=
  JObject [("generatedCode", JString ""); ("code", JString "x")].

(** A build in which every outside call succeeds. *)
Definition smoothEnv : Pipeline.Env :=
  Pipeline.mkEnv (Some "/work/dapp")
                 (Some (JObject [("generatedCode", JString "actor {}")]))
                 true true
                 (Some (JObject [("code", JString "export default App")]))
                 true true None.

(** A build whose project directory already exists. *)
Definition blockedEnv : Pipeline.Env :=
  Pipeline.mkEnv None None false false None false false None.

Definition sampleConfig : Pipeline.IcdAppConfig :=
  Pipeline.mkConfig react motoko "a decentralized crowdfunding platform" "dapp".

(* ================================================================== *)
(** * Auxiliary notions for the proofs *)

(** [x] occurs in [s] as a run of consecutive characters. *)
Definition infix (x s : string) : Prop := exists a b, s = a ++ x ++ b.

(** What is left of [s] after the prefix [p]. *)
Fixpoint stripPrefix (p s : string) : option string :=
  match p with
  | "" => Some s
  | String c p' =>
      match s with
      | "" => None
      | String c' s' => if Ascii.eqb c c' then stripPrefix p' s' else None
      end
  end.

(** What is left of [s] after its first run of three backticks. *)
Definition afterTicks (s : string) : option string := lazy_any (stripPrefix "```") s.

(** The text of the leftmost match of [r] in [s]. *)
Fixpoint firstMatch (r : regex) (s : string) : option string :=
  match exec r s with
  | Some rest => Some (matched s rest)
  | None =>
      match s with
      | "" => None
      | String _ s' => firstMatch r s'
      end
  end.

(** Global replacement of the two characters [a b] by [c], and of the one
    character [a] by [c], written directly. *)
Fixpoint replace2 (a b c : ascii) (s : string) : string :=
  match s with
  | "" => ""
  | String x s' =>
      match s' with
      | "" => String x ""
      | String y s'' =>
          if Ascii.eqb a x && Ascii.eqb b y then String c (replace2 a b c s'')
          else String x (replace2 a b c s')
      end
  end.

Fixpoint replace1 (a c : ascii) (s : string) : string :=
  match s with
  | "" => ""
  | String x s' => String (if Ascii.eqb a x then c else x) (replace1 a c s')
  end.

(** The strings a regex can cover, leaving aside where the input ends. *)
Inductive covers : regex -> string -> Prop :=
| covers_chr c : covers (Chr c) (String c "")
| covers_eps : covers Eps ""
| covers_cat r1 r2 m1 m2 : covers r1 m1 -> covers r2 m2 -> covers (Cat r1 r2) (m1 ++ m2)
| covers_alt_l r1 r2 m : covers r1 m -> covers (Alt r1 r2) m
| covers_alt_r r1 r2 m : covers r2 m -> covers (Alt r1 r2) m
| covers_opt_some r m : covers r m -> covers (Opt r) m
| covers_opt_none r : covers (Opt r) ""
| covers_lazy m : covers LazyAny m
| covers_end : covers EndAnchor "".

(** No backtick in a string; no backtick in anything a regex covers. *)
Fixpoint noTick (s : string) : bool :=
  match s with
  | "" => true
  | String c s' => negb (Ascii.eqb c chTICK) && noTick s'
  end.

Fixpoint tickfree (r : regex) : bool :=
  match r with
  | Chr c => negb (Ascii.eqb c chTICK)
  | Eps => true
  | Cat r1 r2 => tickfree r1 && tickfree r2
  | Alt r1 r2 => tickfree r1 && tickfree r2
  | Opt r1 => tickfree r1
  | LazyAny => false
  | EndAnchor => true
  end.

(** [s] holds two runs of three backticks that do not overlap. *)
Definition hasFence (s : string) : Prop :=
  exists a b c, s = a ++ "```" ++ b ++ "```" ++ c.

(** Neither end of [t] is white space. *)
Definition trimmed (t : string) : Prop := trimStart t = t /\ trimEnd t = t.

(** The first character of [s] is [c]. *)
Definition headIs (c : ascii) (s : string) : bool :=
  match s with
  | "" => false
  | String x _ => Ascii.eqb c x
  end.

(** The target names of a generated file set as three slots: the primary
    file, the optional second file, the additional files. *)
Definition slots : Type := (string * option string * list string)%type.

Definition optName (s : option string) : list string :=
  match s with
  | Some n => [n]
  | None => []
  end.

Definition slotNames (t : slots) : list string :=
  let '(m, s, x) := t in (m :: optName s ++ x)%list.

(** One turn of either builder's placement loop, on names alone. *)
Definition placeName (isMain isSecond : string -> bool) (t : slots) (k : string) : slots :=
  let '(m, s, x) := t in
  if isMain k then (k, s, x)
  else if isSecond k then (m, Some k, x)
  else (m, s, (x ++ [k])%list).

(** What the placement loop keeps true, [seen] being the keys already
    placed: the primary name passes the primary test, every other name
    fails it and is a key already placed, and the other names are pairwise
    different. *)
Definition placed (isMain : string -> bool) (seen : list string) (t : slots) : Prop :=
  let '(m, s, x) := t in
  isMain m = true /\
  (forall n, In n (optName s ++ x)%list -> In n seen /\ isMain n = false) /\
  NoDup (optName s ++ x)%list.

Definition backendSlots (g : BackendBuilder.GeneratedFiles) : slots :=
  (filename (BackendBuilder.mainFile g),
   option_map filename (BackendBuilder.candidFile g),
   additionalNames (BackendBuilder.additionalFiles g)).

Definition frontendSlots (g : FrontendBuilder.GeneratedFrontendFiles) : slots :=
  (filename (FrontendBuilder.appFile g),
   option_map filename (FrontendBuilder.stylesFile g),
   additionalNames (FrontendBuilder.additionalFiles g)).

(* ================================================================== *)
(** * Texts with a known structure

    Inputs of a known shape, on which the cleaner and the section
    extractor can be described in closed form. *)

(** Every character of [s] passes [p]. *)
Fixpoint allChars (p : ascii -> bool) (s : string) : bool :=
  match s with
  | "" => true
  | String c s' => p c && allChars p s'
  end.

(** The escaping that [cleanGeneratedCode] undoes: line feed, tab,
    carriage return, double quote and backslash written as a backslash and
    a letter, as a JSON encoder writes them inside a string. *)
Definition escapeChar (c : ascii) : string :=
  if Ascii.eqb c chLF then "\n"
  else if Ascii.eqb c chTAB then "\t"
  else if Ascii.eqb c chCR then "\r"
  else if Ascii.eqb c chDQ then BS ++ DQ
  else if Ascii.eqb c chBS then "\\"
  else String c "".

(** Each character of [s] written out by [f]. *)
Fixpoint spell (f : ascii -> string) (s : string) : string :=
  match s with
  | "" => ""
  | String c s' => f c ++ spell f s'
  end.

Definition escapeText (s : string) : string := spell escapeChar s.

(** One or two characters that a scan for a backslash pair either takes
    whole or passes over: a character that is no backslash, or a backslash
    and a character that is no backslash. *)
Definition isPiece (p : string) : bool :=
  match p with
  | String x "" => negb (Ascii.eqb chBS x)
  | String x (String y "") => Ascii.eqb chBS x && negb (Ascii.eqb chBS y)
  | _ => false
  end.

(** A fenced section of a response: the text in front of it, its tag and
    its inner text. *)
Record fenced : Type := mkFenced { lead : string; tag : string; body : string }.

Definition blockOf (f : fenced) : string := "```" ++ tag f ++ LF ++ body f ++ "```".

(** The sections one after the other, followed by [tail]. *)
Fixpoint render (secs : list fenced) (tail : string) : string :=
  match secs with
  | [] => tail
  | f :: rest => lead f ++ blockOf f ++ render rest tail
  end.

(** A section whose tag is one of [tags] and whose lead and inner text
    hold no backtick. *)
Definition wellFenced (tags : list string) (f : fenced) : bool :=
  existsb (String.eqb (tag f)) tags && noTick (lead f) && noTick (body f).

(** The filename each builder gives to the block of a tag. *)
Definition backendFileOf (t : string) : option string :=
  if (t =? "motoko")%string then Some "main.mo"
  else if (t =? "rust")%string then Some "lib.rs"
  else if (t =? "candid")%string then Some "backend.did"
  else if (t =? "toml")%string then Some "Cargo.toml"
  else None.

Definition frontendFileOf (t : string) : option string :=
  if (t =? "jsx")%string then Some "App.jsx"
  else if (t =? "tsx")%string then Some "App.tsx"
  else if (t =? "css")%string then Some "globals.css"
  else if (t =? "scss")%string then Some "index.scss"
  else if (t =? "json")%string then Some "package.json"
  else None.

(** Entering one section into the map under its tag's filename. *)
Definition recordSection (fileOf : string -> option string) (m : JsMap) (f : fenced)
    : JsMap :=
  match fileOf (tag f) with
  | Some name => map_set name (trim (body f)) m
  | None => m
  end.

(** The tags the section regex of each builder accepts after a fence. *)
Definition backendTags : list string := ["motoko"; "rust"; "candid"; "toml"].
Definition frontendTags : list string :=
  ["jsx"; "tsx"; "javascript"; "typescript"; "css"; "scss"; "json"].

(** The build environment with other answers from the frontend stage and
    from the validation of [dfx.json]. *)
Definition withAnswers (env : Pipeline.Env) (valid : bool) (response : option json)
    (written updated : bool) : Pipeline.Env :=
  Pipeline.mkEnv (Pipeline.dfxProject env) (Pipeline.backendResponse env)
                 (Pipeline.backendWritten env) valid response written updated
                 (Pipeline.presentationFault env).

(* ================================================================== *)
(** * Strings: concatenation, prefixes, occurrences *)

Section StringFacts.

Lemma append_nil_r (s : string) : s ++ "" = s.
Proof. induction s as [|c s IH]; simpl; [reflexivity | now rewrite IH]. Qed.

Lemma append_assoc (a b c : string) : (a ++ b) ++ c = a ++ b ++ c.
Proof. induction a as [|x a IH]; simpl; [reflexivity | now rewrite IH]. Qed.

Lemma length_append (a b : string) :
  String.length (a ++ b) = String.length a + String.length b.
Proof. induction a as [|x a IH]; simpl; [reflexivity | now rewrite IH]. Qed.

Lemma append_inv_head (a b c : string) : a ++ b = a ++ c -> b = c.
Proof. induction a as [|x a IH]; simpl; intros H; [assumption | injection H; auto]. Qed.

Lemma snoc_inj (a b : string) (x y : ascii) :
  a ++ String x "" = b ++ String y "" -> a = b /\ x = y.
Proof.
  revert b; induction a as [|c a IH]; intros [|d b]; simpl; intros H.
  - injection H; auto.
  - injection H as _ H. destruct b; discriminate H.
  - injection H as _ H. destruct a; discriminate H.
  - injection H as -> H. apply IH in H as [-> ->]. auto.
Qed.

(** A string split in two ways, the second ending in one more character. *)
Lemma snoc_eq_append (y w c : string) (z : ascii) :
  y ++ String z "" = w ++ c ->
  (c = "" /\ w = y ++ String z "") \/
  (exists c', c = c' ++ String z "" /\ y = w ++ c').
Proof.
  revert y; induction w as [|x w IH]; intros y H; simpl in H.
  - right. exists y. auto.
  - destruct y as [|x' y]; simpl in H.
    + injection H as -> H. destruct w; [|discriminate H].
      simpl in H. subst c. left. auto.
    + injection H as -> H. apply IH in H as [[-> ->] | [c' [-> ->]]].
      * left. auto.
      * right. exists c'. auto.
Qed.

Lemma stripPrefix_spec (p s t : string) : stripPrefix p s = Some t <-> s = p ++ t.
Proof.
  revert s; induction p as [|c p IH]; intros s; simpl.
  - split; intros H; [injection H; auto | now subst].
  - destruct s as [|c' s].
    + split; discriminate.
    + destruct (Ascii.eqb_spec c c') as [->|Hne].
      * rewrite IH. split; intros H; [now subst | injection H; auto].
      * split; [discriminate | intros H; injection H; intros; congruence].
Qed.

Lemma stripPrefix_append (p t : string) : stripPrefix p (p ++ t) = Some t.
Proof. now apply stripPrefix_spec. Qed.

Lemma prefix_spec (p s : string) : prefix p s = true <-> exists t, s = p ++ t.
Proof.
  revert s; induction p as [|c p IH]; intros s.
  - split; [intros _; now exists s | destruct s; reflexivity].
  - destruct s as [|c' s]; simpl.
    + split; [discriminate | intros [t H]; discriminate H].
    + destruct (ascii_dec c c') as [->|Hne].
      * rewrite IH. split; intros [t H]; exists t; [now subst | injection H; auto].
      * split; [discriminate | intros [t H]; injection H; intros; congruence].
Qed.

Lemma prefix_cons (c d : ascii) (p s : string) :
  prefix (String c p) (String d s) = Ascii.eqb c d && prefix p s.
Proof.
  simpl. destruct (ascii_dec c d) as [->|Hne].
  - now rewrite Ascii.eqb_refl.
  - apply Ascii.eqb_neq in Hne. now rewrite Hne.
Qed.

Lemma includes_nil (p : string) : includes "" p = prefix p "".
Proof. unfold includes. apply orb_false_r. Qed.

Lemma includes_cons (c : ascii) (s p : string) :
  includes (String c s) p = prefix p (String c s) || includes s p.
Proof. reflexivity. Qed.

Lemma includes_spec (s p : string) : includes s p = true <-> infix p s.
Proof.
  unfold infix. induction s as [|c s IH].
  - rewrite includes_nil, prefix_spec. split.
    + intros [t H]. exists "", t. assumption.
    + intros [a [b H]]. destruct a; simpl in H; [now exists b | discriminate H].
  - rewrite includes_cons, orb_true_iff, IH, prefix_spec. split.
    + intros [[t H] | [a [b H]]].
      * exists "", t. assumption.
      * exists (String c a), b. simpl. now rewrite H.
    + intros [[|x a] [b H]]; simpl in H.
      * left. now exists b.
      * right. injection H as _ H. now exists a, b.
Qed.

Lemma includes_false_infix (x s p : string) :
  infix x s -> includes s p = false -> includes x p = false.
Proof.
  intros [a [b ->]] H.
  destruct (includes x p) eqn:E; [|reflexivity].
  apply includes_spec in E as [a' [b' ->]].
  rewrite <- H. symmetry. apply includes_spec.
  exists (a ++ a'), (b' ++ b). now rewrite !append_assoc.
Qed.

Lemma infix_refl (s : string) : infix s s.
Proof. exists "", "". simpl. now rewrite append_nil_r. Qed.

Lemma infix_trans (x y z : string) : infix x y -> infix y z -> infix x z.
Proof.
  intros [a [b ->]] [a' [b' ->]].
  exists (a' ++ a), (b ++ b'). now rewrite !append_assoc.
Qed.

Lemma infix_suffix (a s : string) : infix s (a ++ s).
Proof. exists a, "". now rewrite append_nil_r. Qed.

Lemma infix_cons (c : ascii) (x s : string) : infix x s -> infix x (String c s).
Proof. intros [a [b ->]]. now exists (String c a), b. Qed.

Lemma endsWith_nil (p : string) : endsWith "" p = ("" =? p)%string.
Proof. unfold endsWith. apply orb_false_r. Qed.

Lemma endsWith_cons (c : ascii) (s p : string) :
  endsWith (String c s) p = (String c s =? p)%string || endsWith s p.
Proof. reflexivity. Qed.

Lemma endsWith_spec (s p : string) : endsWith s p = true <-> exists a, s = a ++ p.
Proof.
  induction s as [|c s IH].
  - rewrite endsWith_nil, String.eqb_eq. split.
    + intros <-. now exists "".
    + intros [a H]. destruct a; simpl in H; [assumption | discriminate H].
  - rewrite endsWith_cons, orb_true_iff, IH, String.eqb_eq. split.
    + intros [<- | [a ->]]; [now exists "" | now exists (String c a)].
    + intros [[|x a] H]; simpl in H.
      * left. assumption.
      * right. injection H as _ H. now exists a.
Qed.

Lemma endsWith_snoc (t : string) (c d : ascii) :
  endsWith (t ++ String c "") (String d "") = Ascii.eqb c d.
Proof.
  destruct (Ascii.eqb_spec c d) as [->|Hne].
  - apply endsWith_spec. now exists t.
  - destruct (endsWith _ _) eqn:E; [|reflexivity].
    apply endsWith_spec in E as [a H]. apply snoc_inj in H as [_ H]. congruence.
Qed.

Lemma includes_char (c d : ascii) (s : string) :
  includes (String c s) (String d "") = Ascii.eqb d c || includes s (String d "").
Proof.
  rewrite includes_cons. f_equal. simpl.
  destruct (ascii_dec d c) as [->|Hne].
  - rewrite Ascii.eqb_refl. now destruct s.
  - apply Ascii.eqb_neq in Hne. now rewrite Hne.
Qed.

Lemma includes_char_append (a b : string) (d : ascii) :
  includes (a ++ b) (String d "") = includes a (String d "") || includes b (String d "").
Proof.
  induction a as [|x a IH].
  - simpl append. rewrite includes_nil. reflexivity.
  - simpl append. rewrite !includes_char, IH. now rewrite orb_assoc.
Qed.

End StringFacts.

(* ================================================================== *)
(** * The matcher *)

Section Matcher.

Context {A : Type}.

Lemma lazy_any_ext (k k' : string -> option A) (s : string) :
  (forall t, k t = k' t) -> lazy_any k s = lazy_any k' s.
Proof.
  intros E. induction s as [|c s IH]; simpl; rewrite E; [reflexivity|].
  now rewrite IH.
Qed.

Lemma rmatch_ext (r : regex) :
  forall (s : string) (k k' : string -> option A),
    (forall t, k t = k' t) -> rmatch r s k = rmatch r s k'.
Proof.
  induction r as [c| |r1 IH1 r2 IH2|r1 IH1 r2 IH2|r1 IH1| |]; intros s k k' E; simpl.
  - destruct s as [|c' s]; [reflexivity|]. now rewrite E.
  - apply E.
  - apply IH1. intros t. now apply IH2.
  - rewrite (IH1 s k k' E), (IH2 s k k' E). reflexivity.
  - rewrite (IH1 s k k' E), E. reflexivity.
  - now apply lazy_any_ext.
  - destruct s; [apply E | reflexivity].
Qed.

(** A literal either strips itself from the input or fails. *)
Lemma rmatch_lit (p s : string) (k : string -> option A) :
  rmatch (lit p) s k =
  match stripPrefix p s with
  | Some t => k t
  | None => None
  end.
Proof.
  revert s; induction p as [|c p IH]; intros s; simpl; [reflexivity|].
  destruct s as [|c' s]; [reflexivity|].
  destruct (Ascii.eqb c c'); [apply IH | reflexivity].
Qed.

Lemma lazy_any_sound (k : string -> option A) (s : string) (x : A) :
  lazy_any k s = Some x -> exists m t, s = m ++ t /\ k t = Some x.
Proof.
  induction s as [|c s IH]; simpl.
  - destruct (k "") eqn:E; [|discriminate].
    intros H. exists "", "". now rewrite E.
  - destruct (k (String c s)) eqn:E.
    + intros H. exists "", (String c s). now rewrite E.
    + intros H. apply IH in H as [m [t [-> H]]]. now exists (String c m), t.
Qed.

(** Soundness: a successful match covered a prefix [m] of the input that
    the regex can cover, and the continuation accepted the rest. *)
Lemma rmatch_sound (r : regex) :
  forall (s : string) (k : string -> option A) (x : A),
    rmatch r s k = Some x ->
    exists m t, s = m ++ t /\ covers r m /\ k t = Some x.
Proof.
  induction r as [c| |r1 IH1 r2 IH2|r1 IH1 r2 IH2|r1 IH1| |]; intros s k x; simpl.
  - destruct s as [|c' s]; [discriminate|].
    destruct (Ascii.eqb_spec c c') as [->|]; [|discriminate].
    intros H. exists (String c' ""), s. repeat split; [constructor | assumption].
  - intros H. exists "", s. repeat split; [constructor | assumption].
  - intros H. apply IH1 in H as [m1 [t1 [-> [C1 H]]]].
    apply IH2 in H as [m2 [t2 [-> [C2 H]]]].
    exists (m1 ++ m2), t2. rewrite append_assoc.
    repeat split; [now constructor | assumption].
  - destruct (rmatch r1 s k) eqn:E.
    + intros H. injection H as <-. apply IH1 in E as [m [t [-> [C E]]]].
      exists m, t. repeat split; [now apply covers_alt_l | assumption].
    + intros H. apply IH2 in H as [m [t [-> [C H]]]].
      exists m, t. repeat split; [now apply covers_alt_r | assumption].
  - destruct (rmatch r1 s k) eqn:E.
    + intros H. injection H as <-. apply IH1 in E as [m [t [-> [C E]]]].
      exists m, t. repeat split; [now apply covers_opt_some | assumption].
    + intros H. exists "", s. repeat split; [apply covers_opt_none | assumption].
  - intros H. apply lazy_any_sound in H as [m [t [-> H]]].
    exists m, t. repeat split; [constructor | assumption].
  - destruct s; [|discriminate].
    intros H. exists "", "". repeat split; [constructor | assumption].
Qed.

(** An optional part never makes a match fail that the rest accepts. *)
Lemma rmatch_opt_total (r : regex) (s : string) (k : string -> option A) :
  k s <> None -> rmatch (Opt r) s k <> None.
Proof. simpl. destruct (rmatch r s k); [discriminate | auto]. Qed.

End Matcher.

Lemma covers_lit (p m : string) : covers (lit p) m -> m = p.
Proof.
  revert m; induction p as [|c p IH]; intros m H; simpl in H.
  - now inversion H.
  - inversion H as [| |r1 r2 m1 m2 H1 H2| | | | | |]; subst.
    inversion H1; subst. apply IH in H2. now subst.
Qed.

Lemma noTick_append (a b : string) : noTick (a ++ b) = noTick a && noTick b.
Proof.
  induction a as [|c a IH]; simpl; [reflexivity|].
  now rewrite IH, andb_assoc.
Qed.

Lemma tickfree_covers (r : regex) (m : string) :
  tickfree r = true -> covers r m -> noTick m = true.
Proof.
  intros T C. induction C; simpl in T |- *;
    try apply andb_true_iff in T as [T1 T2]; auto.
  - now rewrite T.
  - rewrite noTick_append. now rewrite IHC1, IHC2.
  - discriminate T.
Qed.

(** A match of [exec] leaves a suffix of the input; the text it covered is
    the rest of the input. *)
Lemma exec_sound (r : regex) (s rest : string) :
  exec r s = Some rest -> exists m, s = m ++ rest /\ covers r m.
Proof.
  unfold exec. intros H. apply rmatch_sound in H as [m [t [-> [C H]]]].
  injection H as ->. now exists m.
Qed.

Lemma substring_prefix (m rest : string) :
  substring 0 (String.length m) (m ++ rest) = m.
Proof.
  induction m as [|c m IH]; simpl.
  - now destruct rest.
  - now rewrite IH.
Qed.

Lemma matched_append (m rest : string) : matched (m ++ rest) rest = m.
Proof.
  unfold matched. rewrite length_append.
  replace (String.length m + String.length rest - String.length rest)
    with (String.length m) by lia.
  apply substring_prefix.
Qed.

(* ================================================================== *)
(** * Fences: runs of three backticks *)

Lemma afterTicks_unfold (s : string) :
  afterTicks s =
  match stripPrefix "```" s with
  | Some t => Some t
  | None =>
      match s with
      | "" => None
      | String _ s' => afterTicks s'
      end
  end.
Proof. destruct s; reflexivity. Qed.

Lemma stripPrefix_ticks_cons (c : ascii) (s : string) :
  Ascii.eqb c chTICK = false -> stripPrefix "```" (String c s) = None.
Proof.
  intros H. cbn [stripPrefix]. rewrite Ascii.eqb_sym in H. unfold chTICK in H.
  now rewrite H.
Qed.

(** Characters other than backticks in front do not change where the first
    fence is found. *)
Lemma afterTicks_skip (m t : string) :
  noTick m = true -> afterTicks (m ++ t) = afterTicks t.
Proof.
  induction m as [|c m IH]; simpl; [reflexivity|].
  intros H. apply andb_true_iff in H as [Hc Hm]. apply negb_true_iff in Hc.
  rewrite afterTicks_unfold.
  change (String c m ++ t) with (String c (m ++ t)).
  rewrite (stripPrefix_ticks_cons c (m ++ t) Hc). now apply IH.
Qed.

Lemma afterTicks_spec (s rest : string) :
  afterTicks s = Some rest ->
  exists u, s = u ++ "```" ++ rest /\ includes u "```" = false.
Proof.
  induction s as [|c s IH]; rewrite afterTicks_unfold.
  - simpl. discriminate.
  - destruct (stripPrefix "```" (String c s)) as [t|] eqn:E.
    + intros H. injection H as ->. apply stripPrefix_spec in E.
      exists "". split; [assumption | reflexivity].
    + intros H. apply IH in H as [u [-> Hu]].
      exists (String c u). split; [reflexivity|].
      rewrite includes_cons, Hu, orb_false_r.
      destruct (prefix "```" (String c u)) eqn:P; [|reflexivity].
      apply prefix_spec in P as [t P].
      assert (X : stripPrefix "```" (String c (u ++ "```" ++ rest))
                  = Some (t ++ "```" ++ rest)).
      { apply stripPrefix_spec.
        change (String c (u ++ "```" ++ rest)) with (String c u ++ "```" ++ rest).
        rewrite P. now rewrite append_assoc. }
      rewrite X in E. discriminate E.
Qed.

Lemma afterTicks_found (b c : string) : afterTicks (b ++ "```" ++ c) <> None.
Proof.
  induction b as [|x b IH]; rewrite afterTicks_unfold.
  - simpl. discriminate.
  - destruct (stripPrefix "```" (String x b ++ "```" ++ c)); [discriminate|].
    exact IH.
Qed.

Lemma noTick_no_fence (s : string) : noTick s = true -> includes s "```" = false.
Proof.
  induction s as [|c s IH]; [reflexivity|].
  simpl noTick. intros H. apply andb_true_iff in H as [Hc Hs].
  apply negb_true_iff in Hc.
  rewrite includes_cons, (IH Hs), orb_false_r.
  destruct (prefix "```" (String c s)) eqn:P; [|reflexivity].
  apply prefix_spec in P as [t P]. injection P as -> _. discriminate Hc.
Qed.

(** A run that has no backtick and sits in front of [u] followed by a
    fence lies inside [u]. *)
Lemma noTick_before_fence (j x u : string) :
  noTick j = true -> j ++ x = u ++ "```" ->
  exists u', u = j ++ u' /\ x = u' ++ "```".
Proof.
  revert u; induction j as [|c j IH]; intros u Hj H; simpl in *.
  - now exists u.
  - apply andb_true_iff in Hj as [Hc Hj]. apply negb_true_iff in Hc.
    destruct u as [|d u]; simpl in H.
    + injection H as -> _. discriminate Hc.
    + injection H as -> H. destruct (IH u Hj H) as [u' [-> ->]]. now exists u'.
Qed.

Section Fence.

Variable langs : regex.
Hypothesis langs_tickfree : tickfree langs = true.

(** Where the code-block regex matches at the head of [s], and what it
    leaves: the tag and the line feed play no part in it. *)
Lemma exec_codeBlock (s : string) :
  exec (codeBlockRegex langs) s =
  match stripPrefix "```" s with
  | Some t => afterTicks t
  | None => None
  end.
Proof.
  unfold exec, codeBlockRegex.
  change (rmatch (lit "```" +> Opt langs +> Opt (Chr chLF) +> LazyAny +> lit "```") s Some)
    with (rmatch (lit "```") s
            (fun s1 => rmatch (Opt langs) s1
               (fun s2 => rmatch (Opt (Chr chLF)) s2
                  (fun s3 => lazy_any (fun s4 => rmatch (lit "```") s4 Some) s3)))).
  rewrite rmatch_lit.
  destruct (stripPrefix "```" s) as [t|]; [|reflexivity].
  assert (K3 : forall s3, lazy_any (fun s4 => rmatch (lit "```") s4 Some) s3 = afterTicks s3).
  { intros s3. unfold afterTicks. apply lazy_any_ext. intros s4.
    rewrite rmatch_lit. now destruct (stripPrefix "```" s4). }
  assert (skip : forall r s0, tickfree r = true ->
            rmatch (Opt r) s0 afterTicks = afterTicks s0).
  { intros r s0 T. simpl. destruct (rmatch r s0 afterTicks) as [x|] eqn:E; [|reflexivity].
    apply rmatch_sound in E as [m [t0 [-> [C E]]]].
    rewrite afterTicks_skip; [now rewrite E | now apply (tickfree_covers r)]. }
  transitivity (rmatch (Opt langs) t afterTicks).
  - apply rmatch_ext. intros s2.
    transitivity (rmatch (Opt (Chr chLF)) s2 afterTicks).
    + apply rmatch_ext. exact K3.
    + now apply skip.
  - now apply skip.
Qed.

(** What the opening-fence regex leaves of a block: the block's inner text
    without some leading run that has no backtick, and the closing fence. *)
Lemma exec_fenceOpen (u : string) :
  exists j u', u = j ++ u' /\
    exec (fenceOpenRegex langs) ("```" ++ u ++ "```") = Some (u' ++ "```").
Proof.
  unfold exec, fenceOpenRegex.
  change (rmatch (lit "```" +> Opt langs +> Opt (Chr chLF)) ("```" ++ u ++ "```") Some)
    with (rmatch (lit "```") ("```" ++ u ++ "```")
            (fun s1 => rmatch (Opt langs +> Opt (Chr chLF)) s1 Some)).
  rewrite rmatch_lit, stripPrefix_append.
  destruct (rmatch (Opt langs +> Opt (Chr chLF)) (u ++ "```") Some) as [x|] eqn:E.
  - apply rmatch_sound in E as [m [t [E1 [C E2]]]]. injection E2 as ->.
    assert (Hm : noTick m = true).
    { apply (tickfree_covers (Opt langs +> Opt (Chr chLF))); [|assumption].
      simpl. now rewrite langs_tickfree. }
    symmetry in E1. destruct (noTick_before_fence m x u Hm E1) as [u' [-> ->]].
    now exists m, u'.
  - exfalso. revert E.
    change (rmatch (Opt langs +> Opt (Chr chLF)) (u ++ "```") Some)
      with (rmatch (Opt langs) (u ++ "```") (fun s2 => rmatch (Opt (Chr chLF)) s2 Some)).
    apply rmatch_opt_total. apply rmatch_opt_total. discriminate.
Qed.

End Fence.

(** The closing-fence regex matches exactly the string of three backticks. *)
Lemma exec_fenceClose (s : string) :
  exec fenceCloseRegex s = if (s =? "```")%string then Some "" else None.
Proof.
  unfold exec, fenceCloseRegex.
  change (rmatch (lit "```" +> EndAnchor) s Some)
    with (rmatch (lit "```") s (fun s1 => rmatch EndAnchor s1 Some)).
  rewrite rmatch_lit.
  destruct (stripPrefix "```" s) as [t|] eqn:E.
  - apply stripPrefix_spec in E. subst s. destruct t as [|c t]; simpl; reflexivity.
  - destruct (String.eqb_spec s "```") as [->|]; [discriminate E | reflexivity].
Qed.

Lemma replace_first_fenceClose (u : string) :
  replace_first fenceCloseRegex "" (u ++ "```") = u.
Proof.
  induction u as [|c u IH].
  - reflexivity.
  - change (String c u ++ "```") with (String c (u ++ "```")).
    cbn [replace_first]. rewrite exec_fenceClose.
    destruct (String.eqb_spec (String c (u ++ "```")) "```") as [E|_].
    + exfalso. apply (f_equal String.length) in E. simpl in E.
      rewrite length_append in E. simpl in E. lia.
    + now rewrite IH.
Qed.

(* ================================================================== *)
(** * Leftmost matches and [removeMarkdownCodeBlocks] *)

Lemma firstMatch_unfold (r : regex) (s : string) :
  firstMatch r s =
  match exec r s with
  | Some rest => Some (matched s rest)
  | None =>
      match s with
      | "" => None
      | String _ s' => firstMatch r s'
      end
  end.
Proof. destruct s; reflexivity. Qed.

Lemma replace_first_unfold (r : regex) (rep s : string) :
  replace_first r rep s =
  match exec r s with
  | Some rest => rep ++ rest
  | None =>
      match s with
      | "" => ""
      | String c s' => String c (replace_first r rep s')
      end
  end.
Proof. destruct s; reflexivity. Qed.

(** The first element of the list of all matches is the leftmost match. *)
Lemma hd_match_all (r : regex) (s : string) :
  hd_error (match_all_from r 0 s) = firstMatch r s.
Proof.
  induction s as [|c s IH]; simpl.
  - now destruct (exec r "").
  - destruct (exec r (String c s)); [reflexivity | exact IH].
Qed.

Lemma js_match_first (r : regex) (s : string) :
  match js_match r s with
  | Some (m :: _) => firstMatch r s = Some m
  | Some [] => False
  | None => firstMatch r s = None
  end.
Proof.
  unfold js_match. rewrite <- hd_match_all.
  now destruct (match_all_from r 0 s).
Qed.

Lemma hasFence_includes (s : string) : hasFence s -> includes s "```" = true.
Proof.
  intros [a [b [c ->]]]. apply includes_spec. now exists a, (b ++ "```" ++ c).
Qed.

Lemma hasFence_infix (x s : string) : infix x s -> hasFence x -> hasFence s.
Proof.
  intros [p [q ->]] [a [b [c ->]]].
  exists (p ++ a), b, (c ++ q). now rewrite !append_assoc.
Qed.

(** Appending a character that is no backtick adds no fence. *)
Lemma hasFence_snoc (t : string) (z : ascii) :
  Ascii.eqb z chTICK = false -> hasFence (t ++ String z "") -> hasFence t.
Proof.
  intros Hz [a [b [c H]]].
  assert (E : a ++ "```" ++ b ++ "```" ++ c = (a ++ "```" ++ b ++ "```") ++ c).
  { now rewrite !append_assoc. }
  rewrite E in H. apply snoc_eq_append in H as [[_ H] | [c' [-> H]]].
  - exfalso.
    assert (E' : a ++ "```" ++ b ++ "```" = (a ++ "```" ++ b ++ "``") ++ String chTICK "").
    { now rewrite !append_assoc. }
    rewrite E' in H. apply snoc_inj in H as [_ H]. subst z. discriminate Hz.
  - exists a, b, c'. rewrite H. now rewrite !append_assoc.
Qed.

Section RemoveBlocks.

Variable langs : regex.
Hypothesis langs_tickfree : tickfree langs = true.

Lemma removeMarkdown_unfold (code : string) :
  removeMarkdownCodeBlocks langs code =
  match firstMatch (codeBlockRegex langs) code with
  | Some m => replace_first fenceCloseRegex "" (replace_first (fenceOpenRegex langs) "" m)
  | None => code
  end.
Proof.
  unfold removeMarkdownCodeBlocks.
  pose proof (js_match_first (codeBlockRegex langs) code) as H.
  destruct (js_match (codeBlockRegex langs) code) as [[|m l]|].
  - destruct H.
  - now rewrite H.
  - now rewrite H.
Qed.

(** The leftmost code block: an opening fence, an inner text without
    fence, a closing fence. *)
Lemma firstMatch_codeBlock (x m : string) :
  firstMatch (codeBlockRegex langs) x = Some m ->
  exists a u rest,
    x = a ++ "```" ++ u ++ "```" ++ rest /\
    m = "```" ++ u ++ "```" /\
    includes u "```" = false.
Proof.
  induction x as [|c x IH]; rewrite firstMatch_unfold, exec_codeBlock by assumption.
  - simpl. discriminate.
  - destruct (stripPrefix "```" (String c x)) as [t|] eqn:E.
    + apply stripPrefix_spec in E.
      destruct (afterTicks t) as [rest|] eqn:F.
      * intros H. injection H as <-.
        apply afterTicks_spec in F as [u [-> Hu]].
        exists "", u, rest. rewrite E. repeat split; [|assumption].
        replace ("```" ++ u ++ "```" ++ rest) with (("```" ++ u ++ "```") ++ rest)
          by (now rewrite !append_assoc).
        apply matched_append.
      * intros H. apply IH in H as [a [u [rest [-> [-> Hu]]]]].
        now exists (String c a), u, rest.
    + intros H. apply IH in H as [a [u [rest [-> [-> Hu]]]]].
      now exists (String c a), u, rest.
Qed.

Lemma firstMatch_codeBlock_none (x : string) :
  firstMatch (codeBlockRegex langs) x = None <-> ~ hasFence x.
Proof.
  split.
  - intros H [a [b [c ->]]]. revert H. induction a as [|d a IH];
      rewrite firstMatch_unfold, exec_codeBlock by assumption.
    + change ("" ++ "```" ++ b ++ "```" ++ c) with ("```" ++ b ++ "```" ++ c).
      rewrite stripPrefix_append.
      destruct (afterTicks (b ++ "```" ++ c)) eqn:F; [discriminate|].
      now apply afterTicks_found in F.
    + destruct (stripPrefix "```" (String d a ++ "```" ++ b ++ "```" ++ c)) as [t|];
        [destruct (afterTicks t); [discriminate|]|]; exact IH.
  - intros H. destruct (firstMatch (codeBlockRegex langs) x) as [m|] eqn:E; [|reflexivity].
    exfalso. apply H. apply firstMatch_codeBlock in E as [a [u [rest [-> _]]]].
    now exists a, u, rest.
Qed.

(** What [removeMarkdownCodeBlocks] returns: its argument when that holds
    no fence pair, and otherwise a tail of the inner text of the leftmost
    block. *)
Lemma removeMarkdown_spec (x : string) :
  (~ hasFence x /\ removeMarkdownCodeBlocks langs x = x) \/
  (exists a j u rest,
     x = a ++ "```" ++ (j ++ u) ++ "```" ++ rest /\
     removeMarkdownCodeBlocks langs x = u /\
     includes (j ++ u) "```" = false).
Proof.
  rewrite removeMarkdown_unfold.
  destruct (firstMatch (codeBlockRegex langs) x) as [m|] eqn:E.
  - right. apply firstMatch_codeBlock in E as [a [u [rest [-> [-> Hu]]]]].
    destruct (exec_fenceOpen langs langs_tickfree u) as [j [u' [-> X]]].
    exists a, j, u', rest. repeat split; [|assumption].
    rewrite (replace_first_unfold (fenceOpenRegex langs)), X.
    apply replace_first_fenceClose.
  - left. split; [now apply firstMatch_codeBlock_none | reflexivity].
Qed.

Lemma removeMarkdown_infix (x : string) : infix (removeMarkdownCodeBlocks langs x) x.
Proof.
  destruct (removeMarkdown_spec x) as [[_ ->] | [a [j [u [rest [E [-> _]]]]]]].
  - apply infix_refl.
  - exists (a ++ "```" ++ j), ("```" ++ rest). rewrite E at 1. now rewrite !append_assoc.
Qed.

Lemma removeMarkdown_noFence (x : string) : ~ hasFence (removeMarkdownCodeBlocks langs x).
Proof.
  destruct (removeMarkdown_spec x) as [[H ->] | [a [j [u [rest [E [-> Hu]]]]]]].
  - assumption.
  - intros F. apply hasFence_includes in F.
    rewrite (includes_false_infix u (j ++ u) "```") in F; [discriminate | | assumption].
    apply infix_suffix.
Qed.

Lemma removeMarkdown_id (x : string) :
  ~ hasFence x -> removeMarkdownCodeBlocks langs x = x.
Proof.
  intros H. rewrite removeMarkdown_unfold.
  apply firstMatch_codeBlock_none in H. now rewrite H.
Qed.

End RemoveBlocks.

(* ================================================================== *)
(** * Global replacement of literals *)

Lemma exec_lit (p s : string) : exec (lit p) s = stripPrefix p s.
Proof. unfold exec. rewrite rmatch_lit. now destruct (stripPrefix p s). Qed.

(** Induction that follows a scan consuming one or two characters. *)
Lemma string_ind2 (P : string -> Prop) :
  P "" ->
  (forall x, P (String x "")) ->
  (forall x y s, P s -> P (String y s) -> P (String x (String y s))) ->
  forall s, P s.
Proof.
  intros H0 H1 H2 s.
  enough (P s /\ forall x, P (String x s)) by tauto.
  induction s as [|y s [IHa IHb]]; split; auto.
Qed.

Lemma replace_all_from_zero (r : regex) (rep s : string) :
  replace_all_from r rep 0 s =
  match exec r s with
  | Some rest =>
      match s with
      | "" => rep
      | String c s' =>
          match String.length s - String.length rest with
          | O => rep ++ String c (replace_all_from r rep 0 s')
          | S n => rep ++ replace_all_from r rep n s'
          end
      end
  | None =>
      match s with
      | "" => ""
      | String c s' => String c (replace_all_from r rep 0 s')
      end
  end.
Proof. destruct s; reflexivity. Qed.

Lemma replace2_cons2 (a b c x y : ascii) (s : string) :
  replace2 a b c (String x (String y s)) =
  if Ascii.eqb a x && Ascii.eqb b y then String c (replace2 a b c s)
  else String x (replace2 a b c (String y s)).
Proof. reflexivity. Qed.

Lemma replace_all_lit1 (a c : ascii) (s : string) :
  replace_all (lit (String a "")) (String c "") s = replace1 a c s.
Proof.
  unfold replace_all. induction s as [|x s IH].
  - reflexivity.
  - rewrite replace_all_from_zero, exec_lit. cbn [stripPrefix replace1].
    destruct (Ascii.eqb a x).
    + replace (String.length (String x s) - String.length s) with 1
        by (cbn [String.length]; lia).
      cbn [append]. now rewrite IH.
    + now rewrite IH.
Qed.

Lemma replace_all_lit2 (a b c : ascii) (s : string) :
  replace_all (lit (String a (String b ""))) (String c "") s = replace2 a b c s.
Proof.
  unfold replace_all. induction s as [|x|x y s IH1 IH2] using string_ind2.
  - reflexivity.
  - rewrite replace_all_from_zero, exec_lit. cbn [stripPrefix].
    now destruct (Ascii.eqb a x).
  - rewrite replace_all_from_zero, exec_lit, replace2_cons2. cbn [stripPrefix].
    destruct (Ascii.eqb a x); cbn [andb].
    + destruct (Ascii.eqb b y).
      * replace (String.length (String x (String y s)) - String.length s) with 2
          by (cbn [String.length]; lia).
        change (replace_all_from (lit (String a (String b ""))) (String c "") 1 (String y s))
          with (replace_all_from (lit (String a (String b ""))) (String c "") 0 s).
        cbn [append]. now rewrite IH1.
      * now rewrite IH2.
    + now rewrite IH2.
Qed.

(** ** Carriage returns *)

Lemma replace1_no_source (a c : ascii) (s : string) :
  Ascii.eqb a c = false -> includes (replace1 a c s) (String a "") = false.
Proof.
  intros H. induction s as [|x s IH]; [reflexivity|].
  cbn [replace1]. rewrite includes_char, IH, orb_false_r.
  destruct (Ascii.eqb_spec a x) as [->|Hne]; [assumption|].
  now apply Ascii.eqb_neq.
Qed.

Lemma replace1_id (a c : ascii) (s : string) :
  includes s (String a "") = false -> replace1 a c s = s.
Proof.
  induction s as [|x s IH]; [reflexivity|].
  rewrite includes_char. intros H. apply orb_false_iff in H as [Hx Hs].
  cbn [replace1]. now rewrite Hx, IH.
Qed.

Lemma replace2_id (a b c : ascii) (s : string) :
  includes s (String a "") = false -> replace2 a b c s = s.
Proof.
  induction s as [|x|x y s IH1 IH2] using string_ind2; try reflexivity.
  rewrite includes_char. intros H. apply orb_false_iff in H as [Hx Hs].
  rewrite replace2_cons2, Hx. cbn [andb]. now rewrite (IH2 Hs).
Qed.

(** ** The pair backslash, n *)

Lemma includes_bn_cons (x : ascii) (s : string) :
  includes (String x s) "\n" = (Ascii.eqb chBS x && headIs "n" s) || includes s "\n".
Proof.
  rewrite includes_cons. f_equal. change "\n" with (String chBS (String "n" "")).
  rewrite prefix_cons. f_equal. destruct s as [|y s]; [reflexivity|].
  rewrite prefix_cons. cbn [headIs]. destruct s; apply andb_true_r.
Qed.

(** After [\n] has been replaced everywhere, no backslash is followed by
    an [n]. *)
Lemma replace2_bn_gone (c : ascii) (s : string) :
  Ascii.eqb chBS c = false -> Ascii.eqb "n" c = false ->
  includes (replace2 chBS "n" c s) "\n" = false /\
  (headIs "n" (replace2 chBS "n" c s) = true -> headIs "n" s = true).
Proof.
  intros Hb Hn. induction s as [|x|x y s [IH1 IHh1] [IH2 IHh2]] using string_ind2.
  - split; [reflexivity | auto].
  - split; [|auto]. cbn [replace2]. rewrite includes_bn_cons. cbn [headIs].
    now rewrite andb_false_r.
  - rewrite replace2_cons2. destruct (Ascii.eqb chBS x && Ascii.eqb "n" y) eqn:E.
    + split.
      * rewrite includes_bn_cons, Hb. exact IH1.
      * cbn [headIs]. rewrite Hn. discriminate.
    + split; [|auto]. rewrite includes_bn_cons, IH2, orb_false_r.
      destruct (Ascii.eqb chBS x) eqn:Ex; [|reflexivity]. cbn [andb] in E |- *.
      destruct (headIs "n" (replace2 chBS "n" c (String y s))); [|reflexivity].
      specialize (IHh2 eq_refl). cbn [headIs] in IHh2. congruence.
Qed.

(** Replacing a pair [a b] by [c] brings no backslash in front of an [n],
    provided [c] is no [n] and is a backslash only where [b] was one. *)
Lemma replace2_keeps_bn_free (a b c : ascii) (s : string) :
  Ascii.eqb "n" c = false ->
  (Ascii.eqb chBS c = true -> Ascii.eqb chBS b = true) ->
  includes s "\n" = false ->
  includes (replace2 a b c s) "\n" = false /\
  (headIs "n" (replace2 a b c s) = true -> headIs "n" s = true).
Proof.
  intros Hn Hc. induction s as [|x|x y s IH1 IH2] using string_ind2; intros H.
  - split; [reflexivity | auto].
  - split; [exact H | auto].
  - rewrite includes_bn_cons in H. apply orb_false_iff in H as [Hxy H].
    pose proof H as H'. rewrite includes_bn_cons in H'.
    apply orb_false_iff in H' as [Hys H'].
    destruct (IH1 H') as [IHa IHb]. destruct (IH2 H) as [IHc IHd].
    rewrite replace2_cons2. destruct (Ascii.eqb a x && Ascii.eqb b y) eqn:E.
    + split.
      * rewrite includes_bn_cons, IHa, orb_false_r.
        destruct (Ascii.eqb chBS c) eqn:Ec; [|reflexivity]. cbn [andb].
        destruct (headIs "n" (replace2 a b c s)); [|reflexivity].
        specialize (IHb eq_refl). apply andb_true_iff in E as [_ E].
        apply Ascii.eqb_eq in E. subst y.
        rewrite (Hc eq_refl), IHb in Hys. discriminate Hys.
      * cbn [headIs]. rewrite Hn. discriminate.
    + split; [|auto]. rewrite includes_bn_cons, IHc, orb_false_r.
      destruct (Ascii.eqb chBS x) eqn:Ex; [|reflexivity]. cbn [andb] in Hxy |- *.
      destruct (headIs "n" (replace2 a b c (String y s))); [|reflexivity].
      specialize (IHd eq_refl). congruence.
Qed.

Lemma replace1_keeps_bn_free (a c : ascii) (s : string) :
  Ascii.eqb "n" c = false -> Ascii.eqb chBS c = false ->
  includes s "\n" = false ->
  includes (replace1 a c s) "\n" = false /\
  (headIs "n" (replace1 a c s) = true -> headIs "n" s = true).
Proof.
  intros Hn Hb. induction s as [|x s IH]; intros H.
  - split; [reflexivity | auto].
  - rewrite includes_bn_cons in H. apply orb_false_iff in H as [Hx H].
    destruct (IH H) as [IHa IHb]. cbn [replace1]. split.
    + rewrite includes_bn_cons, IHa, orb_false_r.
      destruct (Ascii.eqb a x).
      * now rewrite Hb.
      * destruct (Ascii.eqb chBS x); [|reflexivity]. cbn [andb] in Hx |- *.
        destruct (headIs "n" (replace1 a c s)); [|reflexivity].
        specialize (IHb eq_refl). congruence.
    + cbn [headIs]. destruct (Ascii.eqb a x); [rewrite Hn; discriminate | auto].
Qed.

Lemma includes_bn_snoc (t : string) (z : ascii) :
  Ascii.eqb "n" z = false ->
  includes t "\n" = false -> includes (t ++ String z "") "\n" = false.
Proof.
  intros Hz. induction t as [|x t IH]; intros H.
  - cbn [append]. rewrite includes_bn_cons. cbn [headIs]. now rewrite andb_false_r.
  - rewrite includes_bn_cons in H. apply orb_false_iff in H as [Hx H].
    change (String x t ++ String z "") with (String x (t ++ String z "")).
    rewrite includes_bn_cons, (IH H), orb_false_r.
    destruct t as [|y t]; [|exact Hx].
    cbn [append headIs]. now rewrite Hz, andb_false_r.
Qed.

(* ================================================================== *)
(** * [slice] and [trim] *)

Lemma substring0_prefix (m : nat) (s : string) : exists b, s = substring 0 m s ++ b.
Proof.
  revert m; induction s as [|c s IH]; intros [|m]; simpl.
  - now exists "".
  - now exists "".
  - now exists (String c s).
  - destruct (IH m) as [b E]. exists b. now rewrite <- E.
Qed.

Lemma substring_infix (n m : nat) (s : string) : infix (substring n m s) s.
Proof.
  revert n; induction s as [|c s IH]; intros [|n].
  - destruct (substring0_prefix m "") as [b E]. now exists "", b.
  - simpl. apply infix_refl.
  - destruct (substring0_prefix m (String c s)) as [b E]. now exists "", b.
  - simpl. apply infix_cons, IH.
Qed.

Lemma slice_infix (s : string) (b e : Z) : infix (slice s b e) s.
Proof. unfold slice. apply substring_infix. Qed.

Lemma trimStart_infix (s : string) : infix (trimStart s) s.
Proof.
  induction s as [|c s IH]; simpl.
  - apply infix_refl.
  - destruct (isWhiteSpace c); [now apply infix_cons | apply infix_refl].
Qed.

Lemma trimEnd_cons (c : ascii) (s : string) :
  trimEnd (String c s) =
  match trimEnd s with
  | "" => if isWhiteSpace c then "" else String c ""
  | t => String c t
  end.
Proof. reflexivity. Qed.

Lemma trimEnd_prefix (s : string) : exists b, s = trimEnd s ++ b.
Proof.
  induction s as [|c s [b E]].
  - now exists "".
  - rewrite trimEnd_cons. destruct (trimEnd s) as [|d t].
    + destruct (isWhiteSpace c).
      * now exists (String c s).
      * exists b. simpl in *. now rewrite <- E.
    + exists b. simpl in *. now rewrite <- E.
Qed.

Lemma trim_infix (s : string) : infix (trim s) s.
Proof.
  unfold trim. apply infix_trans with (trimStart s); [|apply trimStart_infix].
  destruct (trimEnd_prefix (trimStart s)) as [b E]. now exists "", b.
Qed.

(** The last character [trimEnd] leaves is no white space. *)
Lemma trimEnd_last (s t : string) (c : ascii) :
  trimEnd s = t ++ String c "" -> isWhiteSpace c = false.
Proof.
  revert t; induction s as [|x s IH]; intros t.
  - simpl. destruct t; discriminate.
  - rewrite trimEnd_cons. destruct (trimEnd s) as [|y w] eqn:E.
    + destruct (isWhiteSpace x) eqn:Ex.
      * destruct t; discriminate.
      * intros H. destruct t as [|z t]; simpl in H.
        -- injection H as <-. assumption.
        -- injection H as _ H. destruct t; discriminate H.
    + intros H. destruct t as [|z t]; simpl in H.
      * discriminate H.
      * injection H as _ H. now apply (IH t).
Qed.

Lemma trimEnd_no_ws_end (s : string) (c : ascii) :
  isWhiteSpace c = true -> endsWith (trimEnd s) (String c "") = false.
Proof.
  intros Hc. destruct (endsWith (trimEnd s) (String c "")) eqn:E; [|reflexivity].
  apply endsWith_spec in E as [a E]. apply trimEnd_last in E. congruence.
Qed.

Lemma trimEnd_idem (s : string) : trimEnd (trimEnd s) = trimEnd s.
Proof.
  induction s as [|x s IH]; [reflexivity|].
  rewrite trimEnd_cons. destruct (trimEnd s) as [|y w] eqn:E.
  - destruct (isWhiteSpace x) eqn:Ex; [reflexivity|].
    rewrite trimEnd_cons. simpl. now rewrite Ex.
  - rewrite trimEnd_cons, IH. reflexivity.
Qed.

Lemma trimEnd_snoc (s : string) (c : ascii) :
  isWhiteSpace c = true -> trimEnd (s ++ String c "") = trimEnd s.
Proof.
  intros Hc. induction s as [|x s IH].
  - simpl. now rewrite Hc.
  - change (String x s ++ String c "") with (String x (s ++ String c "")).
    now rewrite !trimEnd_cons, IH.
Qed.

(** [trimStart] gives the empty string or a string whose first character
    is no white space, and [trimEnd] keeps a first character it does not
    remove. *)
Lemma trimStart_fixed (s : string) : trimStart (trimStart s) = trimStart s.
Proof.
  induction s as [|c s IH]; [reflexivity|]. simpl.
  destruct (isWhiteSpace c) eqn:E; [exact IH|]. simpl. now rewrite E.
Qed.

Lemma trimStart_trimEnd (s : string) :
  trimStart s = s -> trimStart (trimEnd s) = trimEnd s.
Proof.
  destruct s as [|c s]; [reflexivity|]. simpl trimStart.
  destruct (isWhiteSpace c) eqn:E.
  - intros H. exfalso. pose proof (trimStart_infix s) as [a [b X]].
    rewrite H in X. apply (f_equal String.length) in X.
    rewrite !length_append in X. simpl in X. lia.
  - intros _. rewrite trimEnd_cons.
    destruct (trimEnd s); [rewrite E|]; simpl; now rewrite E.
Qed.

Lemma trim_trimmed (s : string) : trimmed (trim s).
Proof.
  unfold trimmed, trim. split.
  - apply trimStart_trimEnd, trimStart_fixed.
  - apply trimEnd_idem.
Qed.

(** Trimming undoes the line feed that the cleaner appends to a trimmed
    text. *)
Lemma trim_snoc_LF (t : string) : trimmed t -> trim (t ++ LF) = t.
Proof.
  intros [Hs He]. unfold trim.
  assert (X : trimStart (t ++ LF) = t ++ LF \/ t = "").
  { destruct t as [|c t]; [now right|]. left.
    simpl in Hs |- *. destruct (isWhiteSpace c) eqn:E; [|reflexivity].
    exfalso. pose proof (trimStart_infix t) as [a [b X]].
    rewrite Hs in X. apply (f_equal String.length) in X.
    rewrite !length_append in X. simpl in X. lia. }
  destruct X as [-> | ->]; [|reflexivity].
  unfold LF. rewrite trimEnd_snoc; [assumption | reflexivity].
Qed.

Lemma trimmed_no_LF_end (t : string) : trimmed t -> endsWith t LF = false.
Proof.
  intros [_ He]. rewrite <- He. now apply trimEnd_no_ws_end.
Qed.

(* ================================================================== *)
(** * The code cleaner *)

Section CleanerFacts.

Variable langs : regex.
Hypothesis langs_tickfree : tickfree langs = true.

(** The text after unescaping holds no backslash followed by [n]. *)
Lemma unescape_bn_free (s : string) :
  includes
    (if includes s "\n" then
       replace_all (lit "\\") BS
         (replace_all (lit (BS ++ DQ)) DQ
           (replace_all (lit "\r") CR
             (replace_all (lit "\t") TAB
               (replace_all (lit "\n") LF s))))
     else s) "\n" = false.
Proof.
  destruct (includes s "\n") eqn:E; [|assumption].
  change (BS ++ DQ) with (String chBS (String chDQ "")).
  unfold BS, DQ, CR, TAB, LF. rewrite !replace_all_lit2.
  apply replace2_keeps_bn_free; [reflexivity | reflexivity |].
  apply replace2_keeps_bn_free; [reflexivity | discriminate |].
  apply replace2_keeps_bn_free; [reflexivity | discriminate |].
  apply replace2_keeps_bn_free; [reflexivity | discriminate |].
  apply replace2_bn_gone; reflexivity.
Qed.

(** Line endings after normalisation: no carriage return is left, and no
    backslash has come to stand before an [n]. *)
Lemma normalise_newlines (s : string) :
  includes s "\n" = false ->
  includes (replace_all (lit CR) LF (replace_all (lit (CR ++ LF)) LF s)) CR = false /\
  includes (replace_all (lit CR) LF (replace_all (lit (CR ++ LF)) LF s)) "\n" = false.
Proof.
  intros H. change (CR ++ LF) with (String chCR (String chLF "")).
  unfold CR, LF. rewrite replace_all_lit2, replace_all_lit1. split.
  - now apply replace1_no_source.
  - apply replace1_keeps_bn_free; [reflexivity | reflexivity |].
    apply replace2_keeps_bn_free; [reflexivity | discriminate | assumption].
Qed.

(** The shape of every cleaned text: a trimmed text without carriage
    return, without backslash-n and without a pair of fences, followed by
    one line feed. *)
Lemma clean_form (s : string) :
  exists t,
    cleanGeneratedCode langs s = t ++ LF /\
    trimmed t /\
    includes t CR = false /\
    includes t "\n" = false /\
    ~ hasFence t.
Proof.
  unfold cleanGeneratedCode. cbv zeta.
  pose proof (unescape_bn_free s) as H1.
  set (s1 := if includes s "\n" then _ else s) in *.
  destruct (normalise_newlines s1 H1) as [H2 H3].
  set (s2 := replace_all (lit CR) LF (replace_all (lit (CR ++ LF)) LF s1)) in *.
  set (s3 := if (startsWith s2 DQ && endsWith s2 DQ) || (startsWith s2 SQ && endsWith s2 SQ)
             then slice s2 1 (-1) else s2).
  assert (I3 : infix s3 s2).
  { unfold s3. destruct (_ || _); [apply slice_infix | apply infix_refl]. }
  set (z := removeMarkdownCodeBlocks langs s3).
  assert (Iz : infix (trim z) s2).
  { apply infix_trans with z; [apply trim_infix|].
    apply infix_trans with s3; [|assumption].
    now apply removeMarkdown_infix. }
  pose proof (trim_trimmed z) as T.
  exists (trim z). rewrite (trimmed_no_LF_end _ T). cbn [negb].
  repeat split; try apply T.
  - now apply (includes_false_infix _ s2).
  - now apply (includes_false_infix _ s2).
  - intros F. apply (removeMarkdown_noFence langs langs_tickfree s3).
    apply (hasFence_infix (trim z)); [apply trim_infix | assumption].
Qed.

(** A text of that shape is left as it is. *)
Lemma clean_fixed (t : string) :
  trimmed t ->
  includes t CR = false ->
  includes t "\n" = false ->
  ~ hasFence t ->
  cleanGeneratedCode langs (t ++ LF) = t ++ LF.
Proof.
  intros T Hcr Hbn Hf. unfold cleanGeneratedCode. cbv zeta.
  assert (E1 : includes (t ++ LF) "\n" = false) by (now apply includes_bn_snoc).
  rewrite E1.
  assert (Ecr : includes (t ++ LF) CR = false).
  { pose proof Hcr as X. unfold CR in X |- *.
    rewrite includes_char_append, X. reflexivity. }
  assert (E2 : replace_all (lit CR) LF (replace_all (lit (CR ++ LF)) LF (t ++ LF)) = t ++ LF).
  { change (CR ++ LF) with (String chCR (String chLF "")).
    unfold CR at 1, LF at 1 2. rewrite replace_all_lit2, replace_all_lit1.
    rewrite replace2_id by exact Ecr. now apply replace1_id. }
  rewrite E2.
  assert (Edq : endsWith (t ++ LF) DQ = false) by apply endsWith_snoc.
  assert (Esq : endsWith (t ++ LF) SQ = false) by apply endsWith_snoc.
  rewrite Edq, Esq, !andb_false_r. cbn [orb].
  rewrite (removeMarkdown_id langs langs_tickfree).
  - rewrite (trim_snoc_LF t T), (trimmed_no_LF_end t T). reflexivity.
  - intros F. apply Hf. now apply (hasFence_snoc t chLF).
Qed.

Lemma clean_idempotent (s : string) :
  cleanGeneratedCode langs (cleanGeneratedCode langs s) = cleanGeneratedCode langs s.
Proof.
  destruct (clean_form s) as [t [-> [T [Hcr [Hbn Hf]]]]]. now apply clean_fixed.
Qed.

Lemma clean_one_LF_no_CR (s : string) :
  exists body,
    cleanGeneratedCode langs s = body ++ LF /\
    endsWith body LF = false /\
    includes (cleanGeneratedCode langs s) CR = false.
Proof.
  destruct (clean_form s) as [t [-> [T [Hcr _]]]]. exists t.
  repeat split.
  - now apply trimmed_no_LF_end.
  - unfold CR. rewrite includes_char_append. unfold CR in Hcr. now rewrite Hcr.
Qed.

End CleanerFacts.

Lemma backend_langs_tickfree : tickfree BackendBuilder.langs = true.
Proof. reflexivity. Qed.

Lemma frontend_langs_tickfree : tickfree FrontendBuilder.langs = true.
Proof. reflexivity. Qed.

(* ================================================================== *)
(** * Section extraction *)

Lemma map_set_size (k v : string) (m : JsMap) : 1 <= map_size (map_set k v m).
Proof.
  destruct m as [|[k' v'] m]; simpl; [lia|].
  destruct (k' =? k)%string; simpl; lia.
Qed.

Lemma map_set_keys (k v : string) (m : JsMap) :
  map fst (map_set k v m) = map fst m \/
  (map fst (map_set k v m) = (map fst m ++ [k])%list /\ ~ In k (map fst m)).
Proof.
  induction m as [|[k' v'] m IH]; simpl.
  - right. auto.
  - destruct (String.eqb_spec k' k) as [->|Hne]; simpl.
    + now left.
    + destruct IH as [-> | [-> Hk]]; [now left | right].
      split; [reflexivity | intros [H | H]; auto].
Qed.

Lemma map_set_NoDup (k v : string) (m : JsMap) :
  NoDup (map fst m) -> NoDup (map fst (map_set k v m)).
Proof.
  intros H. destruct (map_set_keys k v m) as [-> | [-> Hk]]; [assumption|].
  apply NoDup_app; [assumption | repeat constructor; intros [] |].
  intros x Hx [<- | []]. contradiction.
Qed.

Lemma fold_left_NoDup (f : JsMap -> string -> JsMap) (blocks : list string) (m : JsMap) :
  (forall m' b, NoDup (map fst m') -> NoDup (map fst (f m' b))) ->
  NoDup (map fst m) -> NoDup (map fst (fold_left f blocks m)).
Proof.
  intros Hf. revert m. induction blocks as [|b blocks IH]; intros m H; simpl; auto.
Qed.

Lemma backend_addBlock_NoDup (m : JsMap) (b : string) :
  NoDup (map fst m) -> NoDup (map fst (BackendBuilder.addBlock m b)).
Proof.
  intros H. unfold BackendBuilder.addBlock.
  repeat match goal with
         | |- context [if ?c then _ else _] => destruct c
         end; auto using map_set_NoDup.
Qed.

Lemma frontend_addBlock_NoDup (m : JsMap) (b : string) :
  NoDup (map fst m) -> NoDup (map fst (FrontendBuilder.addBlock m b)).
Proof.
  intros H. unfold FrontendBuilder.addBlock. cbv zeta.
  repeat match goal with
         | |- context [if ?c then _ else _] => destruct c
         end; auto using map_set_NoDup.
Qed.

Lemma backend_sections_NoDup (content : string) :
  NoDup (map fst (BackendBuilder.extractMarkdownSections content)).
Proof.
  unfold BackendBuilder.extractMarkdownSections. cbv zeta.
  assert (H : NoDup (map fst
            match js_match BackendBuilder.sectionRegex content with
            | Some codeBlocks => fold_left BackendBuilder.addBlock codeBlocks []
            | None => []
            end)).
  { destruct (js_match _ _); [|constructor].
    apply fold_left_NoDup; [apply backend_addBlock_NoDup | constructor]. }
  destruct (map_size _ =? 0)%nat; [now apply map_set_NoDup | assumption].
Qed.

Lemma frontend_sections_NoDup (content : string) :
  NoDup (map fst (FrontendBuilder.extractMarkdownSections content)).
Proof.
  unfold FrontendBuilder.extractMarkdownSections. cbv zeta.
  assert (H : NoDup (map fst
            match js_match FrontendBuilder.sectionRegex content with
            | Some codeBlocks => fold_left FrontendBuilder.addBlock codeBlocks []
            | None => []
            end)).
  { destruct (js_match _ _); [|constructor].
    apply fold_left_NoDup; [apply frontend_addBlock_NoDup | constructor]. }
  destruct (map_size _ =? 0)%nat; [now apply map_set_NoDup | assumption].
Qed.

(** A regex that matches only where a fence pair starts finds nothing in a
    text without fence pair. *)
Lemma firstMatch_no_fence (r : regex) (y : string) :
  (forall s rest, exec r s = Some rest -> hasFence s) ->
  ~ hasFence y -> firstMatch r y = None.
Proof.
  intros Hr. induction y as [|c y IH]; intros H; rewrite firstMatch_unfold.
  - destruct (exec r "") eqn:E; [|reflexivity]. now apply Hr in E.
  - destruct (exec r (String c y)) eqn:E; [now apply Hr in E|].
    apply IH. intros F. apply H. apply (hasFence_infix y); [|assumption].
    apply infix_cons, infix_refl.
Qed.

Lemma js_match_no_fence (r : regex) (y : string) :
  (forall s rest, exec r s = Some rest -> hasFence s) ->
  ~ hasFence y -> js_match r y = None.
Proof.
  intros Hr H. pose proof (js_match_first r y) as X.
  rewrite (firstMatch_no_fence r y Hr H) in X.
  destruct (js_match r y) as [[|m l]|]; [destruct X | discriminate X | reflexivity].
Qed.

Lemma covers_cat_inv (r1 r2 : regex) (m : string) :
  covers (Cat r1 r2) m -> exists m1 m2, m = m1 ++ m2 /\ covers r1 m1 /\ covers r2 m2.
Proof. intros H. inversion H; subst. eauto. Qed.

(** Both section regexes have the form fence, tag, line feed, lazy text,
    fence. *)
Lemma exec_section_hasFence (tags : regex) (s rest : string) :
  exec (lit "```" +> tags +> Chr chLF +> LazyAny +> lit "```") s = Some rest ->
  hasFence s.
Proof.
  intros H. apply exec_sound in H as [m [-> C]].
  apply covers_cat_inv in C as [m1 [m2 [-> [C1 C]]]]. apply covers_lit in C1 as ->.
  apply covers_cat_inv in C as [m2' [m3 [-> [_ C]]]].
  apply covers_cat_inv in C as [m3' [m4 [-> [_ C]]]].
  apply covers_cat_inv in C as [m4' [m5 [-> [_ C]]]]. apply covers_lit in C as ->.
  exists "", (m2' ++ m3' ++ m4'), rest. cbn [append]. now rewrite !append_assoc.
Qed.

(** The cleaned text never holds a section: section extraction of a
    cleaned text always falls back to the single ["main"] entry. *)
Lemma backend_sections_of_clean (content : string) :
  BackendBuilder.extractMarkdownSections (BackendBuilder.cleanGeneratedCode content) =
  [("main", BackendBuilder.cleanGeneratedCode content)].
Proof.
  unfold BackendBuilder.cleanGeneratedCode.
  destruct (clean_form BackendBuilder.langs backend_langs_tickfree content)
    as [t [-> [_ [_ [_ Hf]]]]].
  unfold BackendBuilder.extractMarkdownSections. cbv zeta.
  rewrite js_match_no_fence; [reflexivity | apply exec_section_hasFence |].
  intros F. apply Hf. now apply (hasFence_snoc t chLF).
Qed.

Lemma frontend_sections_of_clean (content : string) :
  FrontendBuilder.extractMarkdownSections (FrontendBuilder.cleanGeneratedCode content) =
  [("main", FrontendBuilder.cleanGeneratedCode content)].
Proof.
  unfold FrontendBuilder.cleanGeneratedCode.
  destruct (clean_form FrontendBuilder.langs frontend_langs_tickfree content)
    as [t [-> [_ [_ [_ Hf]]]]].
  unfold FrontendBuilder.extractMarkdownSections. cbv zeta.
  rewrite js_match_no_fence; [reflexivity | apply exec_section_hasFence |].
  intros F. apply Hf. now apply (hasFence_snoc t chLF).
Qed.

(* ================================================================== *)
(** * Placing extracted files *)

Section Placement.

Variables isMain isSecond : string -> bool.

Lemma NoDup_snoc (l : list string) (k : string) :
  NoDup l -> ~ In k l -> NoDup (l ++ [k]).
Proof.
  intros H Hk. apply NoDup_app; [assumption | repeat constructor; intros [] |].
  intros x Hx [<- | []]. contradiction.
Qed.

Lemma placed_NoDup (seen : list string) (t : slots) :
  placed isMain seen t -> NoDup (slotNames t).
Proof.
  destruct t as [[m s] x]. intros [Hm [Hin Hnd]]. unfold slotNames.
  constructor; [|assumption].
  intros H. apply Hin in H as [_ H]. congruence.
Qed.

Lemma placeName_placed (seen : list string) (t : slots) (k : string) :
  placed isMain seen t -> ~ In k seen ->
  placed isMain (seen ++ [k]) (placeName isMain isSecond t k).
Proof.
  destruct t as [[m s] x]. intros [Hm [Hin Hnd]] Hk. unfold placeName.
  destruct (isMain k) eqn:Ek; [|destruct (isSecond k) eqn:Es]; unfold placed.
  - repeat split; try assumption.
    + apply in_or_app. left. now apply Hin.
    + now apply Hin.
  - assert (Hx : NoDup x) by (destruct s; [now inversion Hnd | assumption]).
    assert (Hkx : ~ In k x).
    { intros H. apply Hk. apply (Hin k). apply in_or_app. now right. }
    repeat split; try assumption.
    + destruct H as [<- | H].
      * apply in_or_app. right. now left.
      * apply in_or_app. left. apply (Hin n). apply in_or_app. now right.
    + destruct H as [<- | H]; [assumption|].
      apply (Hin n). apply in_or_app. now right.
    + simpl. constructor; assumption.
  - repeat split; try assumption.
    + rewrite app_assoc in H. apply in_app_or in H as [H | [<- | []]].
      * apply in_or_app. left. now apply Hin.
      * apply in_or_app. right. now left.
    + rewrite app_assoc in H. apply in_app_or in H as [H | [<- | []]].
      * now apply Hin.
      * assumption.
    + rewrite app_assoc. apply NoDup_snoc; [assumption|].
      intros H. apply Hk. now apply Hin.
Qed.

Lemma fold_placeName_placed (keys seen : list string) (t : slots) :
  placed isMain seen t -> NoDup (seen ++ keys) ->
  placed isMain (seen ++ keys) (fold_left (placeName isMain isSecond) keys t).
Proof.
  revert seen t. induction keys as [|k keys IH]; intros seen t Ht Hnd; simpl.
  - now rewrite app_nil_r.
  - replace (seen ++ k :: keys)%list with ((seen ++ [k]) ++ keys)%list in *
      by (now rewrite <- app_assoc).
    apply IH; [|assumption]. apply placeName_placed; [assumption|].
    apply NoDup_app_remove_r in Hnd. apply NoDup_remove_2 in Hnd.
    now rewrite app_nil_r in Hnd.
Qed.

(** Distinct keys placed from a default primary name that passes the
    primary test give distinct target names. *)
Lemma fold_placeName_NoDup (keys : list string) (default : string) :
  isMain default = true -> NoDup keys ->
  NoDup (slotNames (fold_left (placeName isMain isSecond) keys (default, None, []))).
Proof.
  intros Hd Hk. apply (placed_NoDup ([] ++ keys)%list).
  apply fold_placeName_placed; [|assumption].
  unfold placed. simpl. repeat split; try assumption; try contradiction. constructor.
Qed.

End Placement.

Lemma optName_option_map (f : option file) : optName (option_map filename f) = optionalName f.
Proof. now destruct f. Qed.

Lemma backendNames_slots (g : BackendBuilder.GeneratedFiles) :
  backendNames g = slotNames (backendSlots g).
Proof. unfold backendNames, backendSlots, slotNames. now rewrite optName_option_map. Qed.

Lemma frontendNames_slots (g : FrontendBuilder.GeneratedFrontendFiles) :
  frontendNames g = slotNames (frontendSlots g).
Proof. unfold frontendNames, frontendSlots, slotNames. now rewrite optName_option_map. Qed.

Lemma additionalNames_push (l : option (list file)) (f : file) :
  additionalNames (Some (match l with None => [] | Some fs => fs end ++ [f])%list) =
  (additionalNames l ++ [filename f])%list.
Proof. destruct l as [fs|]; simpl; [apply map_app | reflexivity]. Qed.

Lemma backend_placeFile_slots (b : backend_kind) (g : BackendBuilder.GeneratedFiles)
    (e : string * string) :
  backendSlots (BackendBuilder.placeFile b g e) =
  placeName (fun f => BackendBuilder.isMainFile f b) (fun f => endsWith f ".did")
            (backendSlots g) (fst e).
Proof.
  destruct e as [k v]. unfold BackendBuilder.placeFile, placeName, backendSlots.
  cbn [fst]. destruct (BackendBuilder.isMainFile k b); [reflexivity|].
  destruct (endsWith k ".did"); [reflexivity|].
  cbn [BackendBuilder.mainFile BackendBuilder.candidFile BackendBuilder.additionalFiles].
  now rewrite additionalNames_push.
Qed.

Lemma frontend_placeFile_slots (fe : frontend_kind)
    (g : FrontendBuilder.GeneratedFrontendFiles) (e : string * string) :
  frontendSlots (FrontendBuilder.placeFile fe g e) =
  placeName (fun f => FrontendBuilder.isMainAppFile f fe) FrontendBuilder.isStylesFile
            (frontendSlots g) (fst e).
Proof.
  destruct e as [k v]. unfold FrontendBuilder.placeFile, placeName, frontendSlots.
  cbn [fst]. destruct (FrontendBuilder.isMainAppFile k fe); [reflexivity|].
  destruct (FrontendBuilder.isStylesFile k); [reflexivity|].
  cbn [FrontendBuilder.appFile FrontendBuilder.stylesFile FrontendBuilder.additionalFiles].
  now rewrite additionalNames_push.
Qed.

Lemma backend_fold_slots (b : backend_kind) (m : JsMap) :
  forall g,
    backendSlots (fold_left (BackendBuilder.placeFile b) m g) =
    fold_left (placeName (fun f => BackendBuilder.isMainFile f b) (fun f => endsWith f ".did"))
              (map fst m) (backendSlots g).
Proof.
  induction m as [|e m IH]; intros g; simpl; [reflexivity|].
  now rewrite IH, backend_placeFile_slots.
Qed.

Lemma frontend_fold_slots (fe : frontend_kind) (m : JsMap) :
  forall g,
    frontendSlots (fold_left (FrontendBuilder.placeFile fe) m g) =
    fold_left (placeName (fun f => FrontendBuilder.isMainAppFile f fe)
                         FrontendBuilder.isStylesFile)
              (map fst m) (frontendSlots g).
Proof.
  induction m as [|e m IH]; intros g; simpl; [reflexivity|].
  now rewrite IH, frontend_placeFile_slots.
Qed.

(** The placement loop gives distinct target names to any map, whatever
    its keys. *)
Lemma backend_place_NoDup (b : backend_kind) (m : JsMap) :
  NoDup (map fst m) ->
  NoDup (backendNames
           (fold_left (BackendBuilder.placeFile b) m
              (BackendBuilder.mkFiles
                 (mkFile (match b with motoko => "main.mo" | rust => "lib.rs" end) "")
                 None None))).
Proof.
  intros H. rewrite backendNames_slots, backend_fold_slots.
  apply fold_placeName_NoDup; [now destruct b | assumption].
Qed.

Lemma frontend_place_NoDup (fe : frontend_kind) (m : JsMap) :
  NoDup (map fst m) ->
  NoDup (frontendNames
           (fold_left (FrontendBuilder.placeFile fe) m
              (FrontendBuilder.mkFiles
                 (mkFile (match fe with nextjs => "page.tsx" | react => "App.jsx" end) "")
                 None None))).
Proof.
  intros H. rewrite frontendNames_slots, frontend_fold_slots.
  apply fold_placeName_NoDup; [now destruct fe | assumption].
Qed.

(* ================================================================== *)
(** * The specification's properties *)

(** ** Scenarios *)

(** C1. For a rust backend, the response object whose [generatedCode] is
    the fenced text "```rust", line feed, "fn x(){}", line feed, "```"
    parses to a file set with primary file [lib.rs] holding "fn x(){}"
    and one line feed, no candid file and no additional files. *)
Theorem C1_rust_fence_scenario :
  BackendBuilder.parseAIResponse
    (JObject [("generatedCode", JString ("```rust" ++ LF ++ "fn x(){}" ++ LF ++ "```"))])
    rust
  = Some (BackendBuilder.mkFiles (mkFile "lib.rs" ("fn x(){}" ++ LF)) None None).
Proof. vm_compute. reflexivity. Qed.

(** C8, as stated, fails: the cleaned content of the double-escaped
    response is not line feed, comment, line feed; the cleaner's [trim]
    has removed the leading line feed. *)
Lemma C8_leading_newline_is_trimmed :
  option_map (fun g => content (BackendBuilder.mainFile g))
    (BackendBuilder.parseAIResponse escapedHello rust)
  = Some ("// hello" ++ LF)
  /\ (("// hello" ++ LF) =? (LF ++ "// hello" ++ LF))%string = false.
Proof. split; vm_compute; reflexivity. Qed.

(** C8, amended. Parsing the double-escaped response object gives, for
    every backend and frontend kind, a primary file whose content is the
    comment text followed by one real line feed: both escaped newlines are
    unescaped, the leading one is trimmed away and one trailing line feed is
    ensured. *)
Theorem C8_escaped_hello_scenario (b : backend_kind) (fe : frontend_kind) :
  option_map (fun g => content (BackendBuilder.mainFile g))
    (BackendBuilder.parseAIResponse escapedHello b)
  = Some ("// hello" ++ LF)
  /\ option_map (fun g => content (FrontendBuilder.appFile g))
       (FrontendBuilder.parseAIFrontendResponse escapedHello fe)
     = Some ("// hello" ++ LF).
Proof. destruct b, fe; split; vm_compute; reflexivity. Qed.

(** ** The code cleaner *)

(** C3. For every input string, the cleaner's output (of either builder)
    is some body followed by one line feed, the body does not itself end in
    a line feed, and the output holds no carriage return. *)
Theorem C3_clean_ends_with_one_LF_and_has_no_CR (s : string) :
  (exists body,
     BackendBuilder.cleanGeneratedCode s = body ++ LF /\
     endsWith body LF = false /\
     includes (BackendBuilder.cleanGeneratedCode s) CR = false) /\
  (exists body,
     FrontendBuilder.cleanGeneratedCode s = body ++ LF /\
     endsWith body LF = false /\
     includes (FrontendBuilder.cleanGeneratedCode s) CR = false).
Proof.
  split.
  - apply clean_one_LF_no_CR, backend_langs_tickfree.
  - apply clean_one_LF_no_CR, frontend_langs_tickfree.
Qed.

(** C4. The cleaner of either builder is idempotent. *)
Theorem C4_clean_idempotent (s : string) :
  BackendBuilder.cleanGeneratedCode (BackendBuilder.cleanGeneratedCode s)
  = BackendBuilder.cleanGeneratedCode s
  /\ FrontendBuilder.cleanGeneratedCode (FrontendBuilder.cleanGeneratedCode s)
     = FrontendBuilder.cleanGeneratedCode s.
Proof.
  split.
  - apply clean_idempotent, backend_langs_tickfree.
  - apply clean_idempotent, frontend_langs_tickfree.
Qed.

(** ** Section extraction *)

Lemma sections_nonempty (files : JsMap) (content : string) :
  1 <= map_size (if (map_size files =? 0)%nat then map_set "main" content files else files).
Proof.
  destruct (map_size files =? 0)%nat eqn:E.
  - apply map_set_size.
  - apply Nat.eqb_neq in E. lia.
Qed.

(** C5. For every text, section extraction (of either builder) returns at
    least one entry; and when the section regex finds no fence in the text,
    it returns exactly the one entry ["main"] holding the text unchanged. *)
Theorem C5_sections_never_empty (text : string) :
  (1 <= map_size (BackendBuilder.extractMarkdownSections text) /\
   (js_match BackendBuilder.sectionRegex text = None ->
    BackendBuilder.extractMarkdownSections text = [("main", text)])) /\
  (1 <= map_size (FrontendBuilder.extractMarkdownSections text) /\
   (js_match FrontendBuilder.sectionRegex text = None ->
    FrontendBuilder.extractMarkdownSections text = [("main", text)])).
Proof.
  repeat split.
  - apply sections_nonempty.
  - intros H. unfold BackendBuilder.extractMarkdownSections. now rewrite H.
  - apply sections_nonempty.
  - intros H. unfold FrontendBuilder.extractMarkdownSections. now rewrite H.
Qed.

Lemma C5_sections_never_empty_witness :
  js_match BackendBuilder.sectionRegex "fn x(){}" = None /\
  js_match FrontendBuilder.sectionRegex "fn x(){}" = None /\
  BackendBuilder.extractMarkdownSections "fn x(){}" = [("main", "fn x(){}")] /\
  FrontendBuilder.extractMarkdownSections "fn x(){}" = [("main", "fn x(){}")].
Proof.
  destruct (C5_sections_never_empty "fn x(){}") as [[_ Hb] [_ Hf]].
  split; [reflexivity|]. split; [reflexivity|].
  split; [apply Hb | apply Hf]; reflexivity.
Defined.

(** ** Extraction into a file set *)

(** C9. For every content and every stack, the file set that extraction
    returns has a primary file (the record's mandatory first slot, listed
    first among the names) and no two of its entries, primary,
    candid or styles, and additional, bear the same filename. *)
Theorem C9_extracted_names_distinct (text : string) (b : backend_kind) (fe : frontend_kind) :
  (hd_error (backendNames (BackendBuilder.extractFilesFromResponse text b))
     = Some (filename (BackendBuilder.mainFile (BackendBuilder.extractFilesFromResponse text b)))
   /\ NoDup (backendNames (BackendBuilder.extractFilesFromResponse text b))) /\
  (hd_error (frontendNames (FrontendBuilder.extractFrontendFilesFromResponse text fe))
     = Some (filename (FrontendBuilder.appFile
                         (FrontendBuilder.extractFrontendFilesFromResponse text fe)))
   /\ NoDup (frontendNames (FrontendBuilder.extractFrontendFilesFromResponse text fe))).
Proof.
  split; (split; [reflexivity|]).
  - unfold BackendBuilder.extractFilesFromResponse. cbv zeta.
    destruct (1 <? _)%nat.
    + apply backend_place_NoDup, backend_sections_NoDup.
    + repeat constructor. intros [].
  - unfold FrontendBuilder.extractFrontendFilesFromResponse. cbv zeta.
    destruct (1 <? _)%nat.
    + apply frontend_place_NoDup, frontend_sections_NoDup.
    + repeat constructor. intros [].
Qed.

(** C10. Whenever section extraction of the cleaned text yields at most
    one entry, extraction puts the whole cleaned text into the default-named
    primary file ([main.mo] or [lib.rs]; [page.tsx] or [App.jsx]) and
    produces no candid or styles file and no additional files; the name
    the single section would have carried is not used. *)
Theorem C10_single_section_goes_to_default_file
    (text : string) (b : backend_kind) (fe : frontend_kind) :
  (map_size (BackendBuilder.extractMarkdownSections (BackendBuilder.cleanGeneratedCode text))
     <= 1 ->
   BackendBuilder.extractFilesFromResponse text b =
   BackendBuilder.mkFiles
     (mkFile (match b with motoko => "main.mo" | rust => "lib.rs" end)
             (BackendBuilder.cleanGeneratedCode text))
     None None) /\
  (map_size (FrontendBuilder.extractMarkdownSections (FrontendBuilder.cleanGeneratedCode text))
     <= 1 ->
   FrontendBuilder.extractFrontendFilesFromResponse text fe =
   FrontendBuilder.mkFiles
     (mkFile (match fe with nextjs => "page.tsx" | react => "App.jsx" end)
             (FrontendBuilder.cleanGeneratedCode text))
     None None).
Proof.
  split; intros H.
  - unfold BackendBuilder.extractFilesFromResponse. cbv zeta.
    apply Nat.ltb_ge in H. now rewrite H.
  - unfold FrontendBuilder.extractFrontendFilesFromResponse. cbv zeta.
    apply Nat.ltb_ge in H. now rewrite H.
Qed.

(** Section extraction of a text that is one candid fence yields the one
    entry [backend.did]; the size test of extraction, not the number of
    fences, decides whether that name is used. *)
Lemma sections_of_candid_fence :
  BackendBuilder.extractMarkdownSections candidOnly = [("backend.did", "service : {}")].
Proof. vm_compute. reflexivity. Qed.

(** A response that is a single candid fence: its content goes to the
    default primary file of a motoko backend, not to [backend.did]. *)
Lemma C10_single_section_goes_to_default_file_witness :
  BackendBuilder.extractFilesFromResponse candidOnly motoko =
  BackendBuilder.mkFiles
    (mkFile "main.mo" (BackendBuilder.cleanGeneratedCode candidOnly)) None None /\
  FrontendBuilder.extractFrontendFilesFromResponse candidOnly nextjs =
  FrontendBuilder.mkFiles
    (mkFile "page.tsx" (FrontendBuilder.cleanGeneratedCode candidOnly)) None None.
Proof.
  destruct (C10_single_section_goes_to_default_file candidOnly motoko nextjs) as [Hb Hf].
  split; [apply Hb | apply Hf]; vm_compute; apply le_n.
Defined.

(** ** The response normalizer *)

Lemma probeKeys_nonEmpty (v : json) (keys : list string) :
  probeKeys v keys = Spec.firstNonEmptyStringField v keys.
Proof.
  induction keys as [|key keys IH]; [reflexivity|].
  cbn [probeKeys Spec.firstNonEmptyStringField]. rewrite IH.
  destruct (prop v key) as [[| | |[|c s]| |]|];
    cbn [truthy typeof jstype_eqb asString]; rewrite ?andb_false_r; reflexivity.
Qed.

Lemma firstNonEmpty_truthy (v : json) (keys : list string) (s : string) :
  Spec.firstNonEmptyStringField v keys = Some s -> truthy (Some (JString s)) = true.
Proof.
  induction keys as [|key keys IH]; [discriminate|].
  cbn [Spec.firstNonEmptyStringField].
  destruct (prop v key) as [[| | |[|c s']| |]|]; try exact IH.
  intros H. injection H as <-. reflexivity.
Qed.

Lemma firstNonEmpty_array (items : list json) (keys : list string) :
  Spec.firstNonEmptyStringField (JArray items) keys = None.
Proof. induction keys as [|key keys IH]; [reflexivity | exact IH]. Qed.

(** Both parsers, for any primary field and fallback list: failure when
    the narrowed reading of §4.1 finds no candidate, extraction of the
    candidate otherwise. *)
Lemma parse_by_probe {F : Type} (extract : string -> F)
    (primary : string) (fallbacks : list string) (v : json) :
  match
    (if truthy (Some v) && jstype_eqb (typeof (Some v)) TObject
     then probeKeys v (primary :: fallbacks)
     else if jstype_eqb (typeof (Some v)) TString then asString (Some v)
     else None)
  with
  | None => None
  | Some generatedCode =>
      if negb (truthy (Some (JString generatedCode))) then None
      else Some (extract generatedCode)
  end
  = option_map extract (Spec.normalizeNonEmpty primary fallbacks v).
Proof.
  destruct v as [| | |[|c s]|items|fields];
    try (cbn [truthy typeof jstype_eqb asString andb]; rewrite ?andb_false_r;
         reflexivity).
  - cbn [truthy typeof jstype_eqb andb]. rewrite probeKeys_nonEmpty.
    cbn [Spec.normalizeNonEmpty]. now rewrite firstNonEmpty_array.
  - cbn [truthy typeof jstype_eqb andb]. rewrite probeKeys_nonEmpty.
    cbn [Spec.normalizeNonEmpty].
    destruct (Spec.firstNonEmptyStringField _ _) as [s|] eqn:E; [|reflexivity].
    apply firstNonEmpty_truthy in E. cbn [truthy] in E. now rewrite E.
Qed.

(** C2, as stated, fails on empty strings: an object whose primary field
    holds the empty string is read through its fallback field, and a
    response that is the empty string is a failure, while the wording takes
    the empty string as the candidate in both cases. *)
Lemma C2_empty_string_is_not_a_candidate :
  (BackendBuilder.generatedCodeOf emptyPrimary = Some "x" /\
   Spec.normalize "generatedCode" ["code"; "message"; "data"; "content"; "result"]
     emptyPrimary = Some "") /\
  (BackendBuilder.parseAIResponse (JString "") rust = None /\
   Spec.normalize "generatedCode" ["code"; "message"; "data"; "content"; "result"]
     (JString "") = Some "").
Proof. repeat split. Qed.

(** C2, amended. For every response value: an object gives its primary
    field ([generatedCode] for the backend, [code] for the frontend) when
    that field holds a non-empty string, otherwise the first field of the
    fallback list that holds a non-empty string; a non-empty string gives
    itself; every other value (array, number, boolean, null, the empty
    string, an object without such a field) is a failure.  The parser
    returns the extraction of that candidate, or [null] when there is
    none. *)
Theorem C2_normalizer_takes_first_nonempty_string
    (v : json) (b : backend_kind) (fe : frontend_kind) :
  BackendBuilder.parseAIResponse v b =
  option_map (fun code => BackendBuilder.extractFilesFromResponse code b)
    (Spec.normalizeNonEmpty "generatedCode"
       ["code"; "message"; "data"; "content"; "result"] v)
  /\
  FrontendBuilder.parseAIFrontendResponse v fe =
  option_map (fun code => FrontendBuilder.extractFrontendFilesFromResponse code fe)
    (Spec.normalizeNonEmpty "code"
       ["generatedCode"; "content"; "data"; "result"; "message"] v).
Proof.
  split.
  - apply (parse_by_probe (fun code => BackendBuilder.extractFilesFromResponse code b)
             "generatedCode" ["code"; "message"; "data"; "content"; "result"]).
  - apply (parse_by_probe
             (fun code => FrontendBuilder.extractFrontendFilesFromResponse code fe)
             "code" ["generatedCode"; "content"; "data"; "result"; "message"]).
Qed.

(** ** The file classifier *)

Lemma prefix_before_dot (p x e : string) :
  includes p "." = false ->
  prefix p (x ++ String "." e) = prefix p x.
Proof.
  revert x; induction p as [|c p IH]; intros x H.
  - now destruct x.
  - rewrite includes_char in H. apply orb_false_iff in H as [Hc Hp].
    destruct x as [|d x].
    + cbn [append]. rewrite prefix_cons. rewrite Ascii.eqb_sym in Hc. now rewrite Hc.
    + change (String d x ++ String "." e) with (String d (x ++ String "." e)).
      rewrite !prefix_cons. now rewrite IH.
Qed.

(** A name without dot occurs in [a.e] exactly when it occurs in [a] or in
    [e]. *)
Lemma includes_around_dot (p a e : string) (c : ascii) :
  includes (String c p) "." = false ->
  includes (a ++ String "." e) (String c p) =
  includes a (String c p) || includes e (String c p).
Proof.
  intros H. induction a as [|x a IH].
  - cbn [append]. rewrite includes_cons, includes_nil.
    rewrite includes_char in H. apply orb_false_iff in H as [Hc _].
    rewrite prefix_cons. rewrite Ascii.eqb_sym in Hc. now rewrite Hc.
  - change (String x a ++ String "." e) with (String x (a ++ String "." e)).
    rewrite !includes_cons, IH.
    change (String x (a ++ String "." e)) with (String x a ++ String "." e).
    rewrite (prefix_before_dot _ _ _ H). now rewrite orb_assoc.
Qed.

Lemma stem_with_extension (a e : string) :
  includes e "." = false -> Spec.stem (a ++ String "." e) = a.
Proof.
  intros H. induction a as [|x a IH].
  - cbn [append Spec.stem]. rewrite H. reflexivity.
  - change (String x a ++ String "." e) with (String x (a ++ String "." e)).
    cbn [Spec.stem]. rewrite IH.
    assert (X : includes (a ++ String "." e) "." = true).
    { apply includes_spec. now exists a, e. }
    now rewrite X.
Qed.

(** For a name with the extension [.e], looking for [w] in the whole name
    or in its stem is the same, when [w] has no dot and is longer than [e]
    can hold. *)
Lemma includes_stem (f e : string) (c : ascii) (w : string) :
  includes e "." = false ->
  includes (String c w) "." = false ->
  includes e (String c w) = false ->
  endsWith f (String "." e) = true ->
  includes f (String c w) = includes (Spec.stem f) (String c w).
Proof.
  intros He Hw Hew H. apply endsWith_spec in H as [a ->].
  rewrite stem_with_extension by assumption.
  rewrite includes_around_dot by assumption. now rewrite Hew, orb_false_r.
Qed.

(** C6, as stated, fails for the frontend stacks: a [.tsx] file whose stem
    has nothing of ["page"] is primary for nextjs, and so is a file named
    [page.css], whose extension is not the stack's source extension. *)
Lemma C6_frontend_primary_is_a_disjunction :
  (FrontendBuilder.isMainAppFile "Button.tsx" nextjs = true /\
   Spec.primary (Spec.frontendStack nextjs) "Button.tsx" = false) /\
  (FrontendBuilder.isMainAppFile "page.css" nextjs = true /\
   Spec.primary (Spec.frontendStack nextjs) "page.css" = false).
Proof. repeat split. Qed.

(** C6, amended. For a backend stack the classifier returns primary exactly
    when the filename ends in the stack's source extension and either is
    the canonical main filename or has the canonical main stem ([main],
    [lib]) inside its stem.  For a frontend stack it returns primary exactly
    when the filename contains ["page."] or ["App."] (nextjs), ["App."] or
    ["app."] (react), or ends in [.tsx] or [.jsx]: the name test and the
    extension test are alternatives, so every file the backend-style rule
    would call primary is primary, and others are too. *)
Theorem C6_primary_classification (f : string) :
  (forall b, BackendBuilder.isMainFile f b = Spec.primary (Spec.backendStack b) f) /\
  FrontendBuilder.isMainAppFile f nextjs =
    (includes f "page." || includes f "App." || endsWith f ".tsx" || endsWith f ".jsx") /\
  FrontendBuilder.isMainAppFile f react =
    (includes f "App." || includes f "app." || endsWith f ".jsx" || endsWith f ".tsx") /\
  (forall fe, Spec.primary (Spec.frontendStack fe) f = true ->
              FrontendBuilder.isMainAppFile f fe = true).
Proof.
  split; [|split; [|split]].
  - intros [|]; unfold BackendBuilder.isMainFile, Spec.primary; cbn.
    + destruct (endsWith f ".mo") eqn:E; [|reflexivity]. cbn [andb]. f_equal.
      now apply (includes_stem f "mo" "m" "ain").
    + destruct (endsWith f ".rs") eqn:E; [|reflexivity]. cbn [andb]. f_equal.
      now apply (includes_stem f "rs" "l" "ib").
  - reflexivity.
  - unfold FrontendBuilder.isMainAppFile. now rewrite !orb_assoc.
  - intros [|]; unfold Spec.primary, FrontendBuilder.isMainAppFile; cbn;
      intros H; apply andb_true_iff in H as [-> _];
      now rewrite ?orb_true_r.
Qed.

(** ** The status of a build session *)

Section SessionStatus.

Import Pipeline.

(** C7, as stated, fails: in a build where every call succeeds
    [createFullBackend] writes [completed] directly over
    [building-backend], and the orchestrator then writes
    [building-frontend] over [completed]; in a build that cannot create its
    project, [error] is written twice. *)
Lemma C7_status_writes_leave_the_chain :
  (statusTrace smoothEnv "build_1" sampleConfig =
     [StCreatingProject; StBuildingBackend; StCompleted;
      StBuildingFrontend; StBuildingFrontend; StCompleted] /\
   Spec.disciplined StPending (statusTrace smoothEnv "build_1" sampleConfig) = false) /\
  (statusTrace blockedEnv "build_1" sampleConfig =
     [StCreatingProject; StError; StError] /\
   Spec.disciplined StPending (statusTrace blockedEnv "build_1" sampleConfig) = false).
Proof. repeat split; vm_compute; reflexivity. Qed.

(** Runs the monadic code of the pipeline as far as the outside answers
    are known, leaving the two parsers folded. *)
Ltac run_pipeline :=
  cbv [statusTrace finalStatus executeBuildPipeline createFullBackend createFullFrontend
       buildBackendCode buildFrontendCode presentResult createDfxProject
       replaceBackendCode updateDfxConfig replaceFrontendCode updatePackageJson
       createBuildSession getSession setStatus setError setProjectPath setBackendCode
       bind ret throw tryCatch truthyStr negb snd fst app String.eqb
       session statusWrites status error projectPath config backend frontend
       id backendCode frontendCode
       dfxProject backendResponse backendWritten dfxConfigValid frontendResponse
       frontendWritten packageJsonUpdated presentationFault].

(** C7, amended. The values written to the status of a session during one
    build form one of four sequences: [creating-project, error, error];
    [creating-project, building-backend, error, error];
    [creating-project, building-backend, completed, building-frontend,
    building-frontend, completed]; or that last sequence followed by
    [error].  The run ends with the status [completed] or [error]. *)
Theorem C7_status_write_sequences (env : Env) (sessionId : string) (cfg : IcdAppConfig) :
  (statusTrace env sessionId cfg = [StCreatingProject; StError; StError] \/
   statusTrace env sessionId cfg = [StCreatingProject; StBuildingBackend; StError; StError] \/
   statusTrace env sessionId cfg =
     [StCreatingProject; StBuildingBackend; StCompleted;
      StBuildingFrontend; StBuildingFrontend; StCompleted] \/
   statusTrace env sessionId cfg =
     [StCreatingProject; StBuildingBackend; StCompleted;
      StBuildingFrontend; StBuildingFrontend; StCompleted; StError]) /\
  (finalStatus env sessionId cfg = StCompleted \/ finalStatus env sessionId cfg = StError).
Proof.
  destruct env as [dfx bresp bw dc fresp fw pj fault].
  destruct dfx as [[|c p]|]; run_pipeline; auto.
  destruct bresp as [data|]; [|auto].
  destruct (BackendBuilder.parseAIResponse data _) as [files|]; [|auto].
  destruct bw; [|auto 6].
  destruct fresp as [fdata|].
  - destruct (FrontendBuilder.parseAIFrontendResponse fdata _) as [ffiles|].
    + destruct fw; destruct fault; auto 6.
    + destruct fault; auto 6.
  - destruct fault; auto 6.
Qed.

End SessionStatus.

(* ================================================================== *)
(** * Further properties of the code cleaner *)

Lemma noTick_noFence (s : string) : noTick s = true -> ~ hasFence s.
Proof.
  intros H F. apply hasFence_includes in F. now rewrite noTick_no_fence in F.
Qed.

Lemma firstMatch_skip_noTick (langs : regex) (a s : string) :
  tickfree langs = true -> noTick a = true ->
  firstMatch (codeBlockRegex langs) (a ++ s) = firstMatch (codeBlockRegex langs) s.
Proof.
  intros T. induction a as [|c a IH]; [reflexivity|].
  cbn [noTick]. intros H. apply andb_true_iff in H as [Hc Ha]. apply negb_true_iff in Hc.
  change (String c a ++ s) with (String c (a ++ s)).
  rewrite firstMatch_unfold, exec_codeBlock by assumption.
  rewrite (stripPrefix_ticks_cons c (a ++ s) Hc). now apply IH.
Qed.

Section FurtherCleaner.

Variable langs : regex.
Hypothesis langs_tickfree : tickfree langs = true.

(** The leftmost block of a text whose lead holds no backtick, when what
    the opening-fence regex strips from the block is known. *)
Lemma removeMarkdown_first_block (a head inner rest : string) :
  noTick a = true -> noTick head = true -> noTick inner = true ->
  exec (fenceOpenRegex langs) ("```" ++ head ++ inner ++ "```") = Some (inner ++ "```") ->
  removeMarkdownCodeBlocks langs (a ++ "```" ++ head ++ inner ++ "```" ++ rest) = inner.
Proof.
  intros Ha Hh Hi Hopen.
  rewrite removeMarkdown_unfold, firstMatch_skip_noTick by assumption.
  rewrite firstMatch_unfold, exec_codeBlock by assumption.
  rewrite stripPrefix_append.
  replace (head ++ inner ++ "```" ++ rest) with ((head ++ inner) ++ "```" ++ rest)
    by (now rewrite append_assoc).
  rewrite afterTicks_skip by (now rewrite noTick_append, Hh, Hi).
  rewrite afterTicks_unfold, stripPrefix_append.
  replace ("```" ++ (head ++ inner) ++ "```" ++ rest)
    with (("```" ++ head ++ inner ++ "```") ++ rest)
    by (cbn [append]; now rewrite !append_assoc).
  rewrite matched_append, (replace_first_unfold (fenceOpenRegex langs)), Hopen.
  apply replace_first_fenceClose.
Qed.

Lemma clean_no_escape_no_fence (s : string) :
  includes (cleanGeneratedCode langs s) "\n" = false /\
  ~ hasFence (cleanGeneratedCode langs s).
Proof.
  destruct (clean_form langs langs_tickfree s) as [t [-> [_ [_ [Hbn Hf]]]]]. split.
  - now apply includes_bn_snoc.
  - intros F. apply Hf. now apply (hasFence_snoc t chLF).
Qed.

(** The steps after unescaping, on a text they find nothing to do with
    but trim. *)
Lemma clean_plain (s : string) :
  includes s "\n" = false ->
  includes s CR = false ->
  (startsWith s DQ && endsWith s DQ) || (startsWith s SQ && endsWith s SQ) = false ->
  ~ hasFence s ->
  cleanGeneratedCode langs s = trim s ++ LF.
Proof.
  intros Hbn Hcr Hq Hf. unfold cleanGeneratedCode. cbv zeta. rewrite Hbn.
  assert (E2 : replace_all (lit CR) LF (replace_all (lit (CR ++ LF)) LF s) = s).
  { change (CR ++ LF) with (String chCR (String chLF "")).
    unfold CR at 1, LF at 1 2. rewrite replace_all_lit2, replace_all_lit1.
    rewrite replace2_id by exact Hcr. now apply replace1_id. }
  rewrite E2, Hq, (removeMarkdown_id langs langs_tickfree s Hf).
  now rewrite (trimmed_no_LF_end _ (trim_trimmed s)).
Qed.

End FurtherCleaner.

(** ** Quotes, blank texts, escaped texts *)

Lemma slice_inner (c d : ascii) (s : string) :
  slice (String c (s ++ String d "")) 1 (-1) = s.
Proof.
  unfold slice. cbn [String.length]. rewrite length_append. cbn [String.length].
  cbv zeta. cbn [Z.ltb Z.compare].
  replace (Z.to_nat (Z.min 1 (Z.of_nat (S (String.length s + 1))))) with 1 by lia.
  replace (Z.to_nat (Z.max (Z.max (Z.of_nat (S (String.length s + 1)) + -1) 0 -
                            Z.min 1 (Z.of_nat (S (String.length s + 1)))) 0))
    with (String.length s) by lia.
  cbn [substring]. apply substring_prefix.
Qed.

Lemma startsWith_cons (c d : ascii) (s : string) :
  startsWith (String c s) (String d "") = Ascii.eqb d c.
Proof. unfold startsWith. rewrite prefix_cons. destruct s; apply andb_true_r. Qed.

Lemma allChars_no_char (p : ascii -> bool) (c : ascii) (s : string) :
  allChars p s = true -> p c = false -> includes s (String c "") = false.
Proof.
  intros H Hc. induction s as [|x s IH]; [reflexivity|].
  cbn [allChars] in H. apply andb_true_iff in H as [Hx Hs].
  rewrite includes_char, (IH Hs), orb_false_r.
  destruct (Ascii.eqb_spec c x) as [->|]; [congruence | reflexivity].
Qed.

Lemma no_char_no_pair (c d : ascii) (s : string) :
  includes s (String c "") = false -> includes s (String c (String d "")) = false.
Proof.
  intros H. destruct (includes s (String c (String d ""))) eqn:E; [|reflexivity].
  rewrite <- H. symmetry. apply includes_spec. apply includes_spec in E as [a [b ->]].
  exists a, (String d b). reflexivity.
Qed.

Lemma allChars_replace1 (p : ascii -> bool) (a c : ascii) (s : string) :
  p c = true -> allChars p s = true -> allChars p (replace1 a c s) = true.
Proof.
  intros Hc. induction s as [|x s IH]; [reflexivity|].
  cbn [allChars replace1]. intros H. apply andb_true_iff in H as [Hx Hs].
  rewrite (IH Hs), andb_true_r. now destruct (Ascii.eqb a x).
Qed.

Lemma allChars_replace2 (p : ascii -> bool) (a b c : ascii) (s : string) :
  p c = true -> allChars p s = true -> allChars p (replace2 a b c s) = true.
Proof.
  intros Hc. induction s as [|x|x y s IH1 IH2] using string_ind2; try (intros; assumption).
  intros H. pose proof H as H'. cbn [allChars] in H'.
  apply andb_true_iff in H' as [Hx H']. pose proof H' as H''.
  apply andb_true_iff in H'' as [Hy Hs].
  rewrite replace2_cons2. destruct (Ascii.eqb a x && Ascii.eqb b y); cbn [allChars].
  - now rewrite Hc, (IH1 Hs).
  - change (allChars p (String y s)) with (p y && allChars p s) in IH2.
    rewrite Hx. apply IH2. now rewrite Hy, Hs.
Qed.

Lemma allWhite_trim (s : string) : allChars isWhiteSpace s = true -> trim s = "".
Proof.
  intros H. unfold trim.
  assert (E : trimStart s = "").
  { induction s as [|x s IH]; [reflexivity|].
    cbn [allChars] in H. apply andb_true_iff in H as [Hx Hs].
    cbn [trimStart]. rewrite Hx. now apply IH. }
  now rewrite E.
Qed.

Lemma allWhite_noTick (s : string) : allChars isWhiteSpace s = true -> noTick s = true.
Proof.
  induction s as [|x s IH]; [reflexivity|].
  cbn [allChars noTick]. intros H. apply andb_true_iff in H as [Hx Hs].
  rewrite (IH Hs), andb_true_r.
  destruct (Ascii.eqb_spec x chTICK) as [->|]; [discriminate Hx | reflexivity].
Qed.

Lemma allWhite_not_quoted (s : string) (q : ascii) :
  allChars isWhiteSpace s = true -> isWhiteSpace q = false ->
  startsWith s (String q "") = false.
Proof.
  intros H Hq. destruct s as [|x s]; [reflexivity|].
  rewrite startsWith_cons. cbn [allChars] in H. apply andb_true_iff in H as [Hx _].
  destruct (Ascii.eqb_spec q x) as [->|]; [congruence | reflexivity].
Qed.

(** ** Undoing the escapes *)

Lemma replace2_single (a b c x : ascii) : replace2 a b c (String x "") = String x "".
Proof. reflexivity. Qed.

Lemma replace2_pass (a b c x : ascii) (s : string) :
  Ascii.eqb a x = false -> replace2 a b c (String x s) = String x (replace2 a b c s).
Proof.
  intros H. destruct s as [|y s]; [reflexivity|]. now rewrite replace2_cons2, H.
Qed.

(** A scan for a backslash pair treats a piece and what follows it apart. *)
Lemma replace2_piece (b c : ascii) (p rest : string) :
  isPiece p = true ->
  replace2 chBS b c (p ++ rest) = replace2 chBS b c p ++ replace2 chBS b c rest.
Proof.
  destruct p as [|x [|y [|z p]]]; try discriminate; cbn [isPiece]; intros H.
  - apply negb_true_iff in H. cbn [append]. now rewrite replace2_pass.
  - apply andb_true_iff in H as [Hx Hy]. apply negb_true_iff in Hy.
    apply Ascii.eqb_eq in Hx. subst x.
    cbn [append]. rewrite !replace2_cons2, Ascii.eqb_refl. cbn [andb].
    destruct (Ascii.eqb b y); [reflexivity|].
    rewrite replace2_pass by assumption. reflexivity.
Qed.

Lemma replace2_spell (f : ascii -> string) (b c : ascii) (s : string) :
  (forall ch, Ascii.eqb chBS ch = false -> isPiece (f ch) = true) ->
  includes s BS = false ->
  replace2 chBS b c (spell f s) = spell (fun ch => replace2 chBS b c (f ch)) s.
Proof.
  intros Hf. induction s as [|x s IH]; [reflexivity|].
  unfold BS. rewrite includes_char. intros H. apply orb_false_iff in H as [Hx Hs].
  cbn [spell]. rewrite replace2_piece by (now apply Hf). now rewrite IH.
Qed.

Lemma spell_ext (f g : ascii -> string) (s : string) :
  (forall ch, Ascii.eqb chBS ch = false -> f ch = g ch) ->
  includes s BS = false -> spell f s = spell g s.
Proof.
  intros E. induction s as [|x s IH]; [reflexivity|].
  unfold BS. rewrite includes_char. intros H. apply orb_false_iff in H as [Hx Hs].
  cbn [spell]. now rewrite (E x Hx), IH.
Qed.

Lemma spell_single (s : string) : spell (fun ch => String ch "") s = s.
Proof. induction s as [|x s IH]; [reflexivity|]. cbn [spell append]. now rewrite IH. Qed.

Lemma spell_append (f : ascii -> string) (a b : string) :
  spell f (a ++ b) = spell f a ++ spell f b.
Proof.
  induction a as [|x a IH]; [reflexivity|]. cbn [append spell].
  now rewrite IH, append_assoc.
Qed.

(** The five replacements, one after the other, on the escaped form of one
    character that is no backslash. *)
Lemma unescape_char (ch : ascii) :
  Ascii.eqb chBS ch = false ->
  isPiece (escapeChar ch) = true /\
  isPiece (replace2 chBS "n" chLF (escapeChar ch)) = true /\
  isPiece (replace2 chBS "t" chTAB (replace2 chBS "n" chLF (escapeChar ch))) = true /\
  isPiece (replace2 chBS "r" chCR
            (replace2 chBS "t" chTAB (replace2 chBS "n" chLF (escapeChar ch)))) = true /\
  isPiece (replace2 chBS chDQ chDQ
            (replace2 chBS "r" chCR
              (replace2 chBS "t" chTAB (replace2 chBS "n" chLF (escapeChar ch))))) = true /\
  replace2 chBS chBS chBS
    (replace2 chBS chDQ chDQ
      (replace2 chBS "r" chCR
        (replace2 chBS "t" chTAB (replace2 chBS "n" chLF (escapeChar ch)))))
  = String ch "".
Proof.
  intros H. unfold escapeChar.
  destruct (Ascii.eqb_spec ch chLF) as [->|_]; [repeat split|].
  destruct (Ascii.eqb_spec ch chTAB) as [->|_]; [repeat split|].
  destruct (Ascii.eqb_spec ch chCR) as [->|_]; [repeat split|].
  destruct (Ascii.eqb_spec ch chDQ) as [->|_]; [repeat split|].
  rewrite Ascii.eqb_sym, H. rewrite !replace2_single. cbn [isPiece]. rewrite H.
  repeat split.
Qed.

(** Unescaping the escaped form of a text without backslash gives the
    text back. *)
Lemma unescape_escapeText (s : string) :
  includes s BS = false ->
  replace_all (lit "\\") BS
    (replace_all (lit (BS ++ DQ)) DQ
      (replace_all (lit "\r") CR
        (replace_all (lit "\t") TAB
          (replace_all (lit "\n") LF (escapeText s))))) = s.
Proof.
  intros H. change (BS ++ DQ) with (String chBS (String chDQ "")).
  unfold BS, DQ, CR, TAB, LF. rewrite !replace_all_lit2.
  unfold escapeText.
  rewrite (replace2_spell _ "n" chLF) by (first [exact H | intros ch Hch; apply (unescape_char ch Hch)]).
  rewrite (replace2_spell _ "t" chTAB) by (first [exact H | intros ch Hch; apply (unescape_char ch Hch)]).
  rewrite (replace2_spell _ "r" chCR) by (first [exact H | intros ch Hch; apply (unescape_char ch Hch)]).
  rewrite (replace2_spell _ chDQ chDQ) by (first [exact H | intros ch Hch; apply (unescape_char ch Hch)]).
  rewrite (replace2_spell _ chBS chBS) by (first [exact H | intros ch Hch; apply (unescape_char ch Hch)]).
  rewrite (spell_ext _ (fun ch => String ch "")) by (first [exact H | intros ch Hch; apply (unescape_char ch Hch)]).
  apply spell_single.
Qed.

Lemma escapeText_has_escaped_newline (s : string) :
  includes s LF = true -> includes (escapeText s) "\n" = true.
Proof.
  intros H. apply includes_spec in H as [a [b ->]]. apply includes_spec.
  exists (escapeText a), (escapeText b). unfold escapeText.
  now rewrite !spell_append.
Qed.

Section CleanerShapes.

Variable langs : regex.
Hypothesis langs_tickfree : tickfree langs = true.

Lemma removeMarkdown_idem (code : string) :
  removeMarkdownCodeBlocks langs (removeMarkdownCodeBlocks langs code)
  = removeMarkdownCodeBlocks langs code.
Proof. apply removeMarkdown_id; [assumption | now apply removeMarkdown_noFence]. Qed.

Lemma clean_quoted (q : ascii) (s : string) :
  q = chDQ \/ q = chSQ ->
  includes s "\n" = false ->
  includes s CR = false ->
  ~ hasFence s ->
  cleanGeneratedCode langs (String q (s ++ String q "")) = trim s ++ LF.
Proof.
  intros Hq Hbn Hcr Hf. unfold cleanGeneratedCode. cbv zeta.
  assert (Q : Ascii.eqb chBS q = false /\ Ascii.eqb "n" q = false /\ Ascii.eqb chCR q = false).
  { destruct Hq as [-> | ->]; repeat split. }
  destruct Q as [Q1 [Q2 Q3]].
  assert (E1 : includes (String q (s ++ String q "")) "\n" = false).
  { rewrite includes_bn_cons, Q1. now apply includes_bn_snoc. }
  rewrite E1.
  assert (Ecr : includes (String q (s ++ String q "")) CR = false).
  { pose proof Hcr as X. unfold CR in X |- *.
    rewrite includes_char, includes_char_append, X, Q3.
    rewrite includes_char, Q3. reflexivity. }
  assert (E2 : replace_all (lit CR) LF
                 (replace_all (lit (CR ++ LF)) LF (String q (s ++ String q "")))
               = String q (s ++ String q "")).
  { change (CR ++ LF) with (String chCR (String chLF "")).
    unfold CR at 1, LF at 1 2. rewrite replace_all_lit2, replace_all_lit1.
    rewrite replace2_id by exact Ecr. now apply replace1_id. }
  rewrite E2.
  assert (Et : (startsWith (String q (s ++ String q "")) DQ &&
                endsWith (String q (s ++ String q "")) DQ)
               || (startsWith (String q (s ++ String q "")) SQ &&
                   endsWith (String q (s ++ String q "")) SQ) = true).
  { change (String q (s ++ String q "")) with (String q s ++ String q "").
    unfold DQ, SQ. rewrite !endsWith_snoc. cbn [append]. rewrite !startsWith_cons.
    destruct Hq as [-> | ->]; reflexivity. }
  rewrite Et, slice_inner, (removeMarkdown_id langs langs_tickfree s Hf).
  now rewrite (trimmed_no_LF_end _ (trim_trimmed s)).
Qed.

Lemma clean_blank (s : string) :
  allChars isWhiteSpace s = true -> cleanGeneratedCode langs s = LF.
Proof.
  intros H. unfold cleanGeneratedCode. cbv zeta.
  assert (E1 : includes s "\n" = false).
  { apply no_char_no_pair. now apply (allChars_no_char isWhiteSpace). }
  rewrite E1.
  assert (E2 : replace_all (lit CR) LF (replace_all (lit (CR ++ LF)) LF s)
               = replace1 chCR chLF (replace2 chCR chLF chLF s)).
  { change (CR ++ LF) with (String chCR (String chLF "")).
    unfold CR, LF. now rewrite replace_all_lit2, replace_all_lit1. }
  rewrite E2. set (s2 := replace1 chCR chLF (replace2 chCR chLF chLF s)).
  assert (W : allChars isWhiteSpace s2 = true).
  { apply allChars_replace1; [reflexivity|]. now apply allChars_replace2. }
  unfold DQ, SQ.
  rewrite (allWhite_not_quoted s2 chDQ W), (allWhite_not_quoted s2 chSQ W) by reflexivity.
  cbn [andb orb].
  rewrite (removeMarkdown_id langs langs_tickfree)
    by (now apply noTick_noFence, allWhite_noTick).
  now rewrite (allWhite_trim s2 W).
Qed.

Lemma clean_escaped (s : string) :
  includes s BS = false -> includes s LF = true ->
  cleanGeneratedCode langs (escapeText s) = cleanGeneratedCode langs s.
Proof.
  intros Hb Hl. unfold cleanGeneratedCode. cbv zeta.
  rewrite (escapeText_has_escaped_newline s Hl), (unescape_escapeText s Hb).
  assert (E : includes s "\n" = false) by (now apply no_char_no_pair).
  now rewrite E.
Qed.

End CleanerShapes.

(** X1. [removeMarkdownCodeBlocks] (of either builder) returns a run of
    consecutive characters of its argument that holds no pair of fences; it
    returns a text without a pair of fences unchanged, and applying it
    twice is the same as applying it once. *)
Theorem X1_removeMarkdown_returns_a_fence_free_part (code : string) :
  (infix (BackendBuilder.removeMarkdownCodeBlocks code) code /\
   ~ hasFence (BackendBuilder.removeMarkdownCodeBlocks code) /\
   (~ hasFence code -> BackendBuilder.removeMarkdownCodeBlocks code = code) /\
   BackendBuilder.removeMarkdownCodeBlocks (BackendBuilder.removeMarkdownCodeBlocks code)
   = BackendBuilder.removeMarkdownCodeBlocks code) /\
  (infix (FrontendBuilder.removeMarkdownCodeBlocks code) code /\
   ~ hasFence (FrontendBuilder.removeMarkdownCodeBlocks code) /\
   (~ hasFence code -> FrontendBuilder.removeMarkdownCodeBlocks code = code) /\
   FrontendBuilder.removeMarkdownCodeBlocks (FrontendBuilder.removeMarkdownCodeBlocks code)
   = FrontendBuilder.removeMarkdownCodeBlocks code).
Proof.
  split; (split; [|split; [|split]]).
  - apply removeMarkdown_infix, backend_langs_tickfree.
  - apply removeMarkdown_noFence, backend_langs_tickfree.
  - apply removeMarkdown_id, backend_langs_tickfree.
  - apply removeMarkdown_idem, backend_langs_tickfree.
  - apply removeMarkdown_infix, frontend_langs_tickfree.
  - apply removeMarkdown_noFence, frontend_langs_tickfree.
  - apply removeMarkdown_id, frontend_langs_tickfree.
  - apply removeMarkdown_idem, frontend_langs_tickfree.
Qed.

Lemma X1_removeMarkdown_returns_a_fence_free_part_witness :
  BackendBuilder.removeMarkdownCodeBlocks "let x = `a`" = "let x = `a`" /\
  FrontendBuilder.removeMarkdownCodeBlocks "let x = `a`" = "let x = `a`".
Proof.
  assert (H : ~ hasFence "let x = `a`").
  { apply (firstMatch_codeBlock_none _ backend_langs_tickfree). reflexivity. }
  destruct (X1_removeMarkdown_returns_a_fence_free_part "let x = `a`")
    as [[_ [_ [Hb _]]] [_ [_ [Hf _]]]].
  split; [apply Hb | apply Hf]; exact H.
Defined.

(** X2. Of a text whose first fence opens a block with one of the
    builder's own tags (or none) followed by a line feed,
    [removeMarkdownCodeBlocks] returns the inner text of that block alone:
    what stands before the block and everything after its closing fence is
    dropped.  The text before the block and the inner text hold no
    backtick. *)
Theorem X2_removeMarkdown_keeps_the_first_block_only
    (a inner rest : string) (Ha : noTick a = true) (Hi : noTick inner = true) :
  (forall t, In t [""; "motoko"; "rust"; "mo"; "rs"] ->
     BackendBuilder.removeMarkdownCodeBlocks
       (a ++ "```" ++ (t ++ LF) ++ inner ++ "```" ++ rest) = inner) /\
  (forall t, In t [""; "jsx"; "tsx"; "javascript"; "typescript"; "react"; "nextjs"] ->
     FrontendBuilder.removeMarkdownCodeBlocks
       (a ++ "```" ++ (t ++ LF) ++ inner ++ "```" ++ rest) = inner).
Proof.
  split; intros t Ht; cbn [In] in Ht;
    repeat (destruct Ht as [<- | Ht]); try destruct Ht;
    (apply removeMarkdown_first_block; [reflexivity | assumption | reflexivity | assumption
                                       | reflexivity]).
Qed.

Lemma X2_removeMarkdown_keeps_the_first_block_only_witness :
  BackendBuilder.removeMarkdownCodeBlocks
    ("Here is the canister:" ++ LF ++ "```rust" ++ LF ++ "fn x(){}" ++ LF ++ "```" ++ LF ++
     "Deploy it with dfx.") = "fn x(){}" ++ LF.
Proof.
  exact (proj1 (X2_removeMarkdown_keeps_the_first_block_only
                  ("Here is the canister:" ++ LF) ("fn x(){}" ++ LF)
                  (LF ++ "Deploy it with dfx.") eq_refl eq_refl)
               "rust" (or_intror (or_intror (or_introl eq_refl)))).
Defined.

(** X3. The cleaned text (of either builder) holds no backslash followed
    by [n] and no pair of fences: no escaped newline and no complete fenced
    block survives cleaning. *)
Theorem X3_clean_leaves_no_escaped_newline_and_no_block (s : string) :
  (includes (BackendBuilder.cleanGeneratedCode s) "\n" = false /\
   ~ hasFence (BackendBuilder.cleanGeneratedCode s)) /\
  (includes (FrontendBuilder.cleanGeneratedCode s) "\n" = false /\
   ~ hasFence (FrontendBuilder.cleanGeneratedCode s)).
Proof.
  split.
  - apply clean_no_escape_no_fence, backend_langs_tickfree.
  - apply clean_no_escape_no_fence, frontend_langs_tickfree.
Qed.

(** X4. A text that holds no backslash-n pair, no carriage return and no
    pair of fences, and is not wrapped in a pair of quotes, is cleaned to
    its trimmed form followed by one line feed: nothing inside it is
    changed. *)
Theorem X4_clean_trims_plain_text (s : string)
    (Hbn : includes s "\n" = false)
    (Hcr : includes s CR = false)
    (Hq : (startsWith s DQ && endsWith s DQ) || (startsWith s SQ && endsWith s SQ) = false)
    (Hf : ~ hasFence s) :
  BackendBuilder.cleanGeneratedCode s = trim s ++ LF /\
  FrontendBuilder.cleanGeneratedCode s = trim s ++ LF.
Proof.
  split.
  - now apply clean_plain; [apply backend_langs_tickfree | | | |].
  - now apply clean_plain; [apply frontend_langs_tickfree | | | |].
Qed.

Lemma X4_clean_trims_plain_text_witness :
  BackendBuilder.cleanGeneratedCode "  actor { public func greet() {} }  "
  = "actor { public func greet() {} }" ++ LF /\
  FrontendBuilder.cleanGeneratedCode "  actor { public func greet() {} }  "
  = "actor { public func greet() {} }" ++ LF.
Proof.
  apply (X4_clean_trims_plain_text "  actor { public func greet() {} }  "
           eq_refl eq_refl eq_refl).
  apply noTick_noFence. reflexivity.
Defined.

(** X5. A text wrapped in one pair of double quotes, or in one pair of
    single quotes, loses exactly that pair: when the text inside holds no
    backslash-n pair, no carriage return and no pair of fences, the result
    is the trimmed inside followed by one line feed, whatever quotes the
    inside has of its own. *)
Theorem X5_clean_strips_one_pair_of_quotes (s : string)
    (Hbn : includes s "\n" = false)
    (Hcr : includes s CR = false)
    (Hf : ~ hasFence s) :
  (BackendBuilder.cleanGeneratedCode (DQ ++ s ++ DQ) = trim s ++ LF /\
   BackendBuilder.cleanGeneratedCode (SQ ++ s ++ SQ) = trim s ++ LF) /\
  (FrontendBuilder.cleanGeneratedCode (DQ ++ s ++ DQ) = trim s ++ LF /\
   FrontendBuilder.cleanGeneratedCode (SQ ++ s ++ SQ) = trim s ++ LF).
Proof.
  repeat split.
  - apply (clean_quoted _ backend_langs_tickfree chDQ); auto.
  - apply (clean_quoted _ backend_langs_tickfree chSQ); auto.
  - apply (clean_quoted _ frontend_langs_tickfree chDQ); auto.
  - apply (clean_quoted _ frontend_langs_tickfree chSQ); auto.
Qed.

Lemma X5_clean_strips_one_pair_of_quotes_witness :
  BackendBuilder.cleanGeneratedCode (DQ ++ (DQ ++ "hello" ++ DQ) ++ DQ)
  = (DQ ++ "hello" ++ DQ) ++ LF /\
  FrontendBuilder.cleanGeneratedCode (SQ ++ " const a = 1; " ++ SQ)
  = "const a = 1;" ++ LF.
Proof.
  split.
  - refine (proj1 (proj1 (X5_clean_strips_one_pair_of_quotes (DQ ++ "hello" ++ DQ)
                            eq_refl eq_refl _))).
    apply noTick_noFence. reflexivity.
  - refine (proj2 (proj2 (X5_clean_strips_one_pair_of_quotes " const a = 1; "
                            eq_refl eq_refl _))).
    apply noTick_noFence. reflexivity.
Defined.

(** X7. Unescaping undoes escaping: for a text that holds no backslash and
    at least one line feed, cleaning its escaped form (line feed, tab,
    carriage return and double quote written as backslash pairs) gives what
    cleaning the text itself gives. *)
Theorem X7_clean_undoes_escaping (s : string)
    (Hb : includes s BS = false) (Hl : includes s LF = true) :
  BackendBuilder.cleanGeneratedCode (escapeText s) = BackendBuilder.cleanGeneratedCode s /\
  FrontendBuilder.cleanGeneratedCode (escapeText s) = FrontendBuilder.cleanGeneratedCode s.
Proof.
  split.
  - now apply clean_escaped.
  - now apply clean_escaped.
Qed.

Lemma X7_clean_undoes_escaping_witness :
  BackendBuilder.cleanGeneratedCode
    ("fn greet() {\n\tprint(" ++ BS ++ DQ ++ "hi" ++ BS ++ DQ ++ ")\n}")
  = BackendBuilder.cleanGeneratedCode
      ("fn greet() {" ++ LF ++ TAB ++ "print(" ++ DQ ++ "hi" ++ DQ ++ ")" ++ LF ++ "}").
Proof.
  exact (proj1 (X7_clean_undoes_escaping
                  ("fn greet() {" ++ LF ++ TAB ++ "print(" ++ DQ ++ "hi" ++ DQ ++ ")" ++ LF ++ "}")
                  eq_refl eq_refl)).
Defined.

(** ** Extraction and parsing, in closed form *)

Lemma backend_extract_single (text : string) (b : backend_kind) :
  BackendBuilder.extractFilesFromResponse text b =
  BackendBuilder.mkFiles
    (mkFile (match b with motoko => "main.mo" | rust => "lib.rs" end)
            (BackendBuilder.cleanGeneratedCode text))
    None None.
Proof.
  unfold BackendBuilder.extractFilesFromResponse. cbv zeta.
  now rewrite backend_sections_of_clean.
Qed.

Lemma frontend_extract_single (text : string) (fe : frontend_kind) :
  FrontendBuilder.extractFrontendFilesFromResponse text fe =
  FrontendBuilder.mkFiles
    (mkFile (match fe with nextjs => "page.tsx" | react => "App.jsx" end)
            (FrontendBuilder.cleanGeneratedCode text))
    None None.
Proof.
  unfold FrontendBuilder.extractFrontendFilesFromResponse. cbv zeta.
  now rewrite frontend_sections_of_clean.
Qed.

(** X6. A text of white space only (the empty text too) is cleaned to a
    single line feed, and extraction makes of it a primary file holding
    that line feed. *)
Theorem X6_blank_text_becomes_one_line_feed
    (s : string) (b : backend_kind) (fe : frontend_kind)
    (H : allChars isWhiteSpace s = true) :
  (BackendBuilder.cleanGeneratedCode s = LF /\
   BackendBuilder.extractFilesFromResponse s b =
   BackendBuilder.mkFiles
     (mkFile (match b with motoko => "main.mo" | rust => "lib.rs" end) LF) None None) /\
  (FrontendBuilder.cleanGeneratedCode s = LF /\
   FrontendBuilder.extractFrontendFilesFromResponse s fe =
   FrontendBuilder.mkFiles
     (mkFile (match fe with nextjs => "page.tsx" | react => "App.jsx" end) LF) None None).
Proof.
  assert (B : BackendBuilder.cleanGeneratedCode s = LF)
    by (now apply clean_blank; [apply backend_langs_tickfree|]).
  assert (F : FrontendBuilder.cleanGeneratedCode s = LF)
    by (now apply clean_blank; [apply frontend_langs_tickfree|]).
  repeat split; try assumption.
  - now rewrite backend_extract_single, B.
  - now rewrite frontend_extract_single, F.
Qed.

Lemma X6_blank_text_becomes_one_line_feed_witness :
  BackendBuilder.cleanGeneratedCode (" " ++ CR ++ LF ++ TAB) = LF /\
  FrontendBuilder.cleanGeneratedCode "" = LF.
Proof.
  split.
  - exact (proj1 (proj1 (X6_blank_text_becomes_one_line_feed
                           (" " ++ CR ++ LF ++ TAB) rust react eq_refl))).
  - exact (proj1 (proj2 (X6_blank_text_becomes_one_line_feed "" rust react eq_refl))).
Defined.

(** X8. Extraction (of either builder) always returns a single file: the
    default-named primary file holding the whole cleaned text, with no
    candid or styles file and no additional files.  The cleaner has taken
    every fenced block away before the sections are looked for, so the loop
    that places several files is never entered. *)
Theorem X8_extraction_always_yields_one_file
    (text : string) (b : backend_kind) (fe : frontend_kind) :
  BackendBuilder.extractFilesFromResponse text b =
  BackendBuilder.mkFiles
    (mkFile (match b with motoko => "main.mo" | rust => "lib.rs" end)
            (BackendBuilder.cleanGeneratedCode text))
    None None /\
  FrontendBuilder.extractFrontendFilesFromResponse text fe =
  FrontendBuilder.mkFiles
    (mkFile (match fe with nextjs => "page.tsx" | react => "App.jsx" end)
            (FrontendBuilder.cleanGeneratedCode text))
    None None.
Proof. split; [apply backend_extract_single | apply frontend_extract_single]. Qed.

Lemma option_map_ext {A B : Type} (f g : A -> B) (o : option A) :
  (forall a, f a = g a) -> option_map f o = option_map g o.
Proof. intros E. destruct o; simpl; [now rewrite E | reflexivity]. Qed.

Lemma backend_parse_closed (v : json) (b : backend_kind) :
  BackendBuilder.parseAIResponse v b =
  option_map
    (fun code =>
       BackendBuilder.mkFiles
         (mkFile (match b with motoko => "main.mo" | rust => "lib.rs" end)
                 (BackendBuilder.cleanGeneratedCode code))
         None None)
    (Spec.normalizeNonEmpty "generatedCode"
       ["code"; "message"; "data"; "content"; "result"] v).
Proof.
  rewrite <- (option_map_ext _ _ _ (fun code => backend_extract_single code b)).
  apply (parse_by_probe (fun code => BackendBuilder.extractFilesFromResponse code b)
           "generatedCode" ["code"; "message"; "data"; "content"; "result"]).
Qed.

Lemma frontend_parse_closed (v : json) (fe : frontend_kind) :
  FrontendBuilder.parseAIFrontendResponse v fe =
  option_map
    (fun code =>
       FrontendBuilder.mkFiles
         (mkFile (match fe with nextjs => "page.tsx" | react => "App.jsx" end)
                 (FrontendBuilder.cleanGeneratedCode code))
         None None)
    (Spec.normalizeNonEmpty "code"
       ["generatedCode"; "content"; "data"; "result"; "message"] v).
Proof.
  rewrite <- (option_map_ext _ _ _ (fun code => frontend_extract_single code fe)).
  apply (parse_by_probe
           (fun code => FrontendBuilder.extractFrontendFilesFromResponse code fe)
           "code" ["generatedCode"; "content"; "data"; "result"; "message"]).
Qed.

(** X9. Each parser returns [null] exactly when the response holds no
    non-empty string where it looks for one, and otherwise a single file:
    the default-named primary file holding the cleaned candidate, a text
    that ends in a line feed, without candid or styles file and without
    additional files. *)
Theorem X9_parser_in_closed_form (v : json) (b : backend_kind) (fe : frontend_kind) :
  BackendBuilder.parseAIResponse v b =
  option_map
    (fun code =>
       BackendBuilder.mkFiles
         (mkFile (match b with motoko => "main.mo" | rust => "lib.rs" end)
                 (BackendBuilder.cleanGeneratedCode code))
         None None)
    (Spec.normalizeNonEmpty "generatedCode"
       ["code"; "message"; "data"; "content"; "result"] v)
  /\
  FrontendBuilder.parseAIFrontendResponse v fe =
  option_map
    (fun code =>
       FrontendBuilder.mkFiles
         (mkFile (match fe with nextjs => "page.tsx" | react => "App.jsx" end)
                 (FrontendBuilder.cleanGeneratedCode code))
         None None)
    (Spec.normalizeNonEmpty "code"
       ["generatedCode"; "content"; "data"; "result"; "message"] v).
Proof. split; [apply backend_parse_closed | apply frontend_parse_closed]. Qed.

(* ================================================================== *)
(** * Section extraction on well-formed responses *)

Lemma lazy_fence (s : string) :
  rmatch (LazyAny +> lit "```") s Some = afterTicks s.
Proof.
  change (rmatch (LazyAny +> lit "```") s Some)
    with (lazy_any (fun s4 => rmatch (lit "```") s4 Some) s).
  unfold afterTicks. apply lazy_any_ext. intros s4.
  rewrite rmatch_lit. now destruct (stripPrefix "```" s4).
Qed.

Lemma afterTicks_body (body rest : string) :
  noTick body = true -> afterTicks (body ++ "```" ++ rest) = Some rest.
Proof.
  intros H. rewrite afterTicks_skip by assumption.
  now rewrite afterTicks_unfold, stripPrefix_append.
Qed.

(** Skipping exactly the characters of a match resumes the scan behind
    it. *)
Lemma match_all_skip (r : regex) (m rest : string) :
  match_all_from r (String.length m) (m ++ rest) = match_all_from r 0 rest.
Proof. induction m as [|c m IH]; [reflexivity | exact IH]. Qed.

Lemma match_all_zero (r : regex) (s : string) :
  match_all_from r 0 s =
  match exec r s with
  | Some rest =>
      matched s rest ::
      match s with
      | "" => []
      | String _ s' => match_all_from r (Nat.pred (String.length s - String.length rest)) s'
      end
  | None =>
      match s with
      | "" => []
      | String _ s' => match_all_from r 0 s'
      end
  end.
Proof. destruct s; reflexivity. Qed.

Lemma match_all_at (r : regex) (c : ascii) (m rest : string) :
  exec r (String c m ++ rest) = Some rest ->
  match_all_from r 0 (String c m ++ rest) = String c m :: match_all_from r 0 rest.
Proof.
  intros H. rewrite match_all_zero, H, matched_append. f_equal.
  cbn [append String.length]. rewrite length_append.
  replace (Nat.pred (S (String.length m + String.length rest) - String.length rest))
    with (String.length m) by lia.
  apply match_all_skip.
Qed.

Lemma match_all_at' (r : regex) (m rest : string) :
  m <> "" ->
  exec r (m ++ rest) = Some rest ->
  match_all_from r 0 (m ++ rest) = m :: match_all_from r 0 rest.
Proof. destruct m as [|c m]; [contradiction | intros _; apply match_all_at]. Qed.

Lemma match_all_lead (r : regex) (a s : string) :
  (forall c t, Ascii.eqb c chTICK = false -> exec r (String c t) = None) ->
  noTick a = true ->
  match_all_from r 0 (a ++ s) = match_all_from r 0 s.
Proof.
  intros Hr. induction a as [|c a IH]; [reflexivity|].
  cbn [noTick]. intros H. apply andb_true_iff in H as [Hc Ha]. apply negb_true_iff in Hc.
  change (String c a ++ s) with (String c (a ++ s)).
  rewrite match_all_zero, (Hr c (a ++ s) Hc). now apply IH.
Qed.

Lemma match_all_tail (r : regex) (tail : string) :
  (forall c t, Ascii.eqb c chTICK = false -> exec r (String c t) = None) ->
  exec r "" = None ->
  noTick tail = true ->
  match_all_from r 0 tail = [].
Proof.
  intros Hr H0 H. rewrite <- (append_nil_r tail), match_all_lead by assumption.
  rewrite match_all_zero. now rewrite H0.
Qed.

(** The matches of a regex in a rendered list of sections are the blocks of
    the sections, when the regex matches each block where it starts and
    nothing that starts with another character. *)
Lemma match_all_render (r : regex) (tags : list string) (secs : list fenced) (tail : string) :
  (forall c t, Ascii.eqb c chTICK = false -> exec r (String c t) = None) ->
  exec r "" = None ->
  (forall f rest, wellFenced tags f = true -> exec r (blockOf f ++ rest) = Some rest) ->
  forallb (wellFenced tags) secs = true ->
  noTick tail = true ->
  match_all_from r 0 (render secs tail) = map blockOf secs.
Proof.
  intros Hr H0 Hb. induction secs as [|f secs IH]; intros Hs Ht.
  - now apply match_all_tail.
  - cbn [forallb] in Hs. apply andb_true_iff in Hs as [Hf Hs].
    cbn [render map].
    assert (Hl : noTick (lead f) = true).
    { unfold wellFenced in Hf. apply andb_true_iff in Hf as [Hf _].
      now apply andb_true_iff in Hf as [_ Hf]. }
    rewrite match_all_lead by assumption.
    rewrite match_all_at'; [now rewrite (IH Hs Ht) | discriminate | now apply Hb].
Qed.

Lemma includes_longer (s p : string) :
  String.length s < String.length p -> includes s p = false.
Proof.
  intros H. destruct (includes s p) eqn:E; [|reflexivity].
  apply includes_spec in E as [a [b ->]]. rewrite !length_append in H. lia.
Qed.

Lemma includes_body_fence (B w : string) (x : ascii) :
  noTick B = true -> includes (B ++ "```") ("```" ++ String x w) = false.
Proof.
  induction B as [|c B IH]; intros H.
  - apply includes_longer. cbn [append String.length]. lia.
  - cbn [noTick] in H. apply andb_true_iff in H as [Hc HB]. apply negb_true_iff in Hc.
    change (String c B ++ "```") with (String c (B ++ "```")).
    rewrite includes_cons, (IH HB), orb_false_r.
    change ("```" ++ String x w) with (String "`" ("``" ++ String x w)).
    rewrite prefix_cons.
    rewrite Ascii.eqb_sym in Hc. unfold chTICK in Hc. now rewrite Hc.
Qed.

(** Whether a block holds a fence followed by [w]: only its opening fence
    can be that fence. *)
Lemma includes_block_tag (B w : string) (c x : ascii) :
  noTick (String c B) = true ->
  includes ("```" ++ String c B ++ "```") ("```" ++ String x w)
  = prefix (String x w) (String c B ++ "```").
Proof.
  intros H. pose proof H as H'. cbn [noTick] in H'.
  apply andb_true_iff in H' as [Hc _]. apply negb_true_iff in Hc.
  rewrite Ascii.eqb_sym in Hc. unfold chTICK in Hc.
  change ("```" ++ String c B ++ "```")
    with (String "`" (String "`" (String "`" (String c B ++ "```")))).
  change ("```" ++ String x w) with (String "`" (String "`" (String "`" (String x w)))).
  rewrite !includes_cons, !prefix_cons, !Ascii.eqb_refl. cbn [andb].
  change (String c B ++ "```") with (String c (B ++ "```")) at 2 3.
  rewrite !prefix_cons, Hc. cbn [andb orb].
  change (String "`" (String "`" (String "`" (String x w)))) with ("```" ++ String x w).
  rewrite (includes_body_fence (String c B) w x H). apply orb_false_r.
Qed.

Lemma rmatch_cat {A : Type} (r1 r2 : regex) (s : string) (k : string -> option A) :
  rmatch (r1 +> r2) s k = rmatch r1 s (fun s' => rmatch r2 s' k).
Proof. reflexivity. Qed.

(** A regex that opens with a fence matches nothing that opens with
    another character, and not the empty text. *)
Lemma exec_fence_first (r : regex) (c : ascii) (t : string) :
  Ascii.eqb c chTICK = false -> exec (lit "```" +> r) (String c t) = None.
Proof.
  intros H. unfold exec. now rewrite rmatch_cat, rmatch_lit, stripPrefix_ticks_cons.
Qed.

Lemma section_tail (b rest : string) :
  noTick b = true ->
  rmatch (Chr chLF +> LazyAny +> lit "```") (LF ++ b ++ "```" ++ rest) Some = Some rest.
Proof.
  intros H. rewrite rmatch_cat.
  change (rmatch (Chr chLF) (LF ++ b ++ "```" ++ rest)
            (fun s' => rmatch (LazyAny +> lit "```") s' Some))
    with (rmatch (LazyAny +> lit "```") (b ++ "```" ++ rest) Some).
  rewrite lazy_fence. now apply afterTicks_body.
Qed.

Lemma blockOf_append (f : fenced) (rest : string) :
  blockOf f ++ rest = "```" ++ tag f ++ LF ++ body f ++ "```" ++ rest.
Proof. unfold blockOf. now rewrite !append_assoc. Qed.

(** Which fence-and-tag a block holds is decided by its own tag. *)
Lemma includes_blockOf (f : fenced) (x : ascii) (w : string) :
  noTick (tag f) = true -> noTick (body f) = true ->
  includes (blockOf f) ("```" ++ String x w)
  = prefix (String x w) (tag f ++ LF ++ body f ++ "```").
Proof.
  intros Ht Hb. unfold blockOf. destruct (tag f) as [|c t].
  - change ("```" ++ "" ++ LF ++ body f ++ "```")
      with ("```" ++ String chLF (body f) ++ "```").
    rewrite includes_block_tag; [reflexivity|]. cbn [noTick]. now rewrite Hb.
  - replace ("```" ++ String c t ++ LF ++ body f ++ "```")
      with ("```" ++ String c (t ++ LF ++ body f) ++ "```")
      by (cbn [append]; now rewrite !append_assoc).
    rewrite includes_block_tag.
    + cbn [append]. now rewrite !append_assoc.
    + cbn [noTick] in Ht |- *. apply andb_true_iff in Ht as [Hc Ht].
      rewrite Hc, !noTick_append, Ht, Hb. reflexivity.
Qed.

(** What a block's code is, when the regex that removes its opening line
    is known to leave the inner text and the closing fence. *)
Lemma replace_open_close (r : regex) (f : fenced) :
  exec r (blockOf f) = Some (body f ++ "```") ->
  trim (replace_first (lit "```" +> EndAnchor) "" (replace_first r "" (blockOf f)))
  = trim (body f).
Proof.
  intros H. rewrite (replace_first_unfold r), H. cbn [append].
  change (lit "```" +> EndAnchor)%re with fenceCloseRegex.
  now rewrite replace_first_fenceClose.
Qed.

Lemma fold_left_map_ext {A B C : Type} (g : B -> C) (f : A -> C -> A) (h : A -> B -> A)
    (P : B -> bool) (l : list B) (a : A) :
  (forall a b, P b = true -> f a (g b) = h a b) ->
  forallb P l = true ->
  fold_left f (map g l) a = fold_left h l a.
Proof.
  intros E. revert a. induction l as [|b l IH]; intros a H; [reflexivity|].
  cbn [forallb] in H. apply andb_true_iff in H as [Hb Hl].
  cbn [map fold_left]. rewrite (E a b Hb). now apply IH.
Qed.

Lemma wellFenced_inv (tags : list string) (f : fenced) :
  wellFenced tags f = true ->
  In (tag f) tags /\ noTick (lead f) = true /\ noTick (body f) = true.
Proof.
  unfold wellFenced. intros H.
  apply andb_true_iff in H as [H Hb]. apply andb_true_iff in H as [H Hl].
  repeat split; try assumption.
  apply existsb_exists in H as [t [Hin E]]. apply String.eqb_eq in E. now subst t.
Qed.

Lemma backend_exec_block (f : fenced) (rest : string) :
  wellFenced backendTags f = true ->
  exec BackendBuilder.sectionRegex (blockOf f ++ rest) = Some rest.
Proof.
  intros H. apply wellFenced_inv in H as [Hin [_ Hb]].
  rewrite blockOf_append. destruct f as [l t b]. cbn [tag body] in *.
  unfold exec, BackendBuilder.sectionRegex.
  rewrite rmatch_cat, rmatch_lit, stripPrefix_append, rmatch_cat.
  rewrite <- (section_tail b rest Hb).
  set (k := fun s' => rmatch (Chr chLF +> LazyAny +> lit "```") s' Some).
  change (rmatch (Chr chLF +> LazyAny +> lit "```") (LF ++ b ++ "```" ++ rest) Some)
    with (k (LF ++ b ++ "```" ++ rest)).
  unfold backendTags in Hin. cbn [In] in Hin.
  repeat (destruct Hin as [<- | Hin]); try destruct Hin;
    cbn [rmatch lit append Ascii.eqb Bool.eqb];
    now destruct (k _).
Qed.

Lemma frontend_exec_block (f : fenced) (rest : string) :
  wellFenced frontendTags f = true ->
  exec FrontendBuilder.sectionRegex (blockOf f ++ rest) = Some rest.
Proof.
  intros H. apply wellFenced_inv in H as [Hin [_ Hb]].
  rewrite blockOf_append. destruct f as [l t b]. cbn [tag body] in *.
  unfold exec, FrontendBuilder.sectionRegex.
  rewrite rmatch_cat, rmatch_lit, stripPrefix_append, rmatch_cat.
  rewrite <- (section_tail b rest Hb).
  set (k := fun s' => rmatch (Chr chLF +> LazyAny +> lit "```") s' Some).
  change (rmatch (Chr chLF +> LazyAny +> lit "```") (LF ++ b ++ "```" ++ rest) Some)
    with (k (LF ++ b ++ "```" ++ rest)).
  unfold frontendTags in Hin. cbn [In] in Hin.
  repeat (destruct Hin as [<- | Hin]); try destruct Hin;
    cbn [rmatch lit append Ascii.eqb Bool.eqb];
    now destruct (k _).
Qed.

(** One turn of the backend loop on the block of a section enters the
    section under its tag's filename. *)
Lemma backend_addBlock_block (m : JsMap) (f : fenced) :
  wellFenced backendTags f = true ->
  BackendBuilder.addBlock m (blockOf f) = recordSection backendFileOf m f.
Proof.
  intros H. apply wellFenced_inv in H as [Hin [_ Hb]].
  unfold BackendBuilder.addBlock, BackendBuilder.blockCode, recordSection.
  destruct f as [l t b]. cbn [tag body] in *.
  unfold backendTags in Hin. cbn [In] in Hin.
  repeat (destruct Hin as [<- | Hin]); try destruct Hin;
    rewrite ?(includes_blockOf _ "m" "otoko"), ?(includes_blockOf _ "r" "ust"),
            ?(includes_blockOf _ "c" "andid"), ?(includes_blockOf _ "t" "oml")
      by (first [exact Hb | reflexivity]);
    cbn [tag body append]; rewrite ?prefix_cons;
    cbn [Ascii.eqb Bool.eqb andb prefix];
    rewrite replace_open_close by reflexivity; reflexivity.
Qed.

Lemma frontend_addBlock_block (m : JsMap) (f : fenced) :
  wellFenced frontendTags f = true ->
  FrontendBuilder.addBlock m (blockOf f) = recordSection frontendFileOf m f.
Proof.
  intros H. apply wellFenced_inv in H as [Hin [_ Hb]].
  unfold FrontendBuilder.addBlock, FrontendBuilder.blockCode, recordSection. cbv zeta.
  destruct f as [l t b]. cbn [tag body] in *.
  unfold frontendTags in Hin. cbn [In] in Hin.
  repeat (destruct Hin as [<- | Hin]); try destruct Hin;
    rewrite ?(includes_blockOf _ "j" "sx"), ?(includes_blockOf _ "t" "sx"),
            ?(includes_blockOf _ "c" "ss"), ?(includes_blockOf _ "s" "css"),
            ?(includes_blockOf _ "j" "son")
      by (first [exact Hb | reflexivity]);
    cbn [tag body append]; rewrite ?prefix_cons;
    cbn [Ascii.eqb Bool.eqb andb orb prefix];
    rewrite ?replace_open_close by reflexivity; reflexivity.
Qed.

Lemma sentinel_or_map (m : JsMap) (text : string) :
  (if (map_size m =? 0)%nat then map_set "main" text m else m)
  = match m with
    | [] => [("main", text)]
    | _ => m
    end.
Proof. now destruct m. Qed.

Lemma fold_js_match (r : regex) (s : string) (l : list string)
    (g : JsMap -> string -> JsMap) :
  match_all_from r 0 s = l ->
  match js_match r s with
  | Some codeBlocks => fold_left g codeBlocks []
  | None => []
  end = fold_left g l [].
Proof. intros <-. unfold js_match. now destruct (match_all_from r 0 s). Qed.

(** X10. Section extraction in closed form.  For a response made of
    fenced sections, each opened by a fence, one of the builder's tags and
    a line feed, with no backtick inside the sections, between them or
    after them, the extracted map is what entering the sections one by one
    under their tags' filenames gives, each with its inner text trimmed: a
    later section of the same filename overwrites the earlier one in
    place.  Frontend sections tagged [javascript] or [typescript] are
    matched but entered nowhere.  When nothing is entered the map is the
    single entry ["main"] with the whole response. *)
Theorem X10_sections_of_a_fenced_response (secs : list fenced) (tail : string)
    (Ht : noTick tail = true) :
  (forallb (wellFenced backendTags) secs = true ->
   BackendBuilder.extractMarkdownSections (render secs tail) =
   match fold_left (recordSection backendFileOf) secs [] with
   | [] => [("main", render secs tail)]
   | m => m
   end) /\
  (forallb (wellFenced frontendTags) secs = true ->
   FrontendBuilder.extractMarkdownSections (render secs tail) =
   match fold_left (recordSection frontendFileOf) secs [] with
   | [] => [("main", render secs tail)]
   | m => m
   end).
Proof.
  split; intros Hs.
  - unfold BackendBuilder.extractMarkdownSections. cbv zeta.
    rewrite (fold_js_match _ _ (map blockOf secs)).
    + rewrite sentinel_or_map.
      rewrite (fold_left_map_ext blockOf _ (recordSection backendFileOf)
                 (wellFenced backendTags) secs []
                 (fun a b => backend_addBlock_block a b) Hs).
      now destruct (fold_left (recordSection backendFileOf) secs []).
    + apply (match_all_render _ backendTags); try assumption.
      * intros c t Hc. now apply exec_fence_first.
      * reflexivity.
      * apply backend_exec_block.
  - unfold FrontendBuilder.extractMarkdownSections. cbv zeta.
    rewrite (fold_js_match _ _ (map blockOf secs)).
    + rewrite sentinel_or_map.
      rewrite (fold_left_map_ext blockOf _ (recordSection frontendFileOf)
                 (wellFenced frontendTags) secs []
                 (fun a b => frontend_addBlock_block a b) Hs).
      now destruct (fold_left (recordSection frontendFileOf) secs []).
    + apply (match_all_render _ frontendTags); try assumption.
      * intros c t Hc. now apply exec_fence_first.
      * reflexivity.
      * apply frontend_exec_block.
Qed.

Lemma X10_sections_of_a_fenced_response_witness :
  BackendBuilder.extractMarkdownSections
    (render [mkFenced "Code:" "rust" (" fn a(){} " ++ LF);
             mkFenced (LF ++ "Interface:") "candid" "service : {}";
             mkFenced LF "rust" "fn b(){}"] (LF ++ "Done."))
  = [("lib.rs", "fn b(){}"); ("backend.did", "service : {}")] /\
  FrontendBuilder.extractMarkdownSections
    (render [mkFenced "" "javascript" "let a = 1"] "")
  = [("main", "```javascript" ++ LF ++ "let a = 1```")].
Proof.
  split.
  - exact (proj1 (X10_sections_of_a_fenced_response
                    [mkFenced "Code:" "rust" (" fn a(){} " ++ LF);
                     mkFenced (LF ++ "Interface:") "candid" "service : {}";
                     mkFenced LF "rust" "fn b(){}"] (LF ++ "Done.") eq_refl) eq_refl).
  - exact (proj2 (X10_sections_of_a_fenced_response
                    [mkFenced "" "javascript" "let a = 1"] "" eq_refl) eq_refl).
Defined.

Section SessionEffects.

Import Pipeline.

(** Runs the monadic code of the builders on a session as far as the
    outside answers are known, leaving the two parsers folded. *)
Ltac run_session :=
  cbv [executeBuildPipeline createFullBackend createFullFrontend
       buildBackendCode buildFrontendCode presentResult createDfxProject
       replaceBackendCode updateDfxConfig replaceFrontendCode updatePackageJson
       getSession setStatus setError setProjectPath setBackendCode
       bind ret throw tryCatch truthyStr negb andb snd fst String.eqb
       session statusWrites status error projectPath config backend frontend
       id backendCode frontendCode
       dfxProject backendResponse backendWritten dfxConfigValid frontendResponse
       frontendWritten packageJsonUpdated presentationFault].

(** X11. [createFullBackend] never throws.  It returns [true] exactly when
    the project was created under a non-empty path, the generation
    response was parsed and the files were written; whether [dfx.json]
    was found valid plays no part.  It leaves the status [completed] when
    it returns [true] and [error] when it returns [false]. *)
Theorem X11_backend_stage_result (env : Env) (w : world) :
  exists (success : bool) (w' : world),
    createFullBackend env w = (Returned success, w') /\
    success =
      (truthyStr (dfxProject env) &&
       match backendResponse env with
       | Some data =>
           match BackendBuilder.parseAIResponse data (backend (config (session w))) with
           | Some _ => true
           | None => false
           end
       | None => false
       end &&
       backendWritten env) /\
    status (session w') = (if success then StCompleted else StError).
Proof.
  destruct env as [dfx bresp bw dc fresp fw pj fault]. destruct w as [s tr].
  destruct dfx as [[|c p]|]; run_session; try (do 2 eexists; repeat split; reflexivity).
  destruct bresp as [data|]; [|do 2 eexists; repeat split; reflexivity].
  destruct (BackendBuilder.parseAIResponse data _) as [files|];
    [|do 2 eexists; repeat split; reflexivity].
  destruct bw; do 2 eexists; repeat split; reflexivity.
Qed.

(** X12. What [createFullBackend] leaves in the session.  After [true]:
    the project path is the created one, [backendCode] is the content of
    the parsed primary file, and [error] is as it was.  After [false]:
    [error] is one of the three messages of the stage, so never empty and
    never the message of the [catch] branch; the project path is set
    whenever the project was created, and [backendCode] whenever the
    response was parsed, also when writing the files failed.  The session
    id and configuration are never changed. *)
Theorem X12_backend_stage_session (env : Env) (w : world) :
  exists (success : bool) (w' : world),
    createFullBackend env w = (Returned success, w') /\
    id (session w') = id (session w) /\
    config (session w') = config (session w) /\
    frontendCode (session w') = frontendCode (session w) /\
    if success then
      projectPath (session w') = dfxProject env /\
      (exists data files,
         backendResponse env = Some data /\
         BackendBuilder.parseAIResponse data (backend (config (session w))) = Some files /\
         backendCode (session w') = Some (content (BackendBuilder.mainFile files))) /\
      error (session w') = error (session w)
    else
      (error (session w') = Some "Failed to create project" /\
       truthyStr (dfxProject env) = false /\
       projectPath (session w') = projectPath (session w) /\
       backendCode (session w') = backendCode (session w)) \/
      (error (session w') = Some "Failed to generate backend code" /\
       projectPath (session w') = dfxProject env /\
       backendCode (session w') = backendCode (session w)) \/
      (error (session w') = Some "Failed to replace backend code" /\
       projectPath (session w') = dfxProject env /\
       exists data files,
         backendResponse env = Some data /\
         BackendBuilder.parseAIResponse data (backend (config (session w))) = Some files /\
         backendCode (session w') = Some (content (BackendBuilder.mainFile files))).
Proof.
  destruct env as [dfx bresp bw dc fresp fw pj fault]. destruct w as [s tr].
  destruct dfx as [[|c p]|]; run_session;
    try (exists false; eexists; repeat split; left; repeat split; reflexivity).
  destruct bresp as [data|];
    [|exists false; eexists; repeat split; right; left; repeat split; reflexivity].
  destruct (BackendBuilder.parseAIResponse data _) as [files|] eqn:E;
    [|exists false; eexists; repeat split; right; left; repeat split; reflexivity].
  destruct bw.
  - exists true. eexists. repeat split. exists data, files. repeat split; assumption.
  - exists false. eexists. repeat split. right; right. repeat split.
    exists data, files. repeat split; assumption.
Qed.


(** X14. The answers of the frontend stage (the generation response,
    whether the files were written, whether [package.json] was updated)
    and the validation of [dfx.json] have no influence on the outcome of
    the build, on the statuses written, or on the project path and backend
    code it leaves in the session. *)
Theorem X14_frontend_answers_do_not_decide_the_build
    (env : Env) (w : world) (valid written updated : bool) (response : option json) :
  fst (executeBuildPipeline (withAnswers env valid response written updated) w) =
    fst (executeBuildPipeline env w) /\
  statusWrites (snd (executeBuildPipeline (withAnswers env valid response written updated) w)) =
    statusWrites (snd (executeBuildPipeline env w)) /\
  status (session (snd (executeBuildPipeline
                          (withAnswers env valid response written updated) w))) =
    status (session (snd (executeBuildPipeline env w))) /\
  projectPath (session (snd (executeBuildPipeline
                               (withAnswers env valid response written updated) w))) =
    projectPath (session (snd (executeBuildPipeline env w))) /\
  backendCode (session (snd (executeBuildPipeline
                               (withAnswers env valid response written updated) w))) =
    backendCode (session (snd (executeBuildPipeline env w))).
Proof.
  destruct env as [dfx bresp bw dc fresp fw pj fault]. destruct w as [s tr].
  unfold withAnswers.
  destruct dfx as [[|c p]|]; run_session; try solve [repeat split; reflexivity].
  destruct bresp as [data|]; [|repeat split; reflexivity].
  destruct (BackendBuilder.parseAIResponse data _) as [files|]; [|repeat split; reflexivity].
  destruct bw; [|repeat split; reflexivity].
  destruct response as [rdata|]; destruct fresp as [fdata|];
    repeat match goal with
           | |- context [FrontendBuilder.parseAIFrontendResponse ?d ?k] =>
               destruct (FrontendBuilder.parseAIFrontendResponse d k)
           end;
    destruct written; destruct fw; destruct fault; repeat split; reflexivity.
Qed.


End SessionEffects.

Section FullstackProject.

Import Pipeline.

Ltac run_project :=
  cbv [ProjectManager.createFullstackProject ProjectManager.enhanceFrontend
       ProjectManager.buildFrontendCode ProjectManager.replaceFrontendFiles
       ProjectManager.setFrontendCode
       executeBuildPipeline createFullBackend createFullFrontend
       buildBackendCode buildFrontendCode presentResult createDfxProject
       replaceBackendCode updateDfxConfig replaceFrontendCode updatePackageJson
       getSession setStatus setError setProjectPath setBackendCode
       bind ret throw tryCatch truthyStr negb andb orb snd fst String.eqb
       session statusWrites status error projectPath config backend frontend
       id backendCode frontendCode description
       dfxProject backendResponse backendWritten dfxConfigValid frontendResponse
       frontendWritten packageJsonUpdated presentationFault].

(** X15. [ProjectManager.createFullstackProject] never throws and returns
    what the backend stage returns: the test of [session.projectPath]
    beside it never decides, and neither does the frontend step.  After
    [true] the status is [completed], the writes were [creating-project]
    twice, [building-backend], [completed], [building-frontend],
    [completed], and [error] is as it was, whatever the frontend step did;
    [frontendCode] is as it was or the content of the parsed primary
    frontend file.  After [false] the status is [error], the message is the
    backend stage's, nothing was written after that stage and
    [frontendCode] is as it was. *)
Theorem X15_fullstack_project_follows_the_backend_stage
    (env : Env) (fault : option string) (w : world) :
  exists (success : bool) (wb w' : world),
    createFullBackend env w = (Returned success, wb) /\
    ProjectManager.createFullstackProject env fault w = (Returned success, w') /\
    if success then
      status (session w') = StCompleted /\
      statusWrites w' =
        (statusWrites w ++
         [StCreatingProject; StCreatingProject; StBuildingBackend; StCompleted;
          StBuildingFrontend; StCompleted])%list /\
      error (session w') = error (session w) /\
      (frontendCode (session w') = frontendCode (session w) \/
       exists data files,
         frontendResponse env = Some data /\
         FrontendBuilder.parseAIFrontendResponse data (frontend (config (session w)))
           = Some files /\
         fault = None /\
         frontendCode (session w') = Some (content (FrontendBuilder.appFile files)))
    else
      status (session w') = StError /\
      (statusWrites w' =
         (statusWrites w ++ [StCreatingProject; StCreatingProject; StError])%list \/
       statusWrites w' =
         (statusWrites w ++
          [StCreatingProject; StCreatingProject; StBuildingBackend; StError])%list) /\
      error (session w') = error (session wb) /\
      frontendCode (session w') = frontendCode (session w).
Proof.
  destruct env as [dfx bresp bw dc fresp fw pj pf].
  destruct w as [[i [fk bk ds pn] bc fc st er pp] tr].
  assert (A3 : forall a b c : Status, (((tr ++ [a]) ++ [b]) ++ [c] = tr ++ [a; b; c])%list)
    by (intros; now rewrite <- !app_assoc).
  assert (A4 : forall a b c d : Status,
             ((((tr ++ [a]) ++ [b]) ++ [c]) ++ [d] = tr ++ [a; b; c; d])%list)
    by (intros; now rewrite <- !app_assoc).
  assert (A6 : forall a b c d e f : Status,
             ((((((tr ++ [a]) ++ [b]) ++ [c]) ++ [d]) ++ [e]) ++ [f]
              = tr ++ [a; b; c; d; e; f])%list)
    by (intros; now rewrite <- !app_assoc).
  destruct dfx as [[|c p]|]; run_project;
    try solve [exists false; do 2 eexists; repeat split; rewrite ?A3; auto].
  destruct bresp as [data|];
    [|exists false; do 2 eexists; repeat split; rewrite ?A4; auto].
  destruct (BackendBuilder.parseAIResponse data _) as [files|];
    [|exists false; do 2 eexists; repeat split; rewrite ?A4; auto].
  destruct bw; [|exists false; do 2 eexists; repeat split; rewrite ?A4; auto].
  exists true.
  destruct ds as [|d1 d]; run_project;
    [do 2 eexists; repeat split; rewrite ?A6; auto|].
  destruct i as [|i1 i]; run_project;
    [do 2 eexists; repeat split; rewrite ?A6; auto|].
  destruct fresp as [fdata|]; [|do 2 eexists; repeat split; rewrite ?A6; auto].
  destruct (FrontendBuilder.parseAIFrontendResponse fdata _) as [ffiles|] eqn:E;
    [|do 2 eexists; repeat split; rewrite ?A6; auto].
  destruct fault as [e|]; run_project; [do 2 eexists; repeat split; rewrite ?A6; auto|].
  do 2 eexists. repeat split; rewrite ?A6; auto.
  right. exists fdata, ffiles. auto.
Qed.

End FullstackProject.

Section OnDisk.

Import ProjectStructure.

Variable existsSync : string -> bool.
Variable join : list string -> string.
Variable basename : string -> string.

Ltac ask_disk :=
  repeat match goal with
         | |- context [existsSync ?p] => destruct (existsSync p)
         end.

(** X16. [validateProjectStructure] reports valid exactly when [dfx.json],
    the backend source directory, the main backend file of the configured
    language and the frontend directory all exist; it reports at most four
    errors, and valid exactly when it reports none. *)
Theorem X16_backend_structure_valid_iff_all_present
    (projectPath : string) (config : Pipeline.IcdAppConfig) :
  valid (validateProjectStructure existsSync join basename projectPath config) =
    existsSync (join [projectPath; "dfx.json"]) &&
    existsSync (getBackendSourcePath join basename projectPath (Pipeline.backend config)) &&
    existsSync (getMainBackendFilePath join basename projectPath (Pipeline.backend config)) &&
    existsSync (join [projectPath; "src"; basename projectPath ++ "_frontend"]) /\
  valid (validateProjectStructure existsSync join basename projectPath config) =
    match errors (validateProjectStructure existsSync join basename projectPath config) with
    | [] => true
    | _ => false
    end /\
  List.length
    (errors (validateProjectStructure existsSync join basename projectPath config)) <= 4.
Proof.
  cbv [validateProjectStructure pushUnless getMainBackendFilePath getBackendSourcePath
       valid errors].
  ask_disk; cbn; repeat split; lia.
Qed.

(** X17. [validateFullstackProject] repeats the errors of
    [validateProjectStructure] and adds its own.  When the frontend
    directory is missing it adds the message for it a second time, after
    the one the backend validation ended with, and nothing else.  When the
    directory exists it adds at most the messages for the frontend [src]
    directory and [package.json].  It reports valid exactly when the
    backend validation does and these two paths exist. *)
Theorem X17_fullstack_validation_extends_the_backend_validation
    (projectPath : string) (config : Pipeline.IcdAppConfig) :
  (if existsSync (join [projectPath; "src"; basename projectPath ++ "_frontend"]) then
     exists more,
       errors (validateFullstackProject existsSync join basename projectPath config) =
         (errors (validateProjectStructure existsSync join basename projectPath config)
          ++ more)%list /\
       List.length more <= 2
   else
     exists before,
       errors (validateProjectStructure existsSync join basename projectPath config) =
         (before ++
          [("Frontend directory not found: " ++
            join [projectPath; "src"; basename projectPath ++ "_frontend"])%string])%list /\
       errors (validateFullstackProject existsSync join basename projectPath config) =
         (before ++
          [("Frontend directory not found: " ++
            join [projectPath; "src"; basename projectPath ++ "_frontend"])%string;
           ("Frontend directory not found: " ++
            join [projectPath; "src"; basename projectPath ++ "_frontend"])%string])%list) /\
  valid (validateFullstackProject existsSync join basename projectPath config) =
    valid (validateProjectStructure existsSync join basename projectPath config) &&
    existsSync (join [join [projectPath; "src"; basename projectPath ++ "_frontend"]; "src"]) &&
    existsSync (join [join [projectPath; "src"; basename projectPath ++ "_frontend"];
                      "package.json"]).
Proof.
  cbv [validateFullstackProject validateProjectStructure pushUnless
       getMainBackendFilePath getBackendSourcePath valid errors].
  destruct (existsSync (join [projectPath; "src"; basename projectPath ++ "_frontend"])).
  - split.
    + ask_disk; cbn; eexists; (split; [reflexivity|cbn; lia]).
    + ask_disk; reflexivity.
  - split.
    + ask_disk; cbn;
        first [ refine (ex_intro _ [] _); split; reflexivity
              | refine (ex_intro _ [_] _); split; reflexivity
              | refine (ex_intro _ [_; _] _); split; reflexivity
              | refine (ex_intro _ [_; _; _] _); split; reflexivity ].
    + ask_disk; reflexivity.
Qed.

(** X18. [validateFrontendStructure] reports valid exactly when the
    frontend directory, its [package.json] and the app and styles files of
    the configured framework all exist.  When the frontend directory is
    missing it reports that one error and looks no further. *)
Theorem X18_frontend_structure_valid_iff_all_present
    (projectPath : string) (config : Pipeline.IcdAppConfig) :
  valid (validateFrontendStructure existsSync join basename projectPath config) =
    existsSync (join [projectPath; "src"; basename projectPath ++ "_frontend"]) &&
    existsSync (join [join [projectPath; "src"; basename projectPath ++ "_frontend"];
                      "package.json"]) &&
    existsSync (fst (getFrontendFilePaths join basename projectPath
                       (Pipeline.frontend config))) &&
    existsSync (snd (getFrontendFilePaths join basename projectPath
                       (Pipeline.frontend config))) /\
  (if existsSync (join [projectPath; "src"; basename projectPath ++ "_frontend"]) then
     List.length
       (errors (validateFrontendStructure existsSync join basename projectPath config)) <= 3
   else
     errors (validateFrontendStructure existsSync join basename projectPath config) =
       [("Frontend directory not found: " ++
         join [projectPath; "src"; basename projectPath ++ "_frontend"])%string]).
Proof.
  cbv [validateFrontendStructure pushUnless valid errors].
  destruct (existsSync (join [projectPath; "src"; basename projectPath ++ "_frontend"])).
  - split; ask_disk; cbn; try reflexivity; lia.
  - split; reflexivity.
Qed.

End OnDisk.
